(** * libmtd_legacy: the /proc/mtd scanner and the legacy descriptor assembly

    A shallow embedding of [libmtd_legacy.c] (pre-2.6.30 MTD support):
    the textual scanner over the buffered contents of [/proc/mtd]
    ([proc_parse_start], [proc_parse_next]), the two enumeration entry points
    ([legacy_dev_present], [legacy_mtd_get_info]), the out-of-band probe
    ([legacy_get_mtd_oobavail]) and the descriptor assembly
    ([legacy_get_dev_info], [legacy_get_dev_info1], [legacy_get_dev_info2]).

    C [int]s are integers in [Z] with the conversions written out, the scan
    buffer is a list of bytes addressed by offsets, and the calls into the
    operating system are answered by an explicit environment.  Resources
    (open descriptors, live heap blocks), [errno], the diagnostics printed and
    the buffer offsets read are threaded through every function as a ghost
    state. *)

From Stdlib Require Import String Ascii ZArith List Bool Lia DecimalString.
Import ListNotations.
Local Open Scope Z_scope.

(** ** C integers *)

Definition INT_MAX : Z := 2147483647.

(** Conversion to a 32-bit [int] (two's complement wrap-around). *)
Definition to_int (z : Z) : Z := (z + 2147483648) mod 4294967296 - 2147483648.

(** Conversion to a 64-bit [long long]. *)
Definition to_llong (z : Z) : Z :=
  (z + 9223372036854775808) mod 18446744073709551616 - 9223372036854775808.

(** ** Bytes *)

Definition code (c : ascii) : Z := Z.of_N (N_of_ascii c).

Definition NUL : ascii := "000"%char.
Definition quote : ascii := "034"%char.
Definition newline : ascii := "010"%char.

(** The C string starting at the head of [s]: everything before the first NUL. *)
Fixpoint cstr (s : list ascii) : list ascii :=
  match s with
  | [] => []
  | c :: s' => if Ascii.eqb c NUL then [] else c :: cstr s'
  end.

(** [strcmp(a, b) == 0]. *)
Definition streq (a b : list ascii) : bool :=
  if list_eq_dec ascii_dec (cstr a) (cstr b) then true else false.

(** The bytes of memory from offset [p] on. *)
Definition from (p : Z) (l : list ascii) : list ascii := skipn (Z.to_nat p) l.

(** The byte at offset [p]; memory past the modelled bytes reads as NUL. *)
Definition byte_at (l : list ascii) (p : Z) : ascii := nth (Z.to_nat p) l NUL.

(** Offsets [p], [p+1], ..., [p+n-1]. *)
Definition span (p : Z) (n : nat) : list Z := map (fun i => p + Z.of_nat i) (seq 0 n).

Fixpoint index_of (c : ascii) (l : list ascii) : option nat :=
  match l with
  | [] => None
  | x :: l' => if Ascii.eqb x c then Some O else option_map S (index_of c l')
  end.

(** [memchr(buf + p, c, n)]: the offset of the first [c] among the [n] bytes at
    [p], and the offsets examined (all up to and including the hit, or all [n]
    of them). *)
Definition memchr (l : list ascii) (p : Z) (c : ascii) (n : Z) : option Z * list Z :=
  match index_of c (firstn (Z.to_nat n) (from p l)) with
  | Some i => (Some (p + Z.of_nat i), span p (S i))
  | None => (None, span p (Z.to_nat n))
  end.

(** ** Constants of the source and of the headers it includes *)

Definition MTD_DEV_MAJOR : Z := 90.

Definition PROC_MTD_FIRST : list ascii :=
  list_ascii_of_string "dev:    size   erasesize  name" ++ [newline].
Definition PROC_MTD_FIRST_LEN : Z := Z.of_nat (length PROC_MTD_FIRST).
Definition PROC_MTD_MAX_LEN : Z := 4096.

(** [errno] values of <errno.h> on Linux. *)
Definition ENOENT : Z := 2.
Definition ENODEV : Z := 19.
Definition EINVAL : Z := 22.
Definition EOPNOTSUPP : Z := 95.

(** Device types and flags of <mtd/mtd-abi.h>. *)
Definition MTD_ABSENT : Z := 0.
Definition MTD_RAM : Z := 1.
Definition MTD_ROM : Z := 2.
Definition MTD_NORFLASH : Z := 3.
Definition MTD_NANDFLASH : Z := 4.
Definition MTD_DATAFLASH : Z := 6.
Definition MTD_UBIVOLUME : Z := 7.
Definition MTD_MLCNANDFLASH : Z := 8.
Definition MTD_WRITEABLE : Z := 1024.

(** ** The model of [sscanf]

    A format is a list of directives; [PROC_MTD_PATT] is ["mtd%d: %llx %x"].
    The interpreter follows the C library: an ordinary character must match
    the next input byte, white space in the format skips any run of white
    space, a conversion skips white space, then reads an optional sign, for
    the hexadecimal conversions an optional [0x] and the longest run of digits.
    A value that does not fit the receiving object is stored modulo its
    width. *)

Inductive conv := ConvD | ConvLLX | ConvX.
Inductive directive := Lit (c : ascii) | Space | Conv (k : conv).

Definition PROC_MTD_PATT : list directive :=
  [Lit "m"; Lit "t"; Lit "d"; Conv ConvD; Lit ":"; Space; Conv ConvLLX; Space; Conv ConvX]%char.

Definition isspace (c : ascii) : bool :=
  (code c =? 32) || ((9 <=? code c) && (code c <=? 13)).

Definition digit_of (c : ascii) : option Z :=
  if (48 <=? code c) && (code c <=? 57) then Some (code c - 48) else None.

Definition xdigit_of (c : ascii) : option Z :=
  if (48 <=? code c) && (code c <=? 57) then Some (code c - 48)
  else if (97 <=? code c) && (code c <=? 102) then Some (code c - 87)
  else if (65 <=? code c) && (code c <=? 70) then Some (code c - 55)
  else None.

Definition is_x (c : ascii) : bool := (code c =? 120) || (code c =? 88).

Fixpoint skip_space (s : list ascii) : list ascii :=
  match s with
  | c :: s' => if isspace c then skip_space s' else s
  | [] => []
  end.

(** The longest run of digits: its value on top of [acc], how many digits were
    read on top of [n], and the input left. *)
Fixpoint scan_digits (val : ascii -> option Z) (base acc : Z) (n : nat) (s : list ascii)
  : Z * nat * list ascii :=
  match s with
  | c :: s' =>
      match val c with
      | Some d => scan_digits val base (acc * base + d) (S n) s'
      | None => (acc, n, s)
      end
  | [] => (acc, n, [])
  end.

Definition is_hex (k : conv) : bool :=
  match k with ConvD => false | _ => true end.

(** The value as stored in the receiving object: [int *] for [%d],
    [long long *] for [%llx] (the source passes [&pi->size]) and [int *] for
    [%x] (the source passes [&pi->eb_size]).  A value that does not fit is
    kept modulo the width of the object; the C library may store another
    value then and set [errno], which the model does not follow through
    [sscanf]: none of the numbered properties below rests on the value stored
    in that case or on [errno] being left alone by [sscanf]. *)
Definition store (k : conv) (v : Z) : Z :=
  match k with ConvLLX => to_llong v | _ => to_int v end.

(** One numeric conversion on input whose leading white space is gone:
    [Some v] and the input left, or [None] when no digit was found. *)
Definition scan_number (k : conv) (s : list ascii) : option Z * list ascii :=
  let '(neg, s1) :=
    match s with
    | c :: s' => if code c =? 45 then (true, s')
                 else if code c =? 43 then (false, s') else (false, s)
    | [] => (false, s)
    end in
  let '(pre, s2) :=
    match s1 with
    | z :: x :: s' =>
        if is_hex k && (code z =? 48) && is_x x then (1%nat, s') else (O, s1)
    | _ => (O, s1)
    end in
  let '(v, n, s3) :=
    scan_digits (if is_hex k then xdigit_of else digit_of) (if is_hex k then 16 else 10) 0 pre s2 in
  match n with
  | O => (None, s3)
  | S _ => (Some (store k (if neg then - v else v)), s3)
  end.

Definition EOF : Z := -1.

(** What [sscanf] returns when the input ends: [EOF] before the first
    conversion, the number of conversions done afterwards. *)
Definition input_failure (vals : list Z) : Z :=
  match vals with [] => EOF | _ => Z.of_nat (length vals) end.

(** [sscanf(s, fmt, ...)] on the C string [s]: the return value, the values
    assigned (in order) and the input that was not consumed. *)
Fixpoint sscanf (fmt : list directive) (s : list ascii) (vals : list Z)
  : Z * list Z * list ascii :=
  match fmt with
  | [] => (Z.of_nat (length vals), vals, s)
  | Lit c :: fmt' =>
      match s with
      | [] => (input_failure vals, vals, s)
      | c' :: s' =>
          if Ascii.eqb c c' then sscanf fmt' s' vals
          else (Z.of_nat (length vals), vals, s)
      end
  | Space :: fmt' => sscanf fmt' (skip_space s) vals
  | Conv k :: fmt' =>
      match skip_space s with
      | [] => (input_failure vals, vals, [])
      | s1 =>
          match scan_number k s1 with
          | (Some v, s2) => sscanf fmt' s2 (vals ++ [v])
          | (None, s2) => (Z.of_nat (length vals), vals, s2)
          end
      end
  end.

(** ** Ghost state: resources, [errno], diagnostics and reads *)

(** One constructor per message of the source. *)
Inductive diag :=
| D_cannot_read_proc
| D_no_header
| D_pattern_not_found
| D_opening_quote_not_found
| D_closing_quote_not_found
| D_name_too_long (mtd_num : Z)
| D_newline_not_found
| D_cannot_open (node : string)
| D_old_mtd_hint
| D_cannot_stat (node : string)
| D_not_char_device (node : string)
| D_wrong_major (node : string) (major : Z)
| D_memgetinfo_failed
| D_memgetbadblock_failed
| D_insane_min_io (mtd_num : Z) (v : Z)
| D_insane_eb_size (mtd_num : Z) (v : Z)
| D_insane_size (mtd_num : Z) (v : Z)
| D_absent (mtd_num : Z)
| D_eccgetlayout_failed
| D_not_in_proc (mtd_num : Z)
| D_multiple (name : list ascii).

Record res := mk_res {
  open_fds : nat;        (* descriptors opened and not yet closed *)
  live_bufs : nat;       (* blocks obtained from xmalloc and not yet freed *)
  errno : Z;
  log : list diag;       (* diagnostics printed so far, oldest first *)
  reads : list Z         (* offsets of the scan buffer read so far, oldest first *)
}.

Definition do_open (st : res) : res :=
  mk_res (S (open_fds st)) (live_bufs st) (errno st) (log st) (reads st).
Definition do_close (st : res) : res :=
  mk_res (pred (open_fds st)) (live_bufs st) (errno st) (log st) (reads st).
(** [xmalloc] of [common.h] does not return when the allocation fails. *)
Definition do_xmalloc (st : res) : res :=
  mk_res (open_fds st) (S (live_bufs st)) (errno st) (log st) (reads st).
Definition do_free (st : res) : res :=
  mk_res (open_fds st) (pred (live_bufs st)) (errno st) (log st) (reads st).
Definition set_errno (e : Z) (st : res) : res :=
  mk_res (open_fds st) (live_bufs st) e (log st) (reads st).
Definition say (d : diag) (st : res) : res :=
  mk_res (open_fds st) (live_bufs st) (errno st) (log st ++ [d]) (reads st).
Definition do_read (offs : list Z) (st : res) : res :=
  mk_res (open_fds st) (live_bufs st) (errno st) (log st) (reads st ++ offs).

(** Modelled from the spec: [common.h], which defines the macros [errmsg] and
    [sys_errmsg], is not among the sources.  Failures are errors (section 7);
    the source returns [errmsg(...)] from the functions whose other failure
    exits return [-1], so both macros print and evaluate to [-1]. *)
Definition errmsg (d : diag) (st : res) : Z * res := (-1, say d st).
Definition sys_errmsg (d : diag) (st : res) : Z * res := (-1, say d st).

(** ** The environment: what the operating system answers *)

(** The outcome of a system call: its return value and the [errno] it leaves on
    failure. *)
Record sysret := mk_sysret { rv : Z; err : Z }.

(** The effect of a system call on [errno]. *)
Definition sys (r : sysret) (st : res) : res :=
  if rv r =? -1 then set_errno (err r) st else st.

(** [struct mtd_info_user] of <mtd/mtd-abi.h>, as filled by MEMGETINFO. *)
Record mtd_info_user := mk_ui {
  ui_type : Z;
  ui_flags : Z;
  ui_size : Z;
  ui_erasesize : Z;
  ui_writesize : Z;
  ui_oobsize : Z
}.

(** A device node that can be opened. *)
Record dev_node := mk_node {
  nd_fstat : sysret;                (* fstat (fd, &st) *)
  nd_is_chr : bool;                 (* S_ISCHR (st.st_mode) *)
  nd_major : Z;                     (* major (st.st_rdev) *)
  nd_minor : Z;                     (* minor (st.st_rdev) *)
  nd_memgetinfo : sysret;           (* ioctl (fd, MEMGETINFO, &ui) *)
  nd_ui : mtd_info_user;            (* ... and what it stores in ui *)
  nd_memgetbadblock : sysret;       (* ioctl (fd, MEMGETBADBLOCK, &offs) *)
  nd_eccgetlayout : sysret;         (* ioctl (fd, ECCGETLAYOUT, &usrlay) *)
  nd_oobavail : Z                   (* ... and what it stores in usrlay.oobavail *)
}.

(** [struct proc_parse_info].  [pi_buf] is the contents of the memory at
    [pi->buf] and [pi_next] is the offset [pi->next - pi->buf]. *)
Record proc_parse_info := mk_pi {
  pi_mtd_num : Z;
  pi_size : Z;
  pi_name : list ascii;
  pi_eb_size : Z;
  pi_buf : list ascii;
  pi_data_size : Z;
  pi_next : Z
}.

Record env := mk_env {
  proc_mtd : option (list ascii);   (* the contents of /proc/mtd; None: open fails *)
  proc_open_errno : Z;
  proc_read : option Z;             (* Some e: read fails with errno e *)
  heap_junk : list ascii;           (* what the block returned by xmalloc holds *)
  stack_pi : proc_parse_info;       (* what the automatic variable pi holds at first *)
  dev_nodes : string -> option dev_node;   (* None: open fails *)
  dev_open_errno : string -> Z
}.

(** [struct mtd_info] of libmtd.h, the fields this file writes. *)
Record mtd_info := mk_info {
  mtd_dev_cnt : Z;
  lowest_mtd_num : Z;
  highest_mtd_num : Z
}.

(** [struct mtd_dev_info] of libmtd.h. *)
Record mtd_dev_info := mk_mtd {
  mtd_num : Z;
  major : Z;
  minor : Z;
  type : Z;
  type_str : string;
  name : list ascii;
  size : Z;
  eb_cnt : Z;
  eb_size : Z;
  min_io_size : Z;
  subpage_size : Z;
  oob_size : Z;
  oobavail : Z;
  region_cnt : Z;
  writable : Z;
  bb_allowed : Z
}.

(** ** The listing scanner *)

Definition set_scanned (vals : list Z) (pi : proc_parse_info) : proc_parse_info :=
  match vals with
  | [] => pi
  | [a] => mk_pi a (pi_size pi) (pi_name pi) (pi_eb_size pi)
             (pi_buf pi) (pi_data_size pi) (pi_next pi)
  | [a; b] => mk_pi a b (pi_name pi) (pi_eb_size pi)
                (pi_buf pi) (pi_data_size pi) (pi_next pi)
  | a :: b :: c :: _ => mk_pi a b (pi_name pi) c
                          (pi_buf pi) (pi_data_size pi) (pi_next pi)
  end.

Definition set_name (nm : list ascii) (pi : proc_parse_info) : proc_parse_info :=
  mk_pi (pi_mtd_num pi) (pi_size pi) nm (pi_eb_size pi)
    (pi_buf pi) (pi_data_size pi) (pi_next pi).

Definition set_next (p : Z) (pi : proc_parse_info) : proc_parse_info :=
  mk_pi (pi_mtd_num pi) (pi_size pi) (pi_name pi) (pi_eb_size pi)
    (pi_buf pi) (pi_data_size pi) p.

(** [read(fd, pi->buf, PROC_MTD_MAX_LEN)] stores the first bytes of the file
    over what the block held. *)
Definition read_into (content junk : list ascii) : list ascii * Z :=
  let data := firstn (Z.to_nat PROC_MTD_MAX_LEN) content in
  (data ++ skipn (length data) junk, Z.of_nat (length data)).

Definition memcmp_eq (a b : list ascii) (n : Z) : bool :=
  if list_eq_dec ascii_dec (firstn (Z.to_nat n) a) (firstn (Z.to_nat n) b) then true else false.

Definition proc_parse_start (e : env) (pi : proc_parse_info) (st : res)
  : Z * proc_parse_info * res :=
  match proc_mtd e with
  | None => (-1, pi, set_errno (proc_open_errno e) st)
  | Some content =>
      let st := do_open st in
      let st := do_xmalloc st in
      match proc_read e with
      | Some en =>
          let pi := mk_pi (pi_mtd_num pi) (pi_size pi) (pi_name pi) (pi_eb_size pi)
                      (heap_junk e) (pi_data_size pi) (pi_next pi) in
          let '(_, st) := sys_errmsg D_cannot_read_proc (set_errno en st) in
          (-1, pi, do_close (do_free st))
      | None =>
          let '(b, ret) := read_into content (heap_junk e) in
          let pi := mk_pi (pi_mtd_num pi) (pi_size pi) (pi_name pi) (pi_eb_size pi)
                      b (pi_data_size pi) (pi_next pi) in
          if (ret <? PROC_MTD_FIRST_LEN) || negb (memcmp_eq b PROC_MTD_FIRST PROC_MTD_FIRST_LEN)
          then
            let '(_, st) := errmsg D_no_header st in
            (-1, pi, do_close (do_free st))
          else
            (0,
             mk_pi (pi_mtd_num pi) (pi_size pi) (pi_name pi) (pi_eb_size pi)
               b ret PROC_MTD_FIRST_LEN,
             do_close st)
      end
  end.

Section Legacy.

(** [MTD_NAME_MAX] is defined in libmtd.h, which is not among the sources: the
    development holds for every value of it. *)
Variable MTD_NAME_MAX : Z.

Definition proc_parse_next (pi : proc_parse_info) (st : res)
  : Z * proc_parse_info * res :=
  let pos := pi_next pi in
  if pos >=? pi_data_size pi then (0, pi, do_free st)
  else
    let s := cstr (from (pi_next pi) (pi_buf pi)) in
    let '(ret, vals, rest) := sscanf PROC_MTD_PATT s [] in
    let st := do_read (span pos (S (length s - length rest))) st in
    let pi := set_scanned vals pi in
    if negb (ret =? 3) then
      let '(r, st) := errmsg D_pattern_not_found st in (r, pi, st)
    else
      let '(p, offs) := memchr (pi_buf pi) (pi_next pi) quote (pi_data_size pi - pos) in
      let st := do_read offs st in
      match p with
      | None => let '(r, st) := errmsg D_opening_quote_not_found st in (r, pi, st)
      | Some p =>
          let p := p + 1 in
          let pos := p in
          if pos >=? pi_data_size pi then
            let '(r, st) := errmsg D_opening_quote_not_found st in (r, pi, st)
          else
            let '(p1, offs) := memchr (pi_buf pi) p quote (pi_data_size pi - pos) in
            let st := do_read offs st in
            match p1 with
            | None => let '(r, st) := errmsg D_closing_quote_not_found st in (r, pi, st)
            | Some p1 =>
                let pos := p1 in
                if pos >=? pi_data_size pi then
                  let '(r, st) := errmsg D_closing_quote_not_found st in (r, pi, st)
                else
                  let len := p1 - p in
                  if len >? MTD_NAME_MAX then
                    let '(r, st) := errmsg (D_name_too_long (pi_mtd_num pi)) st in (r, pi, st)
                  else
                    let st := do_read (span p (Z.to_nat len)) st in
                    let pi := set_name (firstn (Z.to_nat len) (from p (pi_buf pi))) pi in
                    let st := do_read [p1 + 1] st in
                    if negb (Ascii.eqb (byte_at (pi_buf pi) (p1 + 1)) newline) then
                      let '(r, st) := errmsg D_newline_not_found st in (r, pi, st)
                    else (1, set_next (p1 + 2) pi, st)
            end
      end.

(** [while (proc_parse_next(&pi)) { body }]: the loop goes on as long as the
    call returns non-zero.  The body reads [pi.mtd_num] and [pi.name], and
    either updates the caller's variables ([inl]) or returns from the function
    ([inr]).  [None]: the loop is still running when the fuel is spent. *)
Fixpoint while_parse_next {A R : Type} (body : Z -> list ascii -> A -> A + R)
  (fuel : nat) (pi : proc_parse_info) (acc : A) (st : res)
  : option ((A + R) * proc_parse_info * res) :=
  match fuel with
  | O => None
  | S fuel' =>
      let '(r, pi, st) := proc_parse_next pi st in
      if r =? 0 then Some (inl acc, pi, st)
      else
        match body (pi_mtd_num pi) (pi_name pi) acc with
        | inl acc' => while_parse_next body fuel' pi acc' st
        | inr x => Some (inr x, pi, st)
        end
  end.

(** [access(MTD_PROC_FILE, R_OK)] fails when the file cannot be opened. *)
Definition legacy_procfs_is_supported (e : env) (st : res) : Z * res :=
  match proc_mtd e with
  | None =>
      let st := set_errno (proc_open_errno e) st in
      if errno st =? ENOENT then (0, set_errno 0 st)
      else
        let '(_, st) := sys_errmsg D_cannot_read_proc st in
        (0, st)
  | Some _ => (1, st)
  end.

(** ** The enumeration service *)

Definition dev_present_body (mtd_num : Z) (n : Z) (_ : list ascii) (_ : unit) : unit + Z :=
  if n =? mtd_num then inr 1 else inl tt.

Definition legacy_dev_present (fuel : nat) (e : env) (mtd_num : Z) (st : res)
  : option (Z * res) :=
  let '(ret, pi, st) := proc_parse_start e (stack_pi e) st in
  if negb (ret =? 0) then Some (-1, st)
  else
    match while_parse_next (dev_present_body mtd_num) fuel pi tt st with
    | None => None
    | Some (inr r, _, st) => Some (r, st)
    | Some (inl _, _, st) => Some (0, st)
    end.

Definition get_info_body (n : Z) (_ : list ascii) (info : mtd_info) : mtd_info + Empty_set :=
  let info := mk_info (to_int (mtd_dev_cnt info + 1)) (lowest_mtd_num info) (highest_mtd_num info) in
  let info :=
    if n >? highest_mtd_num info
    then mk_info (mtd_dev_cnt info) (lowest_mtd_num info) n else info in
  let info :=
    if n <? lowest_mtd_num info
    then mk_info (mtd_dev_cnt info) n (highest_mtd_num info) else info in
  inl info.

Definition legacy_mtd_get_info (fuel : nat) (e : env) (info : mtd_info) (st : res)
  : option (Z * mtd_info * res) :=
  let '(ret, pi, st) := proc_parse_start e (stack_pi e) st in
  if negb (ret =? 0) then Some (-1, info, st)
  else
    let info := mk_info (mtd_dev_cnt info) INT_MAX (highest_mtd_num info) in
    match while_parse_next get_info_body fuel pi info st with
    | None => None
    | Some (inl info, _, st) => Some (0, info, st)
    | Some (inr x, _, _) => match x with end
    end.


(** ** The capability probe *)

Definition legacy_get_mtd_oobavail (e : env) (node : string) (st : res) : Z * res :=
  match dev_nodes e node with
  | None => sys_errmsg (D_cannot_open node) (set_errno (dev_open_errno e node) st)
  | Some nd =>
      let st := do_open st in
      let st := sys (nd_fstat nd) st in
      if negb (rv (nd_fstat nd) =? 0) then
        let '(ret, st) := sys_errmsg (D_cannot_open node) st in (ret, do_close st)
      else if negb (nd_is_chr nd) then
        let st := set_errno EINVAL st in
        let '(ret, st) := errmsg (D_not_char_device node) st in (ret, do_close st)
      else
        let ret := rv (nd_eccgetlayout nd) in
        let st := sys (nd_eccgetlayout nd) st in
        if ret <? 0 then
          if errno st =? EOPNOTSUPP then (ret, do_close st)
          else
            let '(_, st) := sys_errmsg D_eccgetlayout_failed st in (ret, do_close st)
        else
          let ret := to_int (nd_oobavail nd) in
          (ret, do_close st)
  end.

(** [sprintf(node, MTD_DEV_PATT, mtd_num)]. *)
Definition dev_path (mtd_num : Z) : string :=
  ("/dev/mtd" ++ NilZero.string_of_int (Z.to_int mtd_num))%string.

Definition legacy_get_mtd_oobavail1 (e : env) (mtd_num : Z) (st : res) : Z * res :=
  legacy_get_mtd_oobavail e (dev_path mtd_num) st.

(** ** The descriptor assembler *)

(** [memset(mtd, 0, sizeof(struct mtd_dev_info))]. *)
Definition mtd_zero : mtd_dev_info :=
  mk_mtd 0 0 0 0 EmptyString [] 0 0 0 0 0 0 0 0 0 0.

Definition with_rdev (maj mnr : Z) (m : mtd_dev_info) : mtd_dev_info :=
  mk_mtd (mtd_num m) maj mnr (type m) (type_str m) (name m) (size m) (eb_cnt m)
    (eb_size m) (min_io_size m) (subpage_size m) (oob_size m) (oobavail m)
    (region_cnt m) (writable m) (bb_allowed m).

Definition with_mtd_num (n : Z) (m : mtd_dev_info) : mtd_dev_info :=
  mk_mtd n (major m) (minor m) (type m) (type_str m) (name m) (size m) (eb_cnt m)
    (eb_size m) (min_io_size m) (subpage_size m) (oob_size m) (oobavail m)
    (region_cnt m) (writable m) (bb_allowed m).

Definition with_bb_allowed (b : Z) (m : mtd_dev_info) : mtd_dev_info :=
  mk_mtd (mtd_num m) (major m) (minor m) (type m) (type_str m) (name m) (size m)
    (eb_cnt m) (eb_size m) (min_io_size m) (subpage_size m) (oob_size m)
    (oobavail m) (region_cnt m) (writable m) b.

(** Lines 327-331: the fields copied from [ui], converted to the types of the
    fields that receive them ([size] is a [long long], the others [int]). *)
Definition with_geometry (ui : mtd_info_user) (m : mtd_dev_info) : mtd_dev_info :=
  mk_mtd (mtd_num m) (major m) (minor m) (to_int (ui_type ui)) (type_str m) (name m)
    (to_llong (ui_size ui)) (eb_cnt m) (to_int (ui_erasesize ui))
    (to_int (ui_writesize ui)) (subpage_size m) (to_int (ui_oobsize ui))
    (oobavail m) (region_cnt m) (writable m) (bb_allowed m).

Definition with_eb_cnt (n : Z) (m : mtd_dev_info) : mtd_dev_info :=
  mk_mtd (mtd_num m) (major m) (minor m) (type m) (type_str m) (name m) (size m) n
    (eb_size m) (min_io_size m) (subpage_size m) (oob_size m) (oobavail m)
    (region_cnt m) (writable m) (bb_allowed m).

Definition with_type_str (s : string) (m : mtd_dev_info) : mtd_dev_info :=
  mk_mtd (mtd_num m) (major m) (minor m) (type m) s (name m) (size m) (eb_cnt m)
    (eb_size m) (min_io_size m) (subpage_size m) (oob_size m) (oobavail m)
    (region_cnt m) (writable m) (bb_allowed m).

Definition with_writable (w : Z) (m : mtd_dev_info) : mtd_dev_info :=
  mk_mtd (mtd_num m) (major m) (minor m) (type m) (type_str m) (name m) (size m)
    (eb_cnt m) (eb_size m) (min_io_size m) (subpage_size m) (oob_size m)
    (oobavail m) (region_cnt m) w (bb_allowed m).

Definition with_subpage_size (n : Z) (m : mtd_dev_info) : mtd_dev_info :=
  mk_mtd (mtd_num m) (major m) (minor m) (type m) (type_str m) (name m) (size m)
    (eb_cnt m) (eb_size m) (min_io_size m) n (oob_size m) (oobavail m)
    (region_cnt m) (writable m) (bb_allowed m).

Definition with_oobavail (n : Z) (m : mtd_dev_info) : mtd_dev_info :=
  mk_mtd (mtd_num m) (major m) (minor m) (type m) (type_str m) (name m) (size m)
    (eb_cnt m) (eb_size m) (min_io_size m) (subpage_size m) (oob_size m) n
    (region_cnt m) (writable m) (bb_allowed m).

Definition with_name (nm : list ascii) (m : mtd_dev_info) : mtd_dev_info :=
  mk_mtd (mtd_num m) (major m) (minor m) (type m) (type_str m) nm (size m)
    (eb_cnt m) (eb_size m) (min_io_size m) (subpage_size m) (oob_size m)
    (oobavail m) (region_cnt m) (writable m) (bb_allowed m).

(** The [switch (mtd->type)]: the name of a known type; [None] for the
    [default] case.  [MTD_ABSENT] is handled before it. *)
Definition type_name (t : Z) : option string :=
  if t =? MTD_RAM then Some "ram"%string
  else if t =? MTD_ROM then Some "rom"%string
  else if t =? MTD_NORFLASH then Some "nor"%string
  else if t =? MTD_NANDFLASH then Some "nand"%string
  else if t =? MTD_MLCNANDFLASH then Some "mlc-nand"%string
  else if t =? MTD_DATAFLASH then Some "dataflash"%string
  else if t =? MTD_UBIVOLUME then Some "ubi"%string
  else None.

(** The label [out_close]. *)
Definition out_close (mtd : mtd_dev_info) (st : res) : option (Z * mtd_dev_info * res) :=
  Some (-1, mtd, do_close st).

Definition get_dev_info_body (mtd_num : Z) (n : Z) (nm : list ascii) (_ : unit)
  : unit + list ascii :=
  if n =? mtd_num then inr (cstr nm) else inl tt.

(** Lines 393-406: the scan that recovers the name. *)
Definition find_name (fuel : nat) (e : env) (mtd : mtd_dev_info) (st : res)
  : option (Z * mtd_dev_info * res) :=
  let '(ret, pi, st) := proc_parse_start e (stack_pi e) st in
  if negb (ret =? 0) then Some (-1, mtd, st)
  else
    match while_parse_next (get_dev_info_body (mtd_num mtd)) fuel pi tt st with
    | None => None
    | Some (inr nm, _, st) => Some (0, with_name nm mtd, st)
    | Some (inl _, _, st) =>
        let '(_, st) := errmsg (D_not_in_proc (mtd_num mtd)) st in
        let st := set_errno ENOENT st in
        Some (-1, mtd, st)
    end.

Definition legacy_get_dev_info (fuel : nat) (e : env) (node : string)
  (mtd : mtd_dev_info) (st : res) : option (Z * mtd_dev_info * res) :=
  match dev_nodes e node with
  | None =>
      let st := set_errno (dev_open_errno e node) st in
      let '(_, st) := sys_errmsg (D_cannot_open node) st in
      let st := if errno st =? ENOENT then say D_old_mtd_hint st else st in
      Some (-1, mtd, st)
  | Some nd =>
      let st := do_open st in
      let st := sys (nd_fstat nd) st in
      if negb (rv (nd_fstat nd) =? 0) then
        let '(_, st) := sys_errmsg (D_cannot_stat node) st in
        Some (-1, mtd, do_close st)
      else if negb (nd_is_chr nd) then
        let st := do_close st in
        let st := set_errno EINVAL st in
        let '(r, st) := errmsg (D_not_char_device node) st in
        Some (r, mtd, st)
      else
        let mtd := mtd_zero in
        let mtd := with_rdev (nd_major nd) (nd_minor nd) mtd in
        if negb (major mtd =? MTD_DEV_MAJOR) then
          let st := do_close st in
          let st := set_errno EINVAL st in
          let '(r, st) := errmsg (D_wrong_major node (major mtd)) st in
          Some (r, mtd, st)
        else
          let mtd := with_mtd_num (Z.quot (minor mtd) 2) mtd in
          let st := sys (nd_memgetinfo nd) st in
          if negb (rv (nd_memgetinfo nd) =? 0) then
            let '(_, st) := sys_errmsg D_memgetinfo_failed st in
            out_close mtd st
          else
            let ui := nd_ui nd in
            let ret := rv (nd_memgetbadblock nd) in
            let st := sys (nd_memgetbadblock nd) st in
            if (ret =? -1) && negb (errno st =? EOPNOTSUPP) then
              let '(_, st) := sys_errmsg D_memgetbadblock_failed st in
              out_close mtd st
            else
              let '(mtd, st) :=
                if ret =? -1 then (with_bb_allowed 0 mtd, set_errno 0 st)
                else (with_bb_allowed 1 mtd, st) in
              let mtd := with_geometry ui mtd in
              if min_io_size mtd <=? 0 then
                let '(_, st) := errmsg (D_insane_min_io (mtd_num mtd) (min_io_size mtd)) st in
                out_close mtd st
              else if (eb_size mtd <=? 0) || (eb_size mtd <? min_io_size mtd) then
                let '(_, st) := errmsg (D_insane_eb_size (mtd_num mtd) (eb_size mtd)) st in
                out_close mtd st
              else if (size mtd <=? 0) || (size mtd <? eb_size mtd) then
                let '(_, st) := errmsg (D_insane_size (mtd_num mtd) (size mtd)) st in
                out_close mtd st
              else
                let mtd := with_eb_cnt (to_int (Z.quot (size mtd) (eb_size mtd))) mtd in
                if type mtd =? MTD_ABSENT then
                  let '(_, st) := errmsg (D_absent (mtd_num mtd)) st in
                  out_close mtd st
                else
                  match type_name (type mtd) with
                  | None => out_close mtd st
                  | Some s =>
                      let mtd := with_type_str s mtd in
                      let mtd :=
                        if negb (Z.land (ui_flags ui) MTD_WRITEABLE =? 0)
                        then with_writable 1 mtd else mtd in
                      let mtd := with_subpage_size (min_io_size mtd) mtd in
                      let st := do_close st in
                      let '(ret, st) := legacy_get_mtd_oobavail e node st in
                      let mtd := with_oobavail (if ret >? 0 then ret else 0) mtd in
                      find_name fuel e mtd st
                  end
  end.

Definition legacy_get_dev_info1 (fuel : nat) (e : env) (mtd_num : Z)
  (mtd : mtd_dev_info) (st : res) : option (Z * mtd_dev_info * res) :=
  legacy_get_dev_info fuel e (dev_path mtd_num) mtd st.

(** The body of the loop of [legacy_get_dev_info2]; the caller's variable is
    the local [mtd_num], initially [-1]. *)
Definition get_dev_info2_body (nm0 : list ascii) (n : Z) (nm : list ascii) (found : Z)
  : Z + unit :=
  if streq nm0 nm then
    if found >=? 0 then inr tt else inl n
  else inl found.

Definition legacy_get_dev_info2 (fuel : nat) (e : env) (nm0 : list ascii)
  (mtd : mtd_dev_info) (st : res) : option (Z * mtd_dev_info * res) :=
  let '(ret, pi, st) := proc_parse_start e (stack_pi e) st in
  if negb (ret =? 0) then Some (-1, mtd, st)
  else
    match while_parse_next (get_dev_info2_body nm0) fuel pi (-1) st with
    | None => None
    | Some (inr _, _, st) =>
        let '(_, st) := errmsg (D_multiple nm0) st in
        let st := set_errno ENODEV st in
        Some (-1, mtd, st)
    | Some (inl found, _, st) =>
        if found <? 0 then Some (-1, mtd, set_errno ENODEV st)
        else legacy_get_dev_info1 fuel e found mtd st
    end.

End Legacy.

(** ** The listing format

    A device line is [mtd<N>: <hex> <hex> "<name>"] followed by a newline;
    [l_num], [l_size] and [l_eb_size] are the digits as they stand in the
    file. *)

Record line := mk_line {
  l_num : list ascii;
  l_size : list ascii;
  l_eb_size : list ascii;
  l_name : list ascii
}.

(** The line up to, and without, the opening quote. *)
Definition head_of (l : line) : list ascii :=
  list_ascii_of_string "mtd" ++ l_num l ++ list_ascii_of_string ": "
    ++ l_size l ++ [" "%char] ++ l_eb_size l ++ [" "%char].

Definition render (l : line) : list ascii :=
  head_of l ++ quote :: l_name l ++ [quote; newline].

Definition listing (ls : list line) : list ascii :=
  PROC_MTD_FIRST ++ concat (map render ls).

Definition is_some {A : Type} (o : option A) : bool :=
  match o with Some _ => true | None => false end.

Definition nonempty {A : Type} (l : list A) : bool :=
  match l with [] => false | _ => true end.

Definition digits_value (val : ascii -> option Z) (base : Z) (ds : list ascii) (acc : Z) : Z :=
  fold_left (fun a c => a * base + match val c with Some d => d | None => 0 end) ds acc.

(** The device number a line shows. *)
Definition line_num (l : line) : Z := digits_value digit_of 10 (l_num l) 0.

(** The three numeric fields are non-empty runs of digits and the device
    number is an [int]. *)
Definition wf_head (l : line) : bool :=
  nonempty (l_num l) && forallb (fun c => is_some (digit_of c)) (l_num l)
  && (line_num l <=? INT_MAX)
  && nonempty (l_size l) && forallb (fun c => is_some (xdigit_of c)) (l_size l)
  && nonempty (l_eb_size l) && forallb (fun c => is_some (xdigit_of c)) (l_eb_size l).

Definition no_quote (s : list ascii) : bool :=
  forallb (fun c => negb (Ascii.eqb c quote)) s.

Definition wf_line (max : Z) (l : line) : bool :=
  wf_head l && no_quote (l_name l) && (Z.of_nat (length (l_name l)) <=? max).

(** An environment in which [/proc/mtd] holds the lines [ls] and can be read
    in one go. *)
Definition well_formed (max : Z) (e : env) (ls : list line) : Prop :=
  proc_mtd e = Some (listing ls) /\ proc_read e = None
  /\ Z.of_nat (length (listing ls)) <= PROC_MTD_MAX_LEN
  /\ forallb (wf_line max) ls = true.

(** What a loop body computes over the records of a listing, in order. *)
Fixpoint fold_records {A R : Type} (body : Z -> list ascii -> A -> A + R)
  (ls : list line) (acc : A) : A + R :=
  match ls with
  | [] => inl acc
  | l :: ls' =>
      match body (line_num l) (l_name l) acc with
      | inl acc' => fold_records body ls' acc'
      | inr x => inr x
      end
  end.

(** Bytes that are neither the end of a C string nor a quote. *)
Definition plain (c : ascii) : bool :=
  negb (Ascii.eqb c NUL) && negb (Ascii.eqb c quote).

(** The digits and the base of a conversion. *)
Definition val_of (k : conv) : ascii -> option Z :=
  if is_hex k then xdigit_of else digit_of.
Definition base_of (k : conv) : Z := if is_hex k then 16 else 10.


(** The lines whose name is [nm0], as [strcmp] sees it. *)
Definition matching (nm0 : list ascii) (ls : list line) : list line :=
  filter (fun l => streq nm0 (l_name l)) ls.

(** The three diagnostics of the geometry validation. *)
Definition min_io_of (ui : mtd_info_user) : Z := to_int (ui_writesize ui).
Definition eb_size_of (ui : mtd_info_user) : Z := to_int (ui_erasesize ui).
Definition size_of (ui : mtd_info_user) : Z := to_llong (ui_size ui).

(** The environment in which the ECCGETLAYOUT request on [node] is answered by
    [r] and [v] instead. *)
Definition set_ecc (r : sysret) (v : Z) (nd : dev_node) : dev_node :=
  mk_node (nd_fstat nd) (nd_is_chr nd) (nd_major nd) (nd_minor nd)
    (nd_memgetinfo nd) (nd_ui nd) (nd_memgetbadblock nd) r v.

Definition override_ecc (node : string) (r : sysret) (v : Z) (e : env) : env :=
  mk_env (proc_mtd e) (proc_open_errno e) (proc_read e) (heap_junk e) (stack_pi e)
    (fun p => if String.eqb p node then option_map (set_ecc r v) (dev_nodes e p)
              else dev_nodes e p)
    (dev_open_errno e).

(** The answer of a kernel that does not know the request. *)
Definition unsupported : sysret := mk_sysret (-1) EOPNOTSUPP.

(** [ret > 0 ? ret : 0]. *)
Definition clamp (ret : Z) : Z := if ret >? 0 then ret else 0.

(** ** Concrete listings and environments, used in the examples *)

Definition text (s : string) : list ascii := list_ascii_of_string s.

Definition st_init : res := mk_res 0 0 0 [] [].

(** An environment without device nodes whose [/proc/mtd] holds [content];
    [pi0] is what the automatic variable [pi] happens to hold. *)
Definition env_of (pi0 : proc_parse_info) (content : list ascii) : env :=
  mk_env (Some content) 0 None [] pi0 (fun _ => None) (fun _ => ENOENT).

Definition pi_blank : proc_parse_info := mk_pi 0 0 [] 0 [] 0 0.

(** [mtd0: 00100000 00020000 "rootfs"] *)
Definition rootfs_line : line :=
  mk_line (text "0") (text "00100000") (text "00020000") (text "rootfs").

(** [mtd1: 00300000 00020000 "data"] *)
Definition data_line : line :=
  mk_line (text "1") (text "00300000") (text "00020000") (text "data").

(** A second line with the name of the first:
    [mtd2: 00100000 00020000 "rootfs"] *)
Definition rootfs2_line : line :=
  mk_line (text "2") (text "00100000") (text "00020000") (text "rootfs").

(** The header followed by a line that is not a device line. *)
Definition listing_garbage : list ascii :=
  PROC_MTD_FIRST ++ text "garbage" ++ [newline].

(** The header and the line of [mtd0], cut after the closing quote: the file
    does not end in a newline. *)
Definition listing_cut : list ascii :=
  PROC_MTD_FIRST ++ head_of rootfs_line ++ quote :: l_name rootfs_line ++ [quote].





(** [/proc/mtd] with the lines of [mtd0] and [mtd1]. *)
Definition two_lines : list line := [rootfs_line; data_line].

(** [/proc/mtd] with two lines named [rootfs]. *)
Definition twin_lines : list line := [rootfs_line; data_line; rootfs2_line].

Definition ok : sysret := mk_sysret 0 0.

(** A NAND device node of [size] bytes with erase units of [erasesize] bytes
    and pages of [writesize] bytes, 24 of whose out-of-band bytes are
    available. *)
Definition nand_node (mnr size erasesize writesize : Z) : dev_node :=
  mk_node ok true MTD_DEV_MAJOR mnr ok
    (mk_ui MTD_NANDFLASH MTD_WRITEABLE size erasesize writesize 64) ok ok 24.

(** An environment whose [/dev/mtd0] is the node [nd] and whose [/proc/mtd]
    holds the lines [ls]. *)
Definition env_flash (nd : dev_node) (ls : list line) : env :=
  mk_env (Some (listing ls)) 0 None [] pi_blank
    (fun p => if String.eqb p "/dev/mtd0" then Some nd else None)
    (fun _ => ENOENT).

(** 1 MiB in erase units of 128 KiB. *)
Definition node_1M : dev_node := nand_node 0 1048576 131072 2048.

(** 300000 bytes in erase units of 128 KiB: not a whole number of them. *)
Definition node_odd : dev_node := nand_node 0 300000 131072 2048.

(** A geometry whose minimum write unit is 0. *)
Definition node_insane : dev_node := nand_node 0 1048576 131072 0.

(** The cursor [proc_parse_start] leaves on a file [content] that starts with
    the header. *)
Definition cursor_on (content : list ascii) : proc_parse_info :=
  mk_pi 0 0 [] 0 content (Z.of_nat (length content)) PROC_MTD_FIRST_LEN.

(** The node of 1 MiB on a kernel without the ECCGETLAYOUT request. *)
Definition node_no_ecc : dev_node := set_ecc unsupported 0 node_1M.

(** The decimal digits of [n]. *)
Definition dec (n : nat) : list ascii :=
  list_ascii_of_string (NilZero.string_of_uint (Nat.to_uint n)).

(** The line of partition [n], with a name of [len] bytes:
    [mtd<n>: 00020000 00020000 "pp...p"] *)
Definition part (n len : nat) : line :=
  mk_line (dec n) (text "00020000") (text "00020000") (repeat "p"%char len).

(** 101 partitions, [mtd0] to [mtd100].  The header and the lines of [mtd0] to
    [mtd99] take 4096 bytes: the line of [mtd100] does not fit the buffer. *)
Definition crowded : list line :=
  part 0 42 :: map (fun n => part n 37) (seq 1 9) ++ map (fun n => part n 10) (seq 10 91).

(** The first 100 lines of [crowded], which with the header fill the buffer,
    and a line of [mtd100] with the name [nm], which the [read] does not
    get. *)
Definition crowded_with (nm : list ascii) : list line :=
  firstn 100 crowded ++ [mk_line (dec 100) (text "00020000") (text "00020000") nm].

(** ** Further vocabulary for the properties of the code *)

(** An environment in which [/proc/mtd] holds the header, the lines [ls] and
    then the bytes [rest], the whole fitting one [read]. *)
Definition buffered (max : Z) (e : env) (ls : list line) (rest : list ascii) : Prop :=
  proc_mtd e = Some (listing ls ++ rest) /\ proc_read e = None
  /\ Z.of_nat (length (listing ls ++ rest)) <= PROC_MTD_MAX_LEN
  /\ forallb (wf_line max) ls = true.

(** The first line that shows the device number [n]. *)
Definition line_of (n : Z) (ls : list line) : option line :=
  find (fun l => line_num l =? n) ls.

(** The geometry passes the three checks of [legacy_get_dev_info]. *)
Definition geometry_ok (ui : mtd_info_user) : bool :=
  (0 <? min_io_of ui) && (min_io_of ui <=? eb_size_of ui)
  && (eb_size_of ui <=? size_of ui).

(** The node passes every step of [legacy_get_dev_info] up to the validation
    of the geometry. *)
Definition node_valid (nd : dev_node) : bool :=
  (rv (nd_fstat nd) =? 0) && nd_is_chr nd && (nd_major nd =? MTD_DEV_MAJOR)
  && (rv (nd_memgetinfo nd) =? 0)
  && negb ((rv (nd_memgetbadblock nd) =? -1)
           && negb (err (nd_memgetbadblock nd) =? EOPNOTSUPP))
  && geometry_ok (nd_ui nd).

(** ... and has a type the [switch] knows: it passes every step up to the
    probe. *)
Definition node_passes (nd : dev_node) : bool :=
  node_valid nd
  && negb (to_int (ui_type (nd_ui nd)) =? MTD_ABSENT)
  && is_some (type_name (to_int (ui_type (nd_ui nd)))).

(** The descriptor of the node [nd], with the name [nm] and [oob] available
    out-of-band bytes. *)
Definition descriptor_of (nd : dev_node) (nm : list ascii) (oob : Z) : mtd_dev_info :=
  let ui := nd_ui nd in
  mk_mtd (Z.quot (nd_minor nd) 2) (nd_major nd) (nd_minor nd)
    (to_int (ui_type ui))
    (match type_name (to_int (ui_type ui)) with Some s => s | None => EmptyString end)
    nm (size_of ui) (to_int (Z.quot (size_of ui) (eb_size_of ui)))
    (eb_size_of ui) (min_io_of ui) (min_io_of ui) (to_int (ui_oobsize ui)) oob 0
    (if Z.land (ui_flags ui) MTD_WRITEABLE =? 0 then 0 else 1)
    (if rv (nd_memgetbadblock nd) =? -1 then 0 else 1).

(** The byte [c] does not occur in [s]. *)
Definition no_char (c : ascii) (s : list ascii) : bool :=
  forallb (fun x => negb (Ascii.eqb x c)) s.

(** An environment without device nodes whose [/proc/mtd] holds the lines
    [ls] followed by the bytes [rest]. *)
Definition env_tail (ls : list line) (rest : list ascii) : env :=
  env_of pi_blank (listing ls ++ rest).

(** The node of 1 MiB with a type the [switch] does not know. *)
Definition node_untyped : dev_node :=
  mk_node ok true MTD_DEV_MAJOR 0 ok
    (mk_ui 42 MTD_WRITEABLE 1048576 131072 2048 64) ok ok 24.

(** * Properties *)

Section Properties.

Variable MTD_NAME_MAX : Z.


(** ** Character classes *)

Ltac bool_lia :=
  repeat match goal with
    | |- context [?a =? ?b] => destruct (Z.eqb_spec a b)
    | |- context [?a <=? ?b] => destruct (Z.leb_spec a b)
    | H : context [?a =? ?b] |- _ => destruct (Z.eqb_spec a b)
    | H : context [?a <=? ?b] |- _ => destruct (Z.leb_spec a b)
    end;
  cbn in *; try reflexivity; try discriminate; try lia.

Lemma digit_code c : is_some (digit_of c) = true -> 48 <= code c <= 57.
Proof. unfold digit_of. bool_lia. Qed.

Lemma xdigit_code c :
  is_some (xdigit_of c) = true ->
  48 <= code c <= 57 \/ 97 <= code c <= 102 \/ 65 <= code c <= 70.
Proof. unfold xdigit_of. bool_lia. Qed.

Lemma digit_xdigit c : is_some (digit_of c) = true -> is_some (xdigit_of c) = true.
Proof. unfold digit_of, xdigit_of. bool_lia. Qed.

Lemma code_plain c : 35 <= code c -> plain c = true.
Proof.
  intros H. unfold plain.
  destruct (Ascii.eqb_spec c NUL) as [->|_]; [vm_compute in H; now destruct H|].
  destruct (Ascii.eqb_spec c quote) as [->|_]; [vm_compute in H; now destruct H|].
  reflexivity.
Qed.

Lemma xdigit_plain c : is_some (xdigit_of c) = true -> plain c = true.
Proof. intros H%xdigit_code. apply code_plain. lia. Qed.

Lemma xdigit_not_space c : is_some (xdigit_of c) = true -> isspace c = false.
Proof. intros H%xdigit_code. unfold isspace. bool_lia. Qed.

Lemma xdigit_not_x c : is_some (xdigit_of c) = true -> is_x c = false.
Proof. intros H%xdigit_code. unfold is_x. bool_lia. Qed.

Lemma xdigit_not_sign c :
  is_some (xdigit_of c) = true -> (code c =? 45) = false /\ (code c =? 43) = false.
Proof. intros H%xdigit_code. split; bool_lia. Qed.

Lemma forallb_impl {A : Type} (f g : A -> bool) (l : list A) :
  (forall x, f x = true -> g x = true) -> forallb f l = true -> forallb g l = true.
Proof.
  intros Hfg. induction l as [|x l IH]; cbn; [easy|].
  intros [Hx Hl]%andb_prop. now rewrite (Hfg _ Hx), IH.
Qed.

(** ** Lists as memory *)

Lemma cstr_app a b :
  forallb plain a = true -> cstr (a ++ b) = a ++ cstr b.
Proof.
  induction a as [|c a IH]; [easy|]. cbn [forallb app cstr].
  intros [Hc Ha]%andb_prop. unfold plain in Hc.
  apply andb_prop in Hc as [Hc _]. apply negb_true_iff in Hc.
  now rewrite Hc, IH.
Qed.

Lemma cstr_quote s : cstr (quote :: s) = quote :: cstr s.
Proof. reflexivity. Qed.

Lemma from_at l a b p :
  l = a ++ b -> p = Z.of_nat (length a) -> from p l = b.
Proof.
  intros -> ->. unfold from. rewrite Nat2Z.id.
  induction a as [|x a IH]; [reflexivity | exact IH].
Qed.

Lemma byte_at_from l p c rest : 0 <= p -> from p l = c :: rest -> byte_at l p = c.
Proof.
  unfold from, byte_at. intros _. generalize (Z.to_nat p) as n. clear p.
  intros n; revert l. induction n as [|n IH]; intros [|x l]; cbn; try easy.
  - now intros [= -> _].
  - apply IH.
Qed.

Lemma firstn_exact {A : Type} (a b : list A) : firstn (length a) (a ++ b) = a.
Proof. induction a as [|x a IH]; [reflexivity|]. cbn. now rewrite IH. Qed.

Lemma index_of_hit c a b n :
  forallb (fun x => negb (Ascii.eqb x c)) a = true -> (length a < n)%nat ->
  index_of c (firstn n (a ++ c :: b)) = Some (length a).
Proof.
  revert n. induction a as [|x a IH]; intros n Ha Hn.
  - destruct n; [inversion Hn|]. cbn. now rewrite Ascii.eqb_refl.
  - destruct n; [inversion Hn|]. cbn in *.
    apply andb_prop in Ha as [Hx Ha]. apply negb_true_iff in Hx.
    rewrite Hx, IH by (auto; lia). reflexivity.
Qed.


Lemma memchr_hit l p c n a b :
  from p l = a ++ c :: b ->
  forallb (fun x => negb (Ascii.eqb x c)) a = true ->
  Z.of_nat (length a) < n ->
  memchr l p c n = (Some (p + Z.of_nat (length a)), span p (S (length a))).
Proof.
  intros Hl Ha Hn. unfold memchr. rewrite Hl, index_of_hit; auto. lia.
Qed.

(** ** [sscanf] on the head of a well-formed line *)

Lemma digits_value_nonneg ds : forall acc,
  0 <= acc -> 0 <= digits_value digit_of 10 ds acc.
Proof.
  unfold digits_value. induction ds as [|c ds IH]; intros acc Hacc; [exact Hacc|].
  cbn [fold_left]. apply IH. unfold digit_of. bool_lia.
Qed.

Lemma scan_digits_run val base ds : forall acc n rest,
  forallb (fun c => is_some (val c)) ds = true ->
  match rest with [] => True | c :: _ => val c = None end ->
  scan_digits val base acc n (ds ++ rest)
  = (digits_value val base ds acc, (n + length ds)%nat, rest).
Proof.
  induction ds as [|c ds IH]; intros acc n rest Hds Hrest.
  - cbn. rewrite Nat.add_0_r. destruct rest as [|c rest]; [reflexivity|].
    cbn. now rewrite Hrest.
  - cbn in Hds. apply andb_prop in Hds as [Hc Hds].
    cbn [app scan_digits]. destruct (val c) as [d|] eqn:Ec; [|discriminate].
    rewrite IH by assumption. unfold digits_value. cbn [fold_left length].
    rewrite Ec. f_equal. f_equal. lia.
Qed.

Lemma val_of_xdigit k c : is_some (val_of k c) = true -> is_some (xdigit_of c) = true.
Proof. destruct k; cbn; auto using digit_xdigit. Qed.

Lemma scan_number_run k ds c rest :
  nonempty ds = true -> forallb (fun x => is_some (val_of k x)) ds = true ->
  val_of k c = None -> is_x c = false ->
  scan_number k (ds ++ c :: rest)
  = (Some (store k (digits_value (val_of k) (base_of k) ds 0)), c :: rest).
Proof.
  intros Hne Hds Hc Hx. destruct ds as [|d ds]; [discriminate|].
  pose proof Hds as Hds'. cbn in Hds'. apply andb_prop in Hds' as [Hd Hds'].
  apply val_of_xdigit in Hd.
  destruct (xdigit_not_sign _ Hd) as [Hm Hp].
  unfold scan_number. cbn [app]. rewrite Hm, Hp.
  assert (Hpre : match ds ++ c :: rest with
                 | x :: _ => is_x x = false | [] => True end).
  { destruct ds as [|d2 ds]; cbn; [exact Hx|].
    cbn in Hds'. apply andb_prop in Hds' as [Hd2 _].
    now apply xdigit_not_x, val_of_xdigit with k. }
  destruct (ds ++ c :: rest) as [|x tl] eqn:Etl.
  { destruct ds; discriminate. }
  rewrite Hpre, andb_false_r.
  change (scan_digits (if is_hex k then xdigit_of else digit_of)
            (if is_hex k then 16 else 10) 0 0 (d :: x :: tl))
    with (scan_digits (val_of k) (base_of k) 0 0 (d :: x :: tl)).
  rewrite <- Etl. change (d :: ds ++ c :: rest) with ((d :: ds) ++ c :: rest).
  rewrite scan_digits_run by (auto; exact Hc). reflexivity.
Qed.

Lemma sscanf_Lit c f s v : sscanf (Lit c :: f) (c :: s) v = sscanf f s v.
Proof. cbn [sscanf]. now rewrite Ascii.eqb_refl. Qed.

Lemma sscanf_Space k f ds rest v :
  nonempty ds = true -> forallb (fun x => is_some (val_of k x)) ds = true ->
  sscanf (Space :: f) (" "%char :: ds ++ rest) v = sscanf f (ds ++ rest) v.
Proof.
  intros Hne Hds. destruct ds as [|d ds]; [discriminate|].
  cbn [forallb] in Hds. apply andb_prop in Hds as [Hd _].
  apply val_of_xdigit, xdigit_not_space in Hd.
  cbn [sscanf skip_space app]. change (isspace " ") with true.
  cbn [skip_space]. now rewrite Hd.
Qed.

Lemma sscanf_Conv k f ds c rest v :
  nonempty ds = true -> forallb (fun x => is_some (val_of k x)) ds = true ->
  val_of k c = None -> is_x c = false ->
  sscanf (Conv k :: f) (ds ++ c :: rest) v
  = sscanf f (c :: rest) (v ++ [store k (digits_value (val_of k) (base_of k) ds 0)]).
Proof.
  intros Hne Hds Hc Hx.
  pose proof (scan_number_run k ds c rest Hne Hds Hc Hx) as Hnum.
  destruct ds as [|d ds]; [discriminate|].
  cbn [forallb] in Hds. apply andb_prop in Hds as [Hd _].
  apply val_of_xdigit, xdigit_not_space in Hd.
  cbn [sscanf app skip_space] in *. rewrite Hd, Hnum. reflexivity.
Qed.

Lemma wf_head_fields l :
  wf_head l = true ->
  (nonempty (l_num l) = true /\ forallb (fun c => is_some (digit_of c)) (l_num l) = true
   /\ line_num l <= INT_MAX)
  /\ (nonempty (l_size l) = true
      /\ forallb (fun c => is_some (xdigit_of c)) (l_size l) = true)
  /\ (nonempty (l_eb_size l) = true
      /\ forallb (fun c => is_some (xdigit_of c)) (l_eb_size l) = true).
Proof.
  unfold wf_head. intros H.
  repeat (apply andb_prop in H as [H ?]).
  repeat split; try assumption. now apply Z.leb_le.
Qed.

Lemma to_int_small z : -2147483648 <= z <= 2147483647 -> to_int z = z.
Proof. intros H. unfold to_int. rewrite Z.mod_small; lia. Qed.

Lemma sscanf_head l tail :
  wf_head l = true ->
  exists sz eb,
    sscanf PROC_MTD_PATT (head_of l ++ quote :: tail) []
    = (3, [line_num l; sz; eb], " "%char :: quote :: tail).
Proof.
  intros (Hn & Hs & He)%wf_head_fields.
  destruct Hn as (Hn1 & Hn2 & Hn3), Hs as (Hs1 & Hs2), He as (He1 & He2).
  unfold head_of, PROC_MTD_PATT. cbn [list_ascii_of_string].
  rewrite <- !app_assoc. cbn [app]. rewrite !sscanf_Lit.
  rewrite (sscanf_Conv ConvD)
    by first [assumption | exact Hn2 | reflexivity].
  rewrite sscanf_Lit.
  rewrite (sscanf_Space ConvLLX)
    by first [assumption | exact Hs2].
  rewrite (sscanf_Conv ConvLLX)
    by first [assumption | exact Hs2 | reflexivity].
  rewrite (sscanf_Space ConvX)
    by first [assumption | exact He2].
  rewrite (sscanf_Conv ConvX)
    by first [assumption | exact He2 | reflexivity].
  cbn [sscanf app length]. eexists; eexists. f_equal. f_equal. f_equal.
  cbn [store val_of base_of is_hex]. apply to_int_small.
  pose proof (digits_value_nonneg (l_num l) 0 ltac:(lia)).
  fold (line_num l) in *. unfold INT_MAX in Hn3. lia.
Qed.

Lemma head_plain l : wf_head l = true -> forallb plain (head_of l) = true.
Proof.
  intros (Hn & Hs & He)%wf_head_fields.
  destruct Hn as (_ & Hn & _), Hs as (_ & Hs), He as (_ & He).
  unfold head_of. rewrite !forallb_app.
  rewrite (forallb_impl _ plain _ (fun c H => xdigit_plain c (digit_xdigit c H)) Hn).
  rewrite (forallb_impl _ plain _ xdigit_plain Hs).
  rewrite (forallb_impl _ plain _ xdigit_plain He).
  reflexivity.
Qed.

Lemma plain_no_quote a :
  forallb plain a = true -> forallb (fun x => negb (Ascii.eqb x quote)) a = true.
Proof.
  apply forallb_impl. intros c H. unfold plain in H. now apply andb_prop in H.
Qed.

#[local] Arguments sscanf : simpl never.
#[local] Arguments memchr : simpl never.
#[local] Arguments cstr : simpl never.
#[local] Arguments from : simpl never.
#[local] Arguments span : simpl never.
#[local] Arguments byte_at : simpl never.

(** ** The ghost state *)

Lemma do_read_do_read (o1 o2 : list Z) (st : res) :
  do_read o2 (do_read o1 st) = do_read (o1 ++ o2) st.
Proof.
  unfold do_read; cbn. now rewrite app_assoc.
Qed.

(** ** A failed [proc_parse_next] leaves the cursor where it was *)

Ltac failure_leaf :=
  intros [= <- <- <-] _ _; rewrite ?do_read_do_read;
  eexists; eexists; do 2 (split; [reflexivity|]);
  do 3 (split; [cbn [pi_next pi_buf pi_data_size set_name]; congruence|]).

Lemma proc_parse_next_failure pi st r pi' st' :
  proc_parse_next MTD_NAME_MAX pi st = (r, pi', st') -> r <> 0 -> r <> 1 ->
  exists d offs,
    r = -1 /\ st' = say d (do_read offs st)
    /\ pi_next pi' = pi_next pi /\ pi_buf pi' = pi_buf pi
    /\ pi_data_size pi' = pi_data_size pi
    /\ forall st2, proc_parse_next MTD_NAME_MAX pi' st2 = (-1, pi', say d (do_read offs st2)).
Proof.
  unfold proc_parse_next; cbv zeta.
  destruct (pi_next pi >=? pi_data_size pi) eqn:E0.
  { intros [= <- <- <-] H; congruence. }
  destruct (sscanf PROC_MTD_PATT (cstr (from (pi_next pi) (pi_buf pi))) [])
    as [[ret vals] rest] eqn:Es.
  assert (Hn : pi_next (set_scanned vals pi) = pi_next pi)
    by (destruct vals as [|a [|b [|c vals]]]; reflexivity).
  assert (Hb : pi_buf (set_scanned vals pi) = pi_buf pi)
    by (destruct vals as [|a [|b [|c vals]]]; reflexivity).
  assert (Hd : pi_data_size (set_scanned vals pi) = pi_data_size pi)
    by (destruct vals as [|a [|b [|c vals]]]; reflexivity).
  assert (Hi : set_scanned vals (set_scanned vals pi) = set_scanned vals pi)
    by (destruct vals as [|a [|b [|c vals]]]; reflexivity).
  assert (Hj : forall nm, set_scanned vals (set_name nm (set_scanned vals pi))
                          = set_name nm (set_scanned vals pi))
    by (intros; destruct vals as [|a [|b [|c vals]]]; reflexivity).
  rewrite Hn, Hb, Hd.
  destruct (negb (ret =? 3)) eqn:E3.
  { cbn. failure_leaf. intros st2; unfold proc_parse_next; cbv zeta. rewrite Hn, Hb, Hd, E0, Es, Hi, E3. reflexivity. }
  destruct (memchr (pi_buf pi) (pi_next pi) quote (pi_data_size pi - pi_next pi))
    as [[p|] offs1] eqn:Em1; cbn.
  2:{ failure_leaf. intros st2; unfold proc_parse_next; cbv zeta.
      rewrite Hn, Hb, Hd, E0, Es, Hi, E3, Hn, Hb, Hd, Em1.
      cbn. now rewrite do_read_do_read. }
  destruct (p + 1 >=? pi_data_size pi) eqn:E1.
  { failure_leaf. intros st2; unfold proc_parse_next; cbv zeta.
    rewrite Hn, Hb, Hd, E0, Es, Hi, E3, Hn, Hb, Hd, Em1, E1.
    cbn. now rewrite do_read_do_read. }
  destruct (memchr (pi_buf pi) (p + 1) quote (pi_data_size pi - (p + 1)))
    as [[p1|] offs2] eqn:Em2; cbn.
  2:{ failure_leaf. intros st2; unfold proc_parse_next; cbv zeta.
      rewrite Hn, Hb, Hd, E0, Es, Hi, E3, Hn, Hb, Hd, Em1, E1, Em2.
      cbn. now rewrite !do_read_do_read. }
  destruct (p1 >=? pi_data_size pi) eqn:E2.
  { failure_leaf. intros st2; unfold proc_parse_next; cbv zeta.
    rewrite Hn, Hb, Hd, E0, Es, Hi, E3, Hn, Hb, Hd, Em1, E1, Em2, E2.
    cbn. now rewrite !do_read_do_read. }
  destruct (p1 - (p + 1) >? MTD_NAME_MAX) eqn:E4.
  { failure_leaf. intros st2; unfold proc_parse_next; cbv zeta.
    rewrite Hn, Hb, Hd, E0, Es, Hi, E3, Hn, Hb, Hd, Em1, E1, Em2, E2, E4.
    cbn. now rewrite !do_read_do_read. }
  cbn [pi_buf set_name]; rewrite ?Hb.
  destruct (negb (Ascii.eqb (byte_at (pi_buf pi) (p1 + 1)) newline)) eqn:E5.
  2:{ intros [= <- <- <-] _ H; congruence. }
  failure_leaf. intros st2; unfold proc_parse_next; cbv zeta. cbn.
  rewrite Hn, Hb, Hd, E0, Es, Hj, E3. cbn.
  rewrite Hn, Hb, Hd, Em1, E1, Em2, E2, E4. cbn.
  rewrite ?Hb, E5. cbn. now rewrite !do_read_do_read.
Qed.

(** ** One well-formed line *)

Ltac list_norm := repeat (progress (rewrite <- ?app_assoc; cbn [app])).

Lemma render_length l :
  length (render l) = (length (head_of l) + length (l_name l) + 3)%nat.
Proof. unfold render. rewrite length_app. cbn [length]. rewrite length_app. cbn. lia. Qed.

Lemma geb_false a b : a < b -> (a >=? b) = false.
Proof. intros H. rewrite Z.geb_leb. now apply Z.leb_gt. Qed.

Lemma gtb_false a b : a <= b -> (a >? b) = false.
Proof. intros H. rewrite Z.gtb_ltb. now apply Z.ltb_ge. Qed.

Lemma proc_parse_next_line pi st l pre post :
  wf_line MTD_NAME_MAX l = true ->
  pi_buf pi = pre ++ render l ++ post ->
  pi_next pi = Z.of_nat (length pre) ->
  Z.of_nat (length pre + length (render l)) <= pi_data_size pi ->
  exists sz eb offs,
    proc_parse_next MTD_NAME_MAX pi st
    = (1, mk_pi (line_num l) sz (l_name l) eb (pi_buf pi) (pi_data_size pi)
            (Z.of_nat (length pre + length (render l))),
       do_read offs st).
Proof.
  unfold wf_line. intros [[Hh Hq]%andb_prop Hmax%Z.leb_le]%andb_prop Hbuf Hnext Hsize.
  rewrite render_length in Hsize |- *.
  pose proof (head_plain l Hh) as Hplain.
  set (hd := head_of l) in *. set (nm := l_name l) in *.
  assert (F1 : from (pi_next pi) (pi_buf pi) = hd ++ quote :: nm ++ quote :: newline :: post).
  { apply from_at with pre; [|assumption].
    rewrite Hbuf. unfold render. fold hd nm. now list_norm. }
  assert (F2 : from (pi_next pi + Z.of_nat (length hd) + 1) (pi_buf pi)
               = nm ++ quote :: newline :: post).
  { apply from_at with (pre ++ hd ++ [quote]).
    - rewrite Hbuf. unfold render. fold hd nm. now list_norm.
    - rewrite !length_app. cbn [length]. lia. }
  assert (F3 : from (pi_next pi + Z.of_nat (length hd) + 1 + Z.of_nat (length nm) + 1)
                 (pi_buf pi) = newline :: post).
  { apply from_at with (pre ++ hd ++ quote :: nm ++ [quote]).
    - rewrite Hbuf. unfold render. fold hd nm. now list_norm.
    - rewrite !length_app. cbn [length]. rewrite length_app. cbn [length]. lia. }
  destruct (sscanf_head l (cstr (nm ++ quote :: newline :: post)) Hh) as (sz & eb & Hs).
  fold hd in Hs.
  unfold proc_parse_next; cbv zeta.
  rewrite geb_false by lia.
  rewrite F1, cstr_app, cstr_quote, Hs by assumption.
  cbn [set_scanned pi_next pi_buf pi_data_size pi_mtd_num pi_size pi_name pi_eb_size].
  change (negb (3 =? 3)) with false. cbv iota.
  rewrite (memchr_hit _ _ _ _ hd (nm ++ quote :: newline :: post))
    by (auto using plain_no_quote; lia).
  rewrite geb_false by lia.
  rewrite (memchr_hit _ _ _ _ nm (newline :: post)) by (auto; lia).
  rewrite geb_false by lia.
  rewrite gtb_false by lia.
  cbn [set_name set_next pi_next pi_buf pi_data_size pi_mtd_num pi_size pi_name pi_eb_size].
  rewrite (byte_at_from _ _ newline post) by (try lia; rewrite <- F3; f_equal; lia).
  change (negb (newline =? newline)%char) with false. cbv iota.
  replace (pi_next pi + Z.of_nat (length hd) + 1 + Z.of_nat (length nm)
           - (pi_next pi + Z.of_nat (length hd) + 1))
    with (Z.of_nat (length nm)) by lia.
  rewrite Nat2Z.id.
  rewrite F2, firstn_exact, !do_read_do_read.
  cbn [set_name set_next pi_next pi_buf pi_data_size pi_mtd_num pi_size pi_name pi_eb_size].
  exists sz, eb. eexists. apply f_equal2; [|reflexivity].
  unfold set_next, set_name.
  cbn [pi_next pi_buf pi_data_size pi_mtd_num pi_size pi_name pi_eb_size].
  do 2 f_equal. lia.
Qed.

(** ** A whole well-formed listing *)

Lemma while_parse_next_lines {A R : Type} (body : Z -> list ascii -> A -> A + R) ls :
  forall pre post pi acc st fuel,
    forallb (wf_line MTD_NAME_MAX) ls = true ->
    pi_buf pi = pre ++ concat (map render ls) ++ post ->
    pi_next pi = Z.of_nat (length pre) ->
    pi_data_size pi = Z.of_nat (length pre + length (concat (map render ls))) ->
    (length ls < fuel)%nat ->
    exists pi' st',
      while_parse_next MTD_NAME_MAX body fuel pi acc st
      = Some (fold_records body ls acc, pi', st')
      /\ open_fds st' = open_fds st /\ errno st' = errno st /\ log st' = log st
      /\ live_bufs st' = match fold_records body ls acc with
                         | inl _ => pred (live_bufs st)
                         | inr _ => live_bufs st
                         end.
Proof.
  induction ls as [|l ls IH]; intros pre post pi acc st [|fuel] Hwf Hbuf Hnext Hsize Hfuel;
    try (cbn in Hfuel; lia).
  - cbn [while_parse_next fold_records]. unfold proc_parse_next.
    cbn [map concat length] in Hsize.
    replace (pi_next pi >=? pi_data_size pi) with true
      by (symmetry; rewrite Z.geb_leb; apply Z.leb_le; lia).
    cbn. eexists _, _. split; [reflexivity|]. now repeat split.
  - cbn [forallb] in Hwf. apply andb_prop in Hwf as [Hl Hls].
    cbn [map concat] in Hbuf, Hsize. rewrite <- app_assoc in Hbuf.
    rewrite length_app in Hsize.
    destruct (proc_parse_next_line pi st l pre _ Hl Hbuf Hnext ltac:(lia))
      as (sz & eb & offs & Hstep).
    cbn [while_parse_next fold_records]. rewrite Hstep.
    change (1 =? 0) with false. cbv iota.
    cbn [pi_mtd_num pi_name].
    destruct (body (line_num l) (l_name l) acc) as [acc'|x].
    + destruct (IH (pre ++ render l) post
                  (mk_pi (line_num l) sz (l_name l) eb (pi_buf pi) (pi_data_size pi)
                     (Z.of_nat (length pre + length (render l))))
                  acc' (do_read offs st) fuel)
        as (pi' & st' & Hrun & Hfd & Herr & Hlog & Hbufs).
      * assumption.
      * cbn [pi_buf]. now rewrite <- app_assoc.
      * cbn [pi_next]. now rewrite length_app.
      * cbn [pi_data_size]. rewrite length_app. lia.
      * cbn in Hfuel. lia.
      * exists pi', st'. split; [assumption|]. now repeat split.
    + eexists _, _. split; [reflexivity|]. now repeat split.
Qed.

Lemma render_nonempty l : (1 <= length (render l))%nat.
Proof. rewrite render_length. lia. Qed.

Lemma lines_length ls : (length ls <= length (concat (map render ls)))%nat.
Proof.
  induction ls as [|l ls IH]; [reflexivity|].
  cbn [map concat length]. rewrite length_app. pose proof (render_nonempty l). lia.
Qed.

Lemma proc_parse_start_well_formed e ls pi st :
  well_formed MTD_NAME_MAX e ls ->
  exists pi' post,
    proc_parse_start e pi st = (0, pi', do_close (do_xmalloc (do_open st)))
    /\ pi_buf pi' = PROC_MTD_FIRST ++ concat (map render ls) ++ post
    /\ pi_next pi' = Z.of_nat (length PROC_MTD_FIRST)
    /\ pi_data_size pi'
       = Z.of_nat (length PROC_MTD_FIRST + length (concat (map render ls))).
Proof.
  intros (Hfile & Hread & Hlen & _). unfold proc_parse_start.
  rewrite Hfile, Hread. unfold read_into.
  rewrite firstn_all2 by (unfold PROC_MTD_MAX_LEN in *; lia).
  assert (Hret : (Z.of_nat (length (listing ls)) <? PROC_MTD_FIRST_LEN) = false).
  { apply Z.ltb_ge. unfold listing, PROC_MTD_FIRST_LEN. rewrite length_app. lia. }
  assert (Hcmp : memcmp_eq (listing ls ++ skipn (length (listing ls)) (heap_junk e))
                   PROC_MTD_FIRST PROC_MTD_FIRST_LEN = true).
  { unfold memcmp_eq, PROC_MTD_FIRST_LEN, listing. rewrite Nat2Z.id.
    rewrite <- app_assoc, firstn_exact, firstn_all.
    destruct (list_eq_dec ascii_dec PROC_MTD_FIRST PROC_MTD_FIRST); congruence. }
  rewrite Hret, Hcmp. cbn [orb negb].
  eexists _, _. split; [reflexivity|]. cbn [pi_buf pi_next pi_data_size].
  unfold listing. rewrite <- !app_assoc, length_app. repeat split.
Qed.

(** The scan of a well-formed listing, from [proc_parse_start] to the end of
    the loop: the result is the fold of the body over the records; the buffer
    is freed exactly when the loop runs to the end of the data. *)
Lemma scan_well_formed {A R : Type} (body : Z -> list ascii -> A -> A + R)
  e ls pi0 acc st fuel :
  well_formed MTD_NAME_MAX e ls -> (length ls < fuel)%nat ->
  exists pi st1 pi' st',
    proc_parse_start e pi0 st = (0, pi, st1)
    /\ while_parse_next MTD_NAME_MAX body fuel pi acc st1
       = Some (fold_records body ls acc, pi', st')
    /\ open_fds st' = open_fds st /\ errno st' = errno st /\ log st' = log st
    /\ live_bufs st' = match fold_records body ls acc with
                       | inl _ => live_bufs st
                       | inr _ => S (live_bufs st)
                       end.
Proof.
  intros Hwf Hfuel.
  destruct (proc_parse_start_well_formed e ls pi0 st Hwf)
    as (pi & post & Hstart & Hbuf & Hnext & Hsize).
  destruct Hwf as (_ & _ & _ & Hlines).
  destruct (while_parse_next_lines body ls _ _ pi acc
              (do_close (do_xmalloc (do_open st))) fuel Hlines Hbuf Hnext Hsize Hfuel)
    as (pi' & st' & Hrun & Hfd & Herr & Hlog & Hbufs).
  exists pi, (do_close (do_xmalloc (do_open st))), pi', st'.
  cbn in Hfd, Herr, Hlog, Hbufs.
  do 2 (split; [assumption|]).
  repeat split; assumption.
Qed.

(** ** The population summary *)

Lemma wf_line_num l : wf_line MTD_NAME_MAX l = true -> 0 <= line_num l <= INT_MAX.
Proof.
  unfold wf_line. intros [[Hh _]%andb_prop _]%andb_prop.
  apply wf_head_fields in Hh as ((_ & _ & H) & _). split; [|assumption].
  apply digits_value_nonneg. lia.
Qed.

Lemma fold_get_info ls : forall info,
  0 <= mtd_dev_cnt info -> mtd_dev_cnt info + Z.of_nat (length ls) <= INT_MAX ->
  exists info',
    fold_records get_info_body ls info = inl info'
    /\ mtd_dev_cnt info' = mtd_dev_cnt info + Z.of_nat (length ls)
    /\ lowest_mtd_num info' = fold_left Z.min (map line_num ls) (lowest_mtd_num info)
    /\ highest_mtd_num info' = fold_left Z.max (map line_num ls) (highest_mtd_num info).
Proof.
  induction ls as [|l ls IH]; intros info Hcnt Hmax.
  - exists info. cbn. repeat split. lia.
  - cbn [fold_records get_info_body length map fold_left] in *.
    cbn [mtd_dev_cnt lowest_mtd_num highest_mtd_num].
    rewrite to_int_small by (unfold INT_MAX in Hmax; lia).
    set (n := line_num l).
    set (info1 := if n >? highest_mtd_num info
                  then mk_info (mtd_dev_cnt info + 1) (lowest_mtd_num info) n
                  else mk_info (mtd_dev_cnt info + 1) (lowest_mtd_num info)
                         (highest_mtd_num info)).
    set (info2 := if n <? lowest_mtd_num info1
                  then mk_info (mtd_dev_cnt info1) n (highest_mtd_num info1) else info1).
    assert (H2 : mtd_dev_cnt info2 = mtd_dev_cnt info + 1
                 /\ lowest_mtd_num info2 = Z.min (lowest_mtd_num info) n
                 /\ highest_mtd_num info2 = Z.max (highest_mtd_num info) n).
    { subst info2 info1.
      destruct (Z.gtb_spec n (highest_mtd_num info)); cbn;
        destruct (Z.ltb_spec n (lowest_mtd_num info)); cbn; lia. }
    destruct H2 as (Hc & Hl & Hh).
    destruct (IH info2) as (info' & Hfold & Hc' & Hl' & Hh'); try lia.
    exists info'. rewrite Hfold, Hc', Hl', Hh', Hc, Hl, Hh. repeat split. lia.
Qed.

Lemma fold_min_spec ns : forall a,
  fold_left Z.min ns a <= a
  /\ (forall n, In n ns -> fold_left Z.min ns a <= n)
  /\ (fold_left Z.min ns a = a \/ In (fold_left Z.min ns a) ns).
Proof.
  induction ns as [|x ns IH]; intros a; cbn [fold_left In].
  - repeat split; [lia | easy | now left].
  - destruct (IH (Z.min a x)) as (H1 & H2 & H3). repeat split.
    + lia.
    + intros n [<-|Hn]; [lia | auto].
    + destruct H3 as [H3|H3]; [|now right; right].
      destruct (Z.min_spec a x) as [[_ E]|[_ E]];
        [left; congruence | right; left; congruence].
Qed.

Lemma fold_max_spec ns : forall a,
  a <= fold_left Z.max ns a
  /\ (forall n, In n ns -> n <= fold_left Z.max ns a)
  /\ (fold_left Z.max ns a = a \/ In (fold_left Z.max ns a) ns).
Proof.
  induction ns as [|x ns IH]; intros a; cbn [fold_left In].
  - repeat split; [lia | easy | now left].
  - destruct (IH (Z.max a x)) as (H1 & H2 & H3). repeat split.
    + lia.
    + intros n [<-|Hn]; [lia | auto].
    + destruct H3 as [H3|H3]; [|now right; right].
      destruct (Z.max_spec a x) as [[_ E]|[_ E]];
        [right; left; congruence | left; congruence].
Qed.

(** ** Lines with a bad name *)

Lemma set_scanned_frame vals pi :
  pi_next (set_scanned vals pi) = pi_next pi
  /\ pi_buf (set_scanned vals pi) = pi_buf pi
  /\ pi_data_size (set_scanned vals pi) = pi_data_size pi
  /\ pi_name (set_scanned vals pi) = pi_name pi.
Proof. destruct vals as [|a [|b [|c vals]]]; now repeat split. Qed.



(** ** A cursor on which [proc_parse_next] fails keeps the loops running *)

Lemma while_parse_next_stuck {A R : Type} (body : Z -> list ascii -> A -> A + R) pi d offs :
  (forall st, proc_parse_next MTD_NAME_MAX pi st = (-1, pi, say d (do_read offs st))) ->
  (forall acc, exists acc', body (pi_mtd_num pi) (pi_name pi) acc = inl acc') ->
  forall fuel acc st, while_parse_next MTD_NAME_MAX body fuel pi acc st = None.
Proof.
  intros Hstuck Hbody. induction fuel as [|fuel IH]; intros acc st; [reflexivity|].
  cbn [while_parse_next]. rewrite Hstuck. change (-1 =? 0) with false. cbv iota.
  destruct (Hbody acc) as (acc' & ->). apply IH.
Qed.

Lemma get_info_body_goes_on n nm info : exists info', get_info_body n nm info = inl info'.
Proof. unfold get_info_body. eexists. reflexivity. Qed.

(** Once [proc_parse_next] has failed, [legacy_mtd_get_info] calls it again
    and again. *)
Lemma legacy_mtd_get_info_diverges e st pi st1 r pi' st' :
  proc_parse_start e (stack_pi e) st = (0, pi, st1) ->
  proc_parse_next MTD_NAME_MAX pi st1 = (r, pi', st') -> r <> 0 -> r <> 1 ->
  forall fuel info, legacy_mtd_get_info MTD_NAME_MAX fuel e info st = None.
Proof.
  intros Hstart Hnext H0 H1 fuel info.
  destruct (proc_parse_next_failure pi st1 r pi' st' Hnext H0 H1)
    as (d & offs & -> & -> & _ & _ & _ & Hagain).
  unfold legacy_mtd_get_info. rewrite Hstart. change (negb (0 =? 0)) with false.
  cbv iota. destruct fuel as [|fuel]; [reflexivity|].
  cbn [while_parse_next]. rewrite Hnext. change (-1 =? 0) with false. cbv iota.
  destruct (get_info_body_goes_on (pi_mtd_num pi') (pi_name pi')
              (mk_info (mtd_dev_cnt info) INT_MAX (highest_mtd_num info))) as (info1 & ->).
  rewrite (while_parse_next_stuck get_info_body pi' d offs Hagain); [reflexivity|].
  intros acc. apply get_info_body_goes_on.
Qed.

(** ** The descriptor assembler *)

Lemma find_name_success fuel e mtd st mtd' st' :
  find_name MTD_NAME_MAX fuel e mtd st = Some (0, mtd', st') ->
  exists nm, mtd' = with_name nm mtd.
Proof.
  unfold find_name.
  destruct (proc_parse_start e (stack_pi e) st) as [[ret pi] st1].
  destruct (negb (ret =? 0)); [discriminate|].
  destruct (while_parse_next MTD_NAME_MAX (get_dev_info_body (mtd_num mtd)) fuel pi tt st1)
    as [[[[[]|nm] pi'] st2]|]; try discriminate.
  intros [= <- _]. now exists nm.
Qed.

Lemma sys_ok r st : rv r = 0 -> sys r st = st.
Proof. intros H. unfold sys. now rewrite H. Qed.

Lemma probe_value_indep e node st st2 :
  fst (legacy_get_mtd_oobavail e node st) = fst (legacy_get_mtd_oobavail e node st2).
Proof.
  unfold legacy_get_mtd_oobavail.
  destruct (dev_nodes e node) as [nd|]; [|reflexivity].
  destruct (negb (rv (nd_fstat nd) =? 0)); [reflexivity|].
  destruct (negb (nd_is_chr nd)); [reflexivity|].
  destruct (rv (nd_eccgetlayout nd) <? 0); [|reflexivity].
  destruct (errno (sys (nd_eccgetlayout nd) (sys (nd_fstat nd) (do_open st))) =? EOPNOTSUPP),
    (errno (sys (nd_eccgetlayout nd) (sys (nd_fstat nd) (do_open st2))) =? EOPNOTSUPP);
    reflexivity.
Qed.

Ltac case_if :=
  match goal with
  | |- context [if ?c then _ else _] => destruct c eqn:?
  end.

(** What a successful [legacy_get_dev_info] has checked and stored. *)
Lemma legacy_get_dev_info_success fuel e node mtd st mtd' st' :
  legacy_get_dev_info MTD_NAME_MAX fuel e node mtd st = Some (0, mtd', st') ->
  exists nd,
    dev_nodes e node = Some nd
    /\ size mtd' = size_of (nd_ui nd)
    /\ eb_size mtd' = eb_size_of (nd_ui nd)
    /\ min_io_size mtd' = min_io_of (nd_ui nd)
    /\ 0 < min_io_size mtd' <= eb_size mtd'
    /\ eb_size mtd' <= size mtd'
    /\ eb_cnt mtd' = to_int (Z.quot (size mtd') (eb_size mtd'))
    /\ subpage_size mtd' = min_io_size mtd'
    /\ forall st0,
         oobavail mtd'
         = if fst (legacy_get_mtd_oobavail e node st0) >? 0
           then fst (legacy_get_mtd_oobavail e node st0) else 0.
Proof.
  unfold legacy_get_dev_info.
  destruct (dev_nodes e node) as [nd|] eqn:Hnode; [|discriminate].
  unfold errmsg, sys_errmsg, out_close. cbv beta iota zeta.
  destruct (negb (rv (nd_fstat nd) =? 0)); [discriminate|].
  destruct (negb (nd_is_chr nd)); [discriminate|].
  destruct (negb (major (with_rdev (nd_major nd) (nd_minor nd) mtd_zero) =? MTD_DEV_MAJOR));
    [discriminate|].
  destruct (negb (rv (nd_memgetinfo nd) =? 0)); [discriminate|].
  match goal with
  | |- context [if (?a =? -1) && ?b then _ else _] => destruct ((a =? -1) && b)
  end; [discriminate|].
  match goal with
  | |- context [let '(m, s) := ?x in _] => destruct x as [mtd1 st1] eqn:Ebb
  end.
  assert (Hgeo : forall ui,
             size (with_geometry ui mtd1) = size_of ui
             /\ eb_size (with_geometry ui mtd1) = eb_size_of ui
             /\ min_io_size (with_geometry ui mtd1) = min_io_of ui) by (intros; now repeat split).
  destruct (Hgeo (nd_ui nd)) as (Hsz & Heb & Hio).
  set (mtd2 := with_geometry (nd_ui nd) mtd1) in *.
  destruct (Z.leb_spec (min_io_size mtd2) 0) as [|Hio_pos]; [discriminate|].
  destruct ((eb_size mtd2 <=? 0) || (eb_size mtd2 <? min_io_size mtd2)) eqn:Hebc;
    [discriminate|].
  destruct ((size mtd2 <=? 0) || (size mtd2 <? eb_size mtd2)) eqn:Hszc; [discriminate|].
  apply orb_false_elim in Hebc as [_ Hebc%Z.ltb_ge].
  apply orb_false_elim in Hszc as [_ Hszc%Z.ltb_ge].
  set (mtd3 := with_eb_cnt (to_int (size mtd2 ÷ eb_size mtd2)) mtd2).
  destruct (type mtd3 =? MTD_ABSENT); [discriminate|].
  destruct (type_name (type mtd3)) as [s|]; [|discriminate].
  match goal with
  | |- context [legacy_get_mtd_oobavail e node ?s] =>
      destruct (legacy_get_mtd_oobavail e node s) as [ret stp] eqn:Eprobe
  end.
  intros Hfind. apply find_name_success in Hfind as [nm ->].
  exists nd. split; [reflexivity|].
  assert (Hret : forall st0, fst (legacy_get_mtd_oobavail e node st0) = ret).
  { intros st0. erewrite probe_value_indep, Eprobe. reflexivity. }
  destruct (negb (Z.land (ui_flags (nd_ui nd)) MTD_WRITEABLE =? 0));
    cbn [with_name with_oobavail with_subpage_size with_writable with_type_str
         size eb_size min_io_size eb_cnt subpage_size oobavail];
    subst mtd3;
    cbn [with_eb_cnt size eb_size min_io_size eb_cnt subpage_size oobavail];
    (repeat split; try assumption; try lia; intros st0; now rewrite Hret).
Qed.

(** ** The scan does not depend on the ghost state *)

Lemma proc_parse_next_indep pi st st2 :
  fst (proc_parse_next MTD_NAME_MAX pi st) = fst (proc_parse_next MTD_NAME_MAX pi st2).
Proof.
  unfold proc_parse_next, errmsg. cbv beta iota zeta.
  repeat (try reflexivity;
    match goal with
    | |- context [sscanf ?a ?b ?c] => destruct (sscanf a b c) as [[? ?] ?]
    | |- context [memchr ?a ?b ?c ?d] => destruct (memchr a b c d) as [[?|] ?]
    | |- context [if ?c then _ else _] => destruct c
    end).
Qed.

Lemma while_parse_next_indep {A R : Type} (body : Z -> list ascii -> A -> A + R) fuel :
  forall pi acc st st2,
    option_map fst (while_parse_next MTD_NAME_MAX body fuel pi acc st)
    = option_map fst (while_parse_next MTD_NAME_MAX body fuel pi acc st2).
Proof.
  induction fuel as [|fuel IH]; intros pi acc st st2; [reflexivity|].
  cbn [while_parse_next].
  pose proof (proc_parse_next_indep pi st st2) as Hstep.
  destruct (proc_parse_next MTD_NAME_MAX pi st) as [[r pi1] st1],
    (proc_parse_next MTD_NAME_MAX pi st2) as [[r2 pi2] st3].
  cbn [fst] in Hstep. injection Hstep as <- <-.
  destruct (r =? 0); [reflexivity|].
  destruct (body (pi_mtd_num pi1) (pi_name pi1) acc); [apply IH | reflexivity].
Qed.

Lemma proc_parse_start_indep e e2 pi st st2 :
  proc_mtd e2 = proc_mtd e -> proc_read e2 = proc_read e ->
  heap_junk e2 = heap_junk e ->
  fst (proc_parse_start e2 pi st2) = fst (proc_parse_start e pi st).
Proof.
  intros H1 H2 H3. unfold proc_parse_start, errmsg, sys_errmsg. rewrite H1, H2, H3.
  destruct (proc_mtd e); [|reflexivity].
  destruct (proc_read e); [reflexivity|].
  destruct (read_into l (heap_junk e)) as [b ret].
  destruct ((ret <? PROC_MTD_FIRST_LEN)
            || negb (memcmp_eq b PROC_MTD_FIRST PROC_MTD_FIRST_LEN)); reflexivity.
Qed.

Lemma find_name_indep fuel e mtd st mtd1 st1 e2 mtd2 st2 :
  find_name MTD_NAME_MAX fuel e mtd st = Some (0, mtd1, st1) ->
  proc_mtd e2 = proc_mtd e -> proc_read e2 = proc_read e ->
  heap_junk e2 = heap_junk e -> stack_pi e2 = stack_pi e ->
  mtd_num mtd2 = mtd_num mtd ->
  exists nm st3,
    mtd1 = with_name nm mtd
    /\ find_name MTD_NAME_MAX fuel e2 mtd2 st2 = Some (0, with_name nm mtd2, st3).
Proof.
  intros Hfind H1 H2 H3 H4 Hnum. unfold find_name in *. rewrite H4, Hnum.
  pose proof (proc_parse_start_indep e e2 (stack_pi e) st st2 H1 H2 H3) as Hstart.
  destruct (proc_parse_start e (stack_pi e) st) as [[ret pi] sta],
    (proc_parse_start e2 (stack_pi e) st2) as [[ret2 pi2] stb].
  cbn [fst] in Hstart. injection Hstart as -> ->.
  destruct (negb (ret =? 0)); [discriminate|].
  pose proof (while_parse_next_indep (get_dev_info_body (mtd_num mtd)) fuel pi tt sta stb)
    as Hrun.
  destruct (while_parse_next MTD_NAME_MAX (get_dev_info_body (mtd_num mtd)) fuel pi tt sta)
    as [[[x pi'] sta']|],
    (while_parse_next MTD_NAME_MAX (get_dev_info_body (mtd_num mtd)) fuel pi tt stb)
    as [[[y pi''] stb']|]; try discriminate.
  cbn [option_map fst] in Hrun. injection Hrun as <- <-.
  destruct x as [[]|nm]; [discriminate|].
  injection Hfind as <- _. now exists nm, stb'.
Qed.

(** ** The scan by name *)

Lemma fold_dev_info2 nm0 ls : forall found,
  (forall l, In l ls -> 0 <= line_num l) ->
  fold_records (get_dev_info2_body nm0) ls found
  = match matching nm0 ls with
    | [] => inl found
    | l :: rest =>
        if found >=? 0 then inr tt
        else match rest with [] => inl (line_num l) | _ :: _ => inr tt end
    end.
Proof.
  induction ls as [|l ls IH]; intros found Hnum; [reflexivity|].
  cbn [fold_records matching filter]. unfold get_dev_info2_body at 1.
  fold (matching nm0 ls).
  destruct (streq nm0 (l_name l)).
  - destruct (found >=? 0); [reflexivity|].
    rewrite IH by (intros; apply Hnum; now right).
    specialize (Hnum l (or_introl eq_refl)).
    destruct (matching nm0 ls); [reflexivity|].
    now rewrite (proj2 (Z.geb_le _ _)) by lia.
  - apply IH. intros; apply Hnum; now right.
Qed.

(** * Main theorems *)

(** C2 (amended).  On a well-formed listing that fits the buffer of
    [PROC_MTD_MAX_LEN] bytes, [legacy_mtd_get_info] called on a zeroed
    [struct mtd_info] (as [mtd_get_info] does) returns 0 with [mtd_dev_cnt]
    equal to the number of device lines after the header and with
    [lowest_mtd_num] and [highest_mtd_num] equal to the least and the greatest
    device number of the lines; for a listing that is only the header the
    count is 0 and [lowest_mtd_num] is the sentinel [INT_MAX], which the
    device number of no well-formed line exceeds. *)
Theorem legacy_mtd_get_info_summary e ls info st fuel :
  well_formed MTD_NAME_MAX e ls ->
  mtd_dev_cnt info = 0 -> highest_mtd_num info = 0 ->
  (length ls < fuel)%nat ->
  exists info' st',
    legacy_mtd_get_info MTD_NAME_MAX fuel e info st = Some (0, info', st')
    /\ mtd_dev_cnt info' = Z.of_nat (length ls)
    /\ (ls = [] -> lowest_mtd_num info' = INT_MAX)
    /\ (forall l, wf_line MTD_NAME_MAX l = true -> line_num l <= INT_MAX)
    /\ (ls <> [] ->
        In (lowest_mtd_num info') (map line_num ls)
        /\ In (highest_mtd_num info') (map line_num ls)
        /\ forall l, In l ls ->
             lowest_mtd_num info' <= line_num l <= highest_mtd_num info').
Proof.
  intros Hwf Hcnt Hhigh Hfuel.
  destruct (scan_well_formed get_info_body e ls (stack_pi e)
              (mk_info (mtd_dev_cnt info) INT_MAX (highest_mtd_num info)) st fuel Hwf Hfuel)
    as (pi & st1 & pi' & st' & Hstart & Hrun & _).
  assert (Hnum : forall l, In l ls -> 0 <= line_num l <= INT_MAX).
  { destruct Hwf as (_ & _ & _ & Hlines). intros l Hl. apply wf_line_num.
    rewrite forallb_forall in Hlines. auto. }
  assert (Hshort : Z.of_nat (length ls) <= PROC_MTD_MAX_LEN).
  { destruct Hwf as (_ & _ & Hlen & _). unfold listing in Hlen.
    rewrite length_app in Hlen. pose proof (lines_length ls). lia. }
  destruct (fold_get_info ls (mk_info (mtd_dev_cnt info) INT_MAX (highest_mtd_num info)))
    as (info' & Hfold & Hc & Hl & Hh);
    cbn [mtd_dev_cnt]; unfold PROC_MTD_MAX_LEN, INT_MAX in *; try lia.
  cbn [mtd_dev_cnt lowest_mtd_num highest_mtd_num] in Hc, Hl, Hh.
  unfold legacy_mtd_get_info. rewrite Hstart. change (negb (0 =? 0)) with false.
  cbv iota. unfold INT_MAX. rewrite Hrun, Hfold.
  exists info', st'. split; [reflexivity|]. split; [lia|].
  split; [intros ->; exact Hl|].
  split; [intros l Hwl; apply (wf_line_num l Hwl)|].
  intros Hne.
  destruct (fold_min_spec (map line_num ls) 2147483647) as (_ & Hmin & Hmin').
  destruct (fold_max_spec (map line_num ls) (highest_mtd_num info)) as (_ & Hmax & Hmax').
  rewrite <- Hl in Hmin, Hmin'. rewrite <- Hh in Hmax, Hmax'.
  destruct ls as [|l0 ls0]; [congruence|].
  pose proof (Hnum l0 (or_introl eq_refl)) as H0.
  pose proof (Hmin (line_num l0) (or_introl eq_refl)) as Hlo.
  pose proof (Hmax (line_num l0) (or_introl eq_refl)) as Hhi.
  assert (Hin_lo : In (lowest_mtd_num info') (map line_num (l0 :: ls0))).
  { destruct Hmin' as [E|Hin]; [|exact Hin].
    replace (lowest_mtd_num info') with (line_num l0) by lia. now left. }
  assert (Hin_hi : In (highest_mtd_num info') (map line_num (l0 :: ls0))).
  { destruct Hmax' as [E|Hin]; [|exact Hin].
    replace (highest_mtd_num info') with (line_num l0) by lia. now left. }
  repeat split; try assumption.
  - apply Hmin, in_map, H.
  - apply Hmax, in_map, H.
Qed.

(** C10.  When [proc_parse_next] fails (it returns neither 0, the end of the
    data, nor 1, a record), [pi->next], the buffer and [pi->data_size] are
    what they were before the call and the buffer is still allocated; a
    second call on the resulting cursor returns the same value, prints the
    same diagnostic, reads the same offsets and leaves the cursor as it
    is. *)
Theorem proc_parse_next_failure_frame pi st r pi' st' :
  proc_parse_next MTD_NAME_MAX pi st = (r, pi', st') -> r <> 0 -> r <> 1 ->
  pi_next pi' = pi_next pi /\ pi_buf pi' = pi_buf pi
  /\ pi_data_size pi' = pi_data_size pi
  /\ live_bufs st' = live_bufs st
  /\ exists d offs,
       log st' = log st ++ [d] /\ reads st' = reads st ++ offs
       /\ forall st2,
            proc_parse_next MTD_NAME_MAX pi' st2 = (r, pi', say d (do_read offs st2)).
Proof.
  intros Hnext H0 H1.
  destruct (proc_parse_next_failure pi st r pi' st' Hnext H0 H1)
    as (d & offs & -> & -> & Hn & Hb & Hd & Hagain).
  repeat (split; [assumption || reflexivity|]).
  exists d, offs. repeat split. exact Hagain.
Qed.


(** C1 (the code does otherwise).  On [/proc/mtd] made of the header and a
    line that is not a device line, [proc_parse_next] fails and the loops of
    [legacy_mtd_get_info] and [legacy_dev_present] call it again without end:
    whatever the fuel, neither function returns. *)
Theorem scan_loops_forever_on_garbage pi0 fuel :
  (forall info st,
      legacy_mtd_get_info MTD_NAME_MAX fuel (env_of pi0 listing_garbage) info st = None)
  /\ (forall st,
        legacy_dev_present MTD_NAME_MAX fuel (env_of pi0 listing_garbage)
          (pi_mtd_num pi0 + 1) st = None).
Proof.
  set (pi1 := mk_pi (pi_mtd_num pi0) (pi_size pi0) (pi_name pi0) (pi_eb_size pi0)
                listing_garbage 39 31).
  assert (Hstart : forall st,
             proc_parse_start (env_of pi0 listing_garbage) pi0 st
             = (0, pi1, do_close (do_xmalloc (do_open st)))) by reflexivity.
  assert (Hstuck : forall st,
             proc_parse_next MTD_NAME_MAX pi1 st
             = (-1, pi1, say D_pattern_not_found (do_read [31] st))) by reflexivity.
  split.
  - intros info st.
    apply legacy_mtd_get_info_diverges
      with (pi := pi1) (st1 := do_close (do_xmalloc (do_open st))) (r := -1)
           (pi' := pi1)
           (st' := say D_pattern_not_found (do_read [31] (do_close (do_xmalloc (do_open st)))));
      [apply Hstart | apply Hstuck | lia | lia].
  - intros st. unfold legacy_dev_present. cbn [stack_pi env_of]. rewrite Hstart.
    change (negb (0 =? 0)) with false. cbv iota.
    rewrite (while_parse_next_stuck _ pi1 _ _ Hstuck); [reflexivity|].
    intros []. exists tt. unfold dev_present_body. cbn [pi_mtd_num pi1].
    now rewrite (proj2 (Z.eqb_neq _ _)) by lia.
Qed.

(** C3 (amended).  In every descriptor that [legacy_get_dev_info] returns
    with success, [eb_cnt] is the quotient of the integer division of [size]
    by [eb_size], stored in an [int]; the division need not be exact: when the
    quotient fits an [int], [eb_size * eb_cnt <= size < eb_size * (eb_cnt + 1)]. *)
Theorem legacy_get_dev_info_eb_cnt fuel e node mtd st mtd' st' :
  legacy_get_dev_info MTD_NAME_MAX fuel e node mtd st = Some (0, mtd', st') ->
  eb_cnt mtd' = to_int (Z.quot (size mtd') (eb_size mtd'))
  /\ 0 < eb_size mtd' <= size mtd'
  /\ (Z.quot (size mtd') (eb_size mtd') <= INT_MAX ->
      eb_cnt mtd' = Z.quot (size mtd') (eb_size mtd')
      /\ eb_size mtd' * eb_cnt mtd' <= size mtd' < eb_size mtd' * (eb_cnt mtd' + 1)).
Proof.
  intros (nd & _ & _ & _ & _ & Hio & Hsz & Hcnt & _)%legacy_get_dev_info_success.
  split; [assumption|]. split; [lia|]. intros Hfit.
  pose proof (Z.quot_rem' (size mtd') (eb_size mtd')) as Hqr.
  pose proof (Z.rem_bound_pos (size mtd') (eb_size mtd') ltac:(lia) ltac:(lia)) as Hrem.
  assert (Hq : 0 <= Z.quot (size mtd') (eb_size mtd')) by (apply Z.quot_pos; lia).
  rewrite to_int_small in Hcnt by (unfold INT_MAX in Hfit; lia).
  split; [assumption|]. rewrite Hcnt. lia.
Qed.

(** C6.  When the node can be opened, is a character device of major 90 and
    answers MEMGETINFO with a geometry in which the minimum write unit is not
    positive, or the erase-unit size is not positive or smaller than the
    minimum write unit, or the size is not positive or smaller than the
    erase-unit size, [legacy_get_dev_info] returns [-1] after closing the
    node; unless the bad-block request has failed before, the diagnostic is
    the one of the first of the three checks that fails. *)
Theorem insane_geometry_rejected fuel e node nd mtd st :
  dev_nodes e node = Some nd -> rv (nd_fstat nd) = 0 -> nd_is_chr nd = true ->
  nd_major nd = MTD_DEV_MAJOR -> rv (nd_memgetinfo nd) = 0 ->
  (min_io_of (nd_ui nd) <= 0
   \/ (eb_size_of (nd_ui nd) <= 0 \/ eb_size_of (nd_ui nd) < min_io_of (nd_ui nd))
   \/ (size_of (nd_ui nd) <= 0 \/ size_of (nd_ui nd) < eb_size_of (nd_ui nd))) ->
  exists mtd' st' d,
    legacy_get_dev_info MTD_NAME_MAX fuel e node mtd st = Some (-1, mtd', st')
    /\ open_fds st' = open_fds st /\ live_bufs st' = live_bufs st
    /\ log st' = log st ++ [d]
    /\ ((rv (nd_memgetbadblock nd) = -1 -> err (nd_memgetbadblock nd) = EOPNOTSUPP) ->
        (min_io_of (nd_ui nd) <= 0 ->
         d = D_insane_min_io (Z.quot (nd_minor nd) 2) (min_io_of (nd_ui nd)))
        /\ (0 < min_io_of (nd_ui nd) ->
            eb_size_of (nd_ui nd) <= 0 \/ eb_size_of (nd_ui nd) < min_io_of (nd_ui nd) ->
            d = D_insane_eb_size (Z.quot (nd_minor nd) 2) (eb_size_of (nd_ui nd)))
        /\ (0 < min_io_of (nd_ui nd) <= eb_size_of (nd_ui nd) ->
            size_of (nd_ui nd) <= 0 \/ size_of (nd_ui nd) < eb_size_of (nd_ui nd) ->
            d = D_insane_size (Z.quot (nd_minor nd) 2) (size_of (nd_ui nd)))).
Proof.
  intros Hnode Hstat Hchr Hmaj Hinfo Hbad.
  unfold legacy_get_dev_info. rewrite Hnode.
  unfold errmsg, sys_errmsg, out_close. cbv beta iota zeta.
  rewrite Hstat, Hchr. cbn [negb Z.eqb]. cbn [major with_rdev].
  rewrite Hmaj, Z.eqb_refl, Hinfo. cbn [negb Z.eqb].
  rewrite !(sys_ok (nd_fstat nd)), !(sys_ok (nd_memgetinfo nd)) by assumption.
  set (st1 := sys (nd_memgetbadblock nd) (do_open st)).
  destruct ((rv (nd_memgetbadblock nd) =? -1) && negb (errno st1 =? EOPNOTSUPP)) eqn:Ebb.
  { eexists _, _, _. split; [reflexivity|].
    apply andb_prop in Ebb as [Erv Ebb]. apply negb_true_iff, Z.eqb_neq in Ebb.
    subst st1. unfold sys in *. rewrite Erv in *. cbn in Ebb.
    do 3 (split; [reflexivity|]).
    intros Hok. exfalso. apply Ebb, Hok. now apply Z.eqb_eq. }
  match goal with
  | |- context [let '(m, s) := ?x in _] => destruct x as [mtd1 st2] eqn:Em
  end.
  assert (Hst2 : open_fds st2 = S (open_fds st) /\ live_bufs st2 = live_bufs st
                 /\ log st2 = log st).
  { subst st1. unfold sys in Em.
    destruct (rv (nd_memgetbadblock nd) =? -1); injection Em as _ <-; now repeat split. }
  assert (Hnum : mtd_num mtd1 = Z.quot (nd_minor nd) 2).
  { destruct (rv (nd_memgetbadblock nd) =? -1); injection Em as <- _; reflexivity. }
  destruct Hst2 as (Hfd & Hbufs & Hlog).
  change (min_io_size (with_geometry (nd_ui nd) mtd1)) with (min_io_of (nd_ui nd)).
  change (eb_size (with_geometry (nd_ui nd) mtd1)) with (eb_size_of (nd_ui nd)).
  change (size (with_geometry (nd_ui nd) mtd1)) with (size_of (nd_ui nd)).
  change (mtd_num (with_geometry (nd_ui nd) mtd1)) with (mtd_num mtd1).
  rewrite Hnum.
  destruct (Z.leb_spec (min_io_of (nd_ui nd)) 0) as [Hio|Hio].
  { eexists _, _, _. split; [reflexivity|]. cbn. rewrite Hfd, Hbufs, Hlog.
    do 3 (split; [reflexivity|]). intros _.
    repeat split; intros; lia. }
  destruct ((eb_size_of (nd_ui nd) <=? 0)
            || (eb_size_of (nd_ui nd) <? min_io_of (nd_ui nd))) eqn:Eeb.
  { eexists _, _, _. split; [reflexivity|]. cbn. rewrite Hfd, Hbufs, Hlog.
    do 3 (split; [reflexivity|]). intros _.
    apply orb_prop in Eeb.
    repeat split; intros; try reflexivity; lia. }
  destruct ((size_of (nd_ui nd) <=? 0)
            || (size_of (nd_ui nd) <? eb_size_of (nd_ui nd))) eqn:Esz.
  { apply orb_false_elim in Eeb as [Heb1%Z.leb_gt Heb2%Z.ltb_ge].
    eexists _, _, _. split; [reflexivity|]. cbn. rewrite Hfd, Hbufs, Hlog.
    do 3 (split; [reflexivity|]). intros _.
    repeat split; intros; try reflexivity; lia. }
  exfalso.
  apply orb_false_elim in Eeb as [Heb1%Z.leb_gt Heb2%Z.ltb_ge].
  apply orb_false_elim in Esz as [Hsz1%Z.leb_gt Hsz2%Z.ltb_ge]. lia.
Qed.

(** C8 (amended).  On a well-formed listing that fits the buffer of
    [PROC_MTD_MAX_LEN] bytes, [legacy_get_dev_info2] fails with [ENODEV]
    and no diagnostic when no line has the requested name, fails with
    [ENODEV] and the multiple-match diagnostic when more than one line has it,
    and, when exactly one line has it, returns what [legacy_get_dev_info1]
    returns for the device number of that line (with the scan buffer freed). *)
Theorem legacy_get_dev_info2_by_name e ls nm0 mtd st fuel :
  well_formed MTD_NAME_MAX e ls -> (length ls < fuel)%nat ->
  match matching nm0 ls with
  | [] =>
      exists st',
        legacy_get_dev_info2 MTD_NAME_MAX fuel e nm0 mtd st = Some (-1, mtd, st')
        /\ errno st' = ENODEV /\ log st' = log st
  | [l] =>
      exists st',
        legacy_get_dev_info2 MTD_NAME_MAX fuel e nm0 mtd st
        = legacy_get_dev_info1 MTD_NAME_MAX fuel e (line_num l) mtd st'
        /\ open_fds st' = open_fds st /\ live_bufs st' = live_bufs st
        /\ log st' = log st
  | _ :: _ :: _ =>
      exists st',
        legacy_get_dev_info2 MTD_NAME_MAX fuel e nm0 mtd st = Some (-1, mtd, st')
        /\ errno st' = ENODEV /\ log st' = log st ++ [D_multiple nm0]
  end.
Proof.
  intros Hwf Hfuel.
  destruct (scan_well_formed (get_dev_info2_body nm0) e ls (stack_pi e) (-1) st fuel
              Hwf Hfuel)
    as (pi & st1 & pi' & st' & Hstart & Hrun & Hfd & Herr & Hlog & Hbufs).
  assert (Hnum : forall l, In l ls -> 0 <= line_num l).
  { destruct Hwf as (_ & _ & _ & Hlines). intros l Hl.
    rewrite forallb_forall in Hlines. now apply wf_line_num, Hlines. }
  rewrite (fold_dev_info2 nm0 ls (-1) Hnum) in Hrun, Hbufs.
  change (-1 >=? 0) with false in Hrun, Hbufs. cbv iota in Hrun, Hbufs.
  unfold legacy_get_dev_info2. rewrite Hstart. change (negb (0 =? 0)) with false.
  cbv iota. rewrite Hrun.
  destruct (matching nm0 ls) as [|l [|l2 rest]] eqn:Ematch.
  - exists (set_errno ENODEV st'). split; [reflexivity|]. split; [reflexivity|exact Hlog].
  - assert (Hl : In l ls).
    { apply (proj1 (filter_In (fun l => streq nm0 (l_name l)) l ls)).
      fold (matching nm0 ls). rewrite Ematch. now left. }
    rewrite (proj2 (Z.ltb_ge _ _)) by (apply Hnum, Hl).
    exists st'. split; [reflexivity|]. now repeat split.
  - unfold errmsg. eexists. split; [reflexivity|]. split; [reflexivity|].
    cbn. now rewrite Hlog.
Qed.

(** C9.  (1) When the ECCGETLAYOUT request is not supported,
    [legacy_get_mtd_oobavail] prints no diagnostic, closes the node and
    returns the (negative) result of the request with [errno] left at
    [EOPNOTSUPP].  (2) A descriptor returned with success has [oobavail]
    equal to the value of the probe when that is positive and to 0
    otherwise.  (3) The outcome of the probe does not decide the success of
    the assembly: if [legacy_get_dev_info] succeeds, it also succeeds when
    the request is answered in any other way, with the same descriptor but
    for [oobavail], which is 0 when the request is not supported. *)
Theorem oobavail_probe_is_optional :
  (forall e node nd st,
      dev_nodes e node = Some nd -> rv (nd_fstat nd) = 0 -> nd_is_chr nd = true ->
      nd_eccgetlayout nd = unsupported ->
      exists st',
        legacy_get_mtd_oobavail e node st = (-1, st')
        /\ log st' = log st /\ open_fds st' = open_fds st
        /\ errno st' = EOPNOTSUPP)
  /\ (forall fuel e node mtd st mtd' st',
        legacy_get_dev_info MTD_NAME_MAX fuel e node mtd st = Some (0, mtd', st') ->
        forall st0, oobavail mtd' = clamp (fst (legacy_get_mtd_oobavail e node st0)))
  /\ (forall fuel e node mtd st mtd' st' r v,
        legacy_get_dev_info MTD_NAME_MAX fuel e node mtd st = Some (0, mtd', st') ->
        exists n st2,
          legacy_get_dev_info MTD_NAME_MAX fuel (override_ecc node r v e) node mtd st
          = Some (0, with_oobavail n mtd', st2)
          /\ (r = unsupported -> n = 0)
          /\ (0 <= rv r -> n = clamp (to_int v))).
Proof.
  split; [|split].
  - intros e node nd st Hnode Hstat Hchr Hecc.
    unfold legacy_get_mtd_oobavail. rewrite Hnode, Hstat, Hchr, Hecc.
    rewrite sys_ok by assumption. cbn. eexists. split; [reflexivity|]. now repeat split.
  - intros fuel e node mtd st mtd' st' Hok st0.
    apply legacy_get_dev_info_success in Hok as (nd & _ & _ & _ & _ & _ & _ & _ & _ & Hoob).
    apply Hoob.
  - intros fuel e node mtd st mtd' st' r v.
    unfold legacy_get_dev_info. cbn [dev_nodes override_ecc]. rewrite String.eqb_refl.
    destruct (dev_nodes e node) as [nd|] eqn:Hnode; [|discriminate].
    cbn [option_map set_ecc nd_fstat nd_is_chr nd_major nd_minor nd_memgetinfo nd_ui
           nd_memgetbadblock].
    unfold errmsg, sys_errmsg, out_close. cbv beta iota zeta.
    destruct (negb (rv (nd_fstat nd) =? 0)) eqn:Estat; [discriminate|].
    destruct (negb (nd_is_chr nd)) eqn:Echr; [discriminate|].
    destruct (negb (major (with_rdev (nd_major nd) (nd_minor nd) mtd_zero) =? MTD_DEV_MAJOR));
      [discriminate|].
    destruct (negb (rv (nd_memgetinfo nd) =? 0)); [discriminate|].
    match goal with
    | |- context [if (?a =? -1) && ?b then _ else _] => destruct ((a =? -1) && b)
    end; [discriminate|].
    match goal with
    | |- context [let '(m, s) := ?x in _] => destruct x as [mtd1 st1] eqn:Ebb
    end.
    set (mtd2 := with_geometry (nd_ui nd) mtd1) in *.
    destruct (min_io_size mtd2 <=? 0); [discriminate|].
    destruct ((eb_size mtd2 <=? 0) || (eb_size mtd2 <? min_io_size mtd2)); [discriminate|].
    destruct ((size mtd2 <=? 0) || (size mtd2 <? eb_size mtd2)); [discriminate|].
    set (mtd3 := with_eb_cnt (to_int (size mtd2 ÷ eb_size mtd2)) mtd2).
    destruct (type mtd3 =? MTD_ABSENT); [discriminate|].
    destruct (type_name (type mtd3)) as [s|]; [|discriminate].
    set (mtd4 := with_subpage_size _ _).
    destruct (legacy_get_mtd_oobavail e node (do_close st1)) as [ret stp] eqn:Eprobe.
    destruct (legacy_get_mtd_oobavail (override_ecc node r v e) node (do_close st1))
      as [ret' stp'] eqn:Eprobe'.
    intros Hfind.
    destruct (find_name_indep fuel e _ _ _ _ (override_ecc node r v e)
                (with_oobavail (if ret' >? 0 then ret' else 0) mtd4) stp' Hfind)
      as (nm & st3 & -> & Hfind'); try reflexivity.
    rewrite Hfind'. exists (if ret' >? 0 then ret' else 0), st3.
    split; [reflexivity|].
    unfold legacy_get_mtd_oobavail in Eprobe'.
    cbn [dev_nodes override_ecc] in Eprobe'. rewrite String.eqb_refl, Hnode in Eprobe'.
    cbn [option_map set_ecc nd_fstat nd_is_chr nd_eccgetlayout nd_oobavail] in Eprobe'.
    rewrite Estat, Echr in Eprobe'. unfold errmsg, sys_errmsg in Eprobe'.
    split.
    + intros ->. cbn in Eprobe'. injection Eprobe' as <- _. reflexivity.
    + intros Hrv. rewrite (proj2 (Z.ltb_ge _ _)) in Eprobe' by assumption.
      injection Eprobe' as <- _. reflexivity.
Qed.

End Properties.

(** * Examples

    The examples take 127 for [MTD_NAME_MAX]; none of them has a name that
    comes close to it, but for [long_line]. *)

(** C4 (the code does otherwise).  On a file that ends with the closing quote
    of its last line, [proc_parse_next] finds both quotes within the data and
    then reads [p1[1]], the byte at offset [pi->data_size], which [read] did
    not fill. *)
Theorem proc_parse_next_reads_past_data :
  proc_parse_start (env_of pi_blank listing_cut) pi_blank st_init
  = (0, cursor_on listing_cut, mk_res 0 1 0 [] [])
  /\ pi_data_size (cursor_on listing_cut) = 63
  /\ existsb (fun off => off >=? pi_data_size (cursor_on listing_cut))
       (reads (snd (proc_parse_next 127 (cursor_on listing_cut) (mk_res 0 1 0 [] []))))
     = true
  /\ last (reads (snd (proc_parse_next 127 (cursor_on listing_cut) (mk_res 0 1 0 [] [])))) 0
     = 63.
Proof. repeat split; vm_compute; reflexivity. Qed.

(** C5 (the code does otherwise).  When the device number asked for is on a
    line of a well-formed listing, [legacy_dev_present] returns 1 from inside
    the loop: the file is closed but the scan buffer is still allocated. *)
Theorem legacy_dev_present_leaks MTD_NAME_MAX e ls n st fuel :
  well_formed MTD_NAME_MAX e ls -> (length ls < fuel)%nat ->
  In n (map line_num ls) ->
  exists st',
    legacy_dev_present MTD_NAME_MAX fuel e n st = Some (1, st')
    /\ open_fds st' = open_fds st
    /\ live_bufs st' = S (live_bufs st).
Proof.
  intros Hwf Hfuel Hin.
  destruct (scan_well_formed MTD_NAME_MAX (dev_present_body n) e ls (stack_pi e) tt st fuel
              Hwf Hfuel)
    as (pi & st1 & pi' & st' & Hstart & Hrun & Hfd & _ & _ & Hbufs).
  assert (Hfold : fold_records (dev_present_body n) ls tt = inr 1).
  { clear - Hin. induction ls as [|l ls IH]; [destruct Hin|].
    cbn [fold_records]. unfold dev_present_body at 1.
    destruct (Z.eqb_spec (line_num l) n) as [|Hne]; [reflexivity|].
    apply IH. destruct Hin as [Hin|Hin]; [congruence | exact Hin]. }
  rewrite Hfold in Hrun, Hbufs.
  unfold legacy_dev_present. rewrite Hstart. change (negb (0 =? 0)) with false.
  cbv iota. rewrite Hrun. exists st'. now repeat split.
Qed.

Lemma legacy_dev_present_leaks_witness :
  well_formed 127 (env_of pi_blank (listing [rootfs_line])) [rootfs_line]
  /\ exists st',
       legacy_dev_present 127 2 (env_of pi_blank (listing [rootfs_line])) 0 st_init
       = Some (1, st')
       /\ open_fds st' = O /\ live_bufs st' = 1%nat.
Proof.
  assert (Hwf : well_formed 127 (env_of pi_blank (listing [rootfs_line])) [rootfs_line])
    by (repeat split; vm_compute; discriminate).
  split; [exact Hwf|].
  exact (legacy_dev_present_leaks 127 _ [rootfs_line] 0 st_init 2 Hwf
           ltac:(cbn; lia) ltac:(left; reflexivity)).
Defined.

Lemma two_lines_well_formed nd : well_formed 127 (env_flash nd two_lines) two_lines.
Proof. repeat split; vm_compute; discriminate. Defined.

Lemma twin_lines_well_formed nd : well_formed 127 (env_flash nd twin_lines) twin_lines.
Proof. repeat split; vm_compute; discriminate. Defined.

(** C2, as stated, fails on a listing longer than the buffer: of the 101
    well-formed lines of [crowded] the single [read] of 4096 bytes gets the
    first 100, and the summary counts 100 devices, the highest being 99.  It
    also fails when the structure is not zeroed on entry: the count and the
    highest number found there stay in the sums. *)
Lemma summary_stops_at_the_buffer :
  forallb (wf_line 127) crowded = true
  /\ length crowded = 101%nat
  /\ fold_left Z.max (map line_num crowded) 0 = 100
  /\ option_map (fun '(r, info, _) => (r, info))
       (legacy_mtd_get_info 127 102 (env_of pi_blank (listing crowded))
          (mk_info 0 0 0) st_init)
     = Some (0, mk_info 100 0 99)
  /\ option_map (fun '(r, info, _) => (r, info))
       (legacy_mtd_get_info 127 2 (env_of pi_blank (listing [rootfs_line]))
          (mk_info 5 0 7) st_init)
     = Some (0, mk_info 6 0 7).
Proof. repeat split; vm_compute; reflexivity. Qed.

(** C2 (amended) at the listing of [mtd0] and [mtd1]: two devices. *)
Lemma legacy_mtd_get_info_summary_witness :
  well_formed 127 (env_flash node_1M two_lines) two_lines
  /\ exists info' st',
       legacy_mtd_get_info 127 3 (env_flash node_1M two_lines) (mk_info 0 0 0) st_init
       = Some (0, info', st')
       /\ mtd_dev_cnt info' = 2.
Proof.
  split; [apply two_lines_well_formed|].
  destruct (legacy_mtd_get_info_summary 127 (env_flash node_1M two_lines) two_lines
              (mk_info 0 0 0) st_init 3 (two_lines_well_formed node_1M)
              eq_refl eq_refl ltac:(cbn; lia))
    as (info' & st' & Hrun & Hcnt & _).
  exists info', st'. split; [exact Hrun | exact Hcnt].
Defined.

(** C3, as stated, fails on a device of 300000 bytes with erase units of
    128 KiB: the descriptor is returned with [eb_cnt = 2] and
    [eb_size * eb_cnt = 262144]. *)
Lemma eb_cnt_not_exact :
  exists m s,
    legacy_get_dev_info 127 3 (env_flash node_odd two_lines) "/dev/mtd0" mtd_zero st_init
    = Some (0, m, s)
    /\ size m = 300000 /\ eb_size m = 131072 /\ eb_cnt m = 2
    /\ eb_size m * eb_cnt m <> size m.
Proof.
  eexists. eexists. split; [vm_compute; reflexivity|].
  repeat split. vm_compute. discriminate.
Qed.

Lemma legacy_get_dev_info_eb_cnt_witness :
  exists m s,
    legacy_get_dev_info 127 3 (env_flash node_odd two_lines) "/dev/mtd0" mtd_zero st_init
    = Some (0, m, s)
    /\ eb_cnt m = to_int (Z.quot (size m) (eb_size m))
    /\ 0 < eb_size m <= size m.
Proof.
  eexists. eexists.
  assert (H : legacy_get_dev_info 127 3 (env_flash node_odd two_lines) "/dev/mtd0"
                mtd_zero st_init = Some (0, _, _)) by (vm_compute; reflexivity).
  split; [exact H|].
  destruct (legacy_get_dev_info_eb_cnt 127 _ _ _ _ _ _ _ H) as (Hcnt & Hpos & _).
  split; [exact Hcnt | exact Hpos].
Defined.

(** C6 at a geometry whose minimum write unit is 0. *)
Lemma insane_geometry_rejected_witness :
  min_io_of (nd_ui node_insane) <= 0
  /\ exists mtd' st' d,
       legacy_get_dev_info 127 0 (env_flash node_insane two_lines) "/dev/mtd0"
         mtd_zero st_init = Some (-1, mtd', st')
       /\ open_fds st' = O /\ log st' = [d].
Proof.
  assert (Hio : min_io_of (nd_ui node_insane) <= 0) by (vm_compute; discriminate).
  split; [exact Hio|].
  destruct (insane_geometry_rejected 127 0 (env_flash node_insane two_lines) "/dev/mtd0"
              node_insane mtd_zero st_init eq_refl eq_refl eq_refl eq_refl eq_refl
              (or_introl Hio))
    as (mtd' & st' & d & Hrun & Hfd & _ & Hlog & _).
  exists mtd', st', d. split; [exact Hrun|]. split; [exact Hfd | exact Hlog].
Defined.



(** C8, as stated, fails on a listing longer than the buffer.  Of the 101
    well-formed lines of [crowded_with nm] the single [read] of 4096 bytes
    gets the first 100.  When the last line has the name of the first, two
    lines match and the lookup still succeeds, with the descriptor of [mtd0];
    when the last line alone is named [data], one line matches and the lookup
    fails with [ENODEV]. *)
Lemma second_match_past_the_buffer :
  forallb (wf_line 127) (crowded_with (repeat "p"%char 42)) = true
  /\ map line_num (matching (repeat "p"%char 42) (crowded_with (repeat "p"%char 42)))
     = [0; 100]
  /\ option_map (fun '(r, m, st') => (r, mtd_num m, name m, log st'))
       (legacy_get_dev_info2 127 102
          (env_flash node_1M (crowded_with (repeat "p"%char 42)))
          (repeat "p"%char 42) mtd_zero st_init)
     = Some (0, 0, repeat "p"%char 42, [])
  /\ forallb (wf_line 127) (crowded_with (text "data")) = true
  /\ map line_num (matching (text "data") (crowded_with (text "data"))) = [100]
  /\ option_map (fun '(r, m, st') => (r, m, errno st', log st'))
       (legacy_get_dev_info2 127 102 (env_flash node_1M (crowded_with (text "data")))
          (text "data") mtd_zero st_init)
     = Some (-1, mtd_zero, ENODEV, []).
Proof. repeat split; vm_compute; reflexivity. Qed.

(** C8 (amended) at the name [data], which one line has, and at the name
    [rootfs] when two lines have it. *)
Lemma legacy_get_dev_info2_by_name_witness :
  (exists st',
      legacy_get_dev_info2 127 3 (env_flash node_1M two_lines) (text "data") mtd_zero st_init
      = legacy_get_dev_info1 127 3 (env_flash node_1M two_lines) 1 mtd_zero st'
      /\ open_fds st' = O /\ live_bufs st' = O /\ log st' = [])
  /\ (exists st',
        legacy_get_dev_info2 127 4 (env_flash node_1M twin_lines) (text "rootfs")
          mtd_zero st_init = Some (-1, mtd_zero, st')
        /\ errno st' = ENODEV /\ log st' = [D_multiple (text "rootfs")]).
Proof.
  split.
  - exact (legacy_get_dev_info2_by_name 127 (env_flash node_1M two_lines) two_lines
             (text "data") mtd_zero st_init 3 (two_lines_well_formed node_1M)
             ltac:(cbn; lia)).
  - exact (legacy_get_dev_info2_by_name 127 (env_flash node_1M twin_lines) twin_lines
             (text "rootfs") mtd_zero st_init 4 (twin_lines_well_formed node_1M)
             ltac:(cbn; lia)).
Defined.

(** C9 at the node of 1 MiB, with and without the ECCGETLAYOUT request. *)
Lemma oobavail_probe_is_optional_witness :
  (exists st',
      legacy_get_mtd_oobavail (env_flash node_no_ecc two_lines) "/dev/mtd0" st_init
      = (-1, st')
      /\ log st' = [] /\ open_fds st' = O /\ errno st' = EOPNOTSUPP)
  /\ (exists m s,
        legacy_get_dev_info 127 3 (env_flash node_1M two_lines) "/dev/mtd0" mtd_zero st_init
        = Some (0, m, s)
        /\ oobavail m = 24
        /\ exists n s2,
             legacy_get_dev_info 127 3
               (override_ecc "/dev/mtd0" unsupported 0 (env_flash node_1M two_lines))
               "/dev/mtd0" mtd_zero st_init
             = Some (0, with_oobavail n m, s2)
             /\ n = 0).
Proof.
  destruct (oobavail_probe_is_optional 127) as (H1 & H2 & H3).
  split.
  - exact (H1 (env_flash node_no_ecc two_lines) "/dev/mtd0"%string node_no_ecc st_init
             eq_refl eq_refl eq_refl eq_refl).
  - eexists. eexists.
    assert (H : legacy_get_dev_info 127 3 (env_flash node_1M two_lines) "/dev/mtd0"
                  mtd_zero st_init = Some (0, _, _)) by (vm_compute; reflexivity).
    split; [exact H|]. split; [exact (H2 _ _ _ _ _ _ _ H st_init)|].
    destruct (H3 _ _ _ _ _ _ _ unsupported 0 H) as (n & s2 & Hrun & Hn & _).
    exists n, s2. split; [exact Hrun | exact (Hn eq_refl)].
Defined.

(** C10 at the cursor on a line that is not a device line. *)
Lemma proc_parse_next_failure_frame_witness :
  exists pi' st',
    proc_parse_next 127 (cursor_on listing_garbage) st_init = (-1, pi', st')
    /\ pi_next pi' = 31
    /\ forall st2, exists st3, proc_parse_next 127 pi' st2 = (-1, pi', st3).
Proof.
  eexists. eexists.
  assert (H : proc_parse_next 127 (cursor_on listing_garbage) st_init = (-1, _, _))
    by (vm_compute; reflexivity).
  split; [exact H|].
  destruct (proc_parse_next_failure_frame 127 _ _ _ _ _ H
              ltac:(discriminate) ltac:(discriminate))
    as (Hnext & _ & _ & _ & d & offs & _ & _ & Hagain).
  split; [exact Hnext|].
  intros st2. eexists. apply Hagain.
Defined.

(** * Further properties of the code *)

Section Extras.

Variable MTD_NAME_MAX : Z.

Ltac split_ifs :=
  repeat match goal with
    | |- context [sscanf ?a ?b ?c] => destruct (sscanf a b c) as [[? ?] ?]
    | |- context [memchr ?a ?b ?c ?d] => destruct (memchr a b c d) as [[?|] ?] eqn:?
    | |- context [if ?c then _ else _] => destruct c eqn:?
    end.

(** ** Resources of the scanner *)

(** X1.  [proc_parse_start] returns 0 or [-1]; whatever it returns, the file
    is closed again; the buffer is left allocated exactly when it returns 0. *)
Theorem proc_parse_start_resources e pi st :
  let '(r, _, st') := proc_parse_start e pi st in
  open_fds st' = open_fds st
  /\ (r = 0 /\ live_bufs st' = S (live_bufs st)
      \/ r = -1 /\ live_bufs st' = live_bufs st).
Proof.
  unfold proc_parse_start, errmsg, sys_errmsg.
  destruct (proc_mtd e) as [content|]; [|split; [reflexivity | now right]].
  destruct (proc_read e); [split; [reflexivity | now right]|].
  destruct (read_into content (heap_junk e)) as [b ret].
  destruct ((ret <? PROC_MTD_FIRST_LEN)
            || negb (memcmp_eq b PROC_MTD_FIRST PROC_MTD_FIRST_LEN));
    (split; [reflexivity|]); [now right | now left].
Qed.

(** X2.  The cursor [proc_parse_start] returns with 0 stands right after the
    header: the buffer starts with the header, [pi->next] is its length and
    [pi->data_size] lies between that length and [PROC_MTD_MAX_LEN], within
    the bytes of the buffer. *)
Theorem proc_parse_start_cursor e pi st pi' st' :
  proc_parse_start e pi st = (0, pi', st') ->
  firstn (Z.to_nat PROC_MTD_FIRST_LEN) (pi_buf pi') = PROC_MTD_FIRST
  /\ pi_next pi' = PROC_MTD_FIRST_LEN
  /\ PROC_MTD_FIRST_LEN <= pi_data_size pi' <= PROC_MTD_MAX_LEN
  /\ pi_data_size pi' <= Z.of_nat (length (pi_buf pi'))
  /\ pi_mtd_num pi' = pi_mtd_num pi /\ pi_name pi' = pi_name pi.
Proof.
  unfold proc_parse_start, errmsg, sys_errmsg.
  destruct (proc_mtd e) as [content|]; [|discriminate].
  destruct (proc_read e); [discriminate|].
  unfold read_into.
  set (data := firstn (Z.to_nat PROC_MTD_MAX_LEN) content).
  set (b := data ++ skipn (length data) (heap_junk e)).
  cbv beta iota zeta.
  destruct ((Z.of_nat (length data) <? PROC_MTD_FIRST_LEN)
            || negb (memcmp_eq b PROC_MTD_FIRST PROC_MTD_FIRST_LEN)) eqn:Ebad;
    [discriminate|].
  intros [= <- _]. cbn [pi_buf pi_next pi_data_size pi_mtd_num pi_name].
  apply orb_false_elim in Ebad as [Hlen Hcmp].
  apply Z.ltb_ge in Hlen. apply negb_false_iff in Hcmp. unfold memcmp_eq in Hcmp.
  destruct (list_eq_dec ascii_dec (firstn (Z.to_nat PROC_MTD_FIRST_LEN) b)
              (firstn (Z.to_nat PROC_MTD_FIRST_LEN) PROC_MTD_FIRST)) as [E|]; [|discriminate].
  change (firstn (Z.to_nat PROC_MTD_FIRST_LEN) PROC_MTD_FIRST) with PROC_MTD_FIRST in E.
  assert (Hdata : (length data <= Z.to_nat PROC_MTD_MAX_LEN)%nat)
    by (subst data; apply firstn_le_length).
  repeat split; try assumption; try lia.
  - unfold PROC_MTD_MAX_LEN in *. lia.
  - subst b. rewrite length_app. lia.
Qed.

(** ** One call of [proc_parse_next] *)

Lemma index_of_some c l : forall n i,
  index_of c (firstn n l) = Some i ->
  exists a b, l = a ++ c :: b /\ no_char c a = true /\ length a = i /\ (i < n)%nat.
Proof.
  induction l as [|x l IH]; intros [|n] i H; try discriminate.
  cbn [firstn index_of] in H. destruct (Ascii.eqb_spec x c) as [->|Hx].
  - injection H as <-. exists [], l. repeat split. lia.
  - destruct (index_of c (firstn n l)) as [j|] eqn:Ej; [|discriminate].
    injection H as <-. destruct (IH n j Ej) as (a & b & -> & Ha & <- & Hlt).
    exists (x :: a), b. repeat split; try (cbn; lia).
    unfold no_char in *. cbn [forallb].
    rewrite Ha, (proj2 (Ascii.eqb_neq x c) Hx). reflexivity.
Qed.

Lemma memchr_some l p c n q offs :
  memchr l p c n = (Some q, offs) ->
  exists a b,
    from p l = a ++ c :: b /\ no_char c a = true
    /\ q = p + Z.of_nat (length a) /\ Z.of_nat (length a) < n
    /\ offs = span p (S (length a)).
Proof.
  unfold memchr.
  destruct (index_of c (firstn (Z.to_nat n) (from p l))) as [i|] eqn:Ei; [|discriminate].
  intros [= <- <-]. destruct (index_of_some _ _ _ _ Ei) as (a & b & Hl & Ha & <- & Hlt).
  exists a, b. repeat split; try assumption. lia.
Qed.

Lemma from_add l p k rest :
  0 <= p -> from p l = rest -> from (p + Z.of_nat k) l = skipn k rest.
Proof.
  intros Hp <-. unfold from. rewrite Z2Nat.inj_add, Nat2Z.id by lia.
  rewrite skipn_skipn. f_equal. lia.
Qed.

Lemma skipn_exact {A : Type} (a b : list A) : skipn (length a) (a ++ b) = b.
Proof. induction a as [|x a IH]; [reflexivity | exact IH]. Qed.

Lemma in_span o p n : In o (span p n) -> p <= o < p + Z.of_nat n.
Proof.
  unfold span. rewrite in_map_iff. intros (i & <- & Hi%in_seq). lia.
Qed.

(** X3.  [proc_parse_next] returns 0 exactly when the cursor is at or past the
    end of the data, and only then frees the buffer; otherwise it returns 1
    or [-1].  It never changes the buffer, [pi->data_size] or the set of
    open files, and it prints a diagnostic exactly when it returns [-1]. *)
Theorem proc_parse_next_outcomes pi st :
  let '(r, pi', st') := proc_parse_next MTD_NAME_MAX pi st in
  pi_buf pi' = pi_buf pi /\ pi_data_size pi' = pi_data_size pi
  /\ open_fds st' = open_fds st
  /\ (r = 0 /\ pi_data_size pi <= pi_next pi /\ pi' = pi
      /\ live_bufs st' = pred (live_bufs st) /\ log st' = log st
      \/ r = 1 /\ pi_next pi < pi_data_size pi
         /\ live_bufs st' = live_bufs st /\ log st' = log st
      \/ r = -1 /\ pi_next pi < pi_data_size pi
         /\ live_bufs st' = live_bufs st /\ exists d, log st' = log st ++ [d]).
Proof.
  unfold proc_parse_next, errmsg. cbv beta iota zeta.
  destruct (Z.geb_spec (pi_next pi) (pi_data_size pi)) as [Hend|Hgo].
  { repeat split. left. repeat split. lia. }
  destruct (sscanf PROC_MTD_PATT (cstr (from (pi_next pi) (pi_buf pi))) [])
    as [[ret vals] rest].
  destruct (set_scanned_frame vals pi) as (Hn & Hb & Hd & Hname).
  rewrite Hn, Hb, Hd.
  split_ifs; cbn [pi_buf pi_data_size set_name set_next];
    (do 3 (split; [assumption || reflexivity|]));
    first [ right; left; now repeat split
          | right; right; repeat split; try assumption; eexists; reflexivity ].
Qed.

(** X4.  A call of [proc_parse_next] that returns 1 on a cursor with a
    non-negative offset moves [pi->next] forward by at least 3 bytes and at
    most to one byte past the data; the two bytes before the new [pi->next]
    are a quote and a newline; the name stored is at most [MTD_NAME_MAX]
    bytes long, holds no quote and is the text between the first two quotes
    after the old [pi->next]. *)
Theorem proc_parse_next_record pi st pi' st' :
  0 <= pi_next pi ->
  proc_parse_next MTD_NAME_MAX pi st = (1, pi', st') ->
  pi_next pi + 3 <= pi_next pi' <= pi_data_size pi + 1
  /\ byte_at (pi_buf pi) (pi_next pi' - 2) = quote
  /\ byte_at (pi_buf pi) (pi_next pi' - 1) = newline
  /\ Z.of_nat (length (pi_name pi')) <= MTD_NAME_MAX
  /\ no_quote (pi_name pi') = true
  /\ exists a, no_quote a = true
       /\ from (pi_next pi) (pi_buf pi)
          = a ++ quote :: pi_name pi' ++ quote :: newline
              :: from (pi_next pi') (pi_buf pi).
Proof.
  intros Hpos. unfold proc_parse_next, errmsg. cbv beta iota zeta.
  destruct (pi_next pi >=? pi_data_size pi); [discriminate|].
  destruct (sscanf PROC_MTD_PATT (cstr (from (pi_next pi) (pi_buf pi))) [])
    as [[ret vals] rest].
  destruct (set_scanned_frame vals pi) as (Hn & Hb & Hd & Hname).
  rewrite Hn, Hb, Hd.
  destruct (negb (ret =? 3)); [discriminate|].
  destruct (memchr (pi_buf pi) (pi_next pi) quote (pi_data_size pi - pi_next pi))
    as [[p|] offs1] eqn:Em1; [|discriminate].
  destruct (memchr_some _ _ _ _ _ _ Em1) as (a & b & F1 & Ha & -> & Hlt1 & _).
  destruct (Z.geb_spec (pi_next pi + Z.of_nat (length a) + 1) (pi_data_size pi));
    [discriminate|].
  destruct (memchr (pi_buf pi) (pi_next pi + Z.of_nat (length a) + 1) quote
              (pi_data_size pi - (pi_next pi + Z.of_nat (length a) + 1)))
    as [[p1|] offs2] eqn:Em2; [|discriminate].
  destruct (memchr_some _ _ _ _ _ _ Em2) as (nm & c & F2 & Hnm & -> & Hlt2 & _).
  destruct (_ >=? pi_data_size pi); [discriminate|].
  destruct (Z.gtb_spec (pi_next pi + Z.of_nat (length a) + 1 + Z.of_nat (length nm)
                        - (pi_next pi + Z.of_nat (length a) + 1)) MTD_NAME_MAX)
    as [|Hmax]; [discriminate|].
  cbn [pi_buf set_name]. rewrite Hb.
  destruct (Ascii.eqb_spec
              (byte_at (pi_buf pi)
                 (pi_next pi + Z.of_nat (length a) + 1 + Z.of_nat (length nm) + 1))
              newline) as [Hnl|]; [|discriminate].
  intros [= <- _]. cbn [pi_next pi_name set_next set_name].
  replace (Z.to_nat (pi_next pi + Z.of_nat (length a) + 1 + Z.of_nat (length nm)
                     - (pi_next pi + Z.of_nat (length a) + 1)))
    with (length nm) by lia.
  rewrite F2, firstn_exact.
  assert (F2' : b = nm ++ quote :: c).
  { rewrite <- F2.
    replace (pi_next pi + Z.of_nat (length a) + 1)
      with (pi_next pi + Z.of_nat (length a + 1)) by lia.
    rewrite (from_add _ _ _ _ Hpos F1).
    replace (a ++ quote :: b) with ((a ++ [quote]) ++ b) by now rewrite <- app_assoc.
    replace (length a + 1)%nat with (length (a ++ [quote]))
      by (rewrite length_app; reflexivity).
    now rewrite skipn_exact. }
  subst b.
  assert (F3 : from (pi_next pi + Z.of_nat (length a) + 1 + Z.of_nat (length nm)) (pi_buf pi)
               = quote :: c).
  { rewrite (from_add (pi_buf pi) (pi_next pi + Z.of_nat (length a) + 1) (length nm)
               (nm ++ quote :: c)) by (lia || exact F2).
    apply skipn_exact. }
  assert (F4 : from (pi_next pi + Z.of_nat (length a) + 1 + Z.of_nat (length nm) + 1)
                 (pi_buf pi) = skipn 1 (quote :: c)).
  { replace (pi_next pi + Z.of_nat (length a) + 1 + Z.of_nat (length nm) + 1)
      with (pi_next pi + Z.of_nat (length a) + 1 + Z.of_nat (length nm) + Z.of_nat 1) by lia.
    apply from_add; [lia | exact F3]. }
  cbn [skipn] in F4.
  assert (Hc : c = newline :: from (pi_next pi + Z.of_nat (length a) + 1
                                    + Z.of_nat (length nm) + 2) (pi_buf pi)).
  { destruct c as [|x c].
    - exfalso. unfold byte_at, from in *.
      rewrite nth_overflow in Hnl; [discriminate|].
      pose proof (length_skipn
                    (Z.to_nat (pi_next pi + Z.of_nat (length a) + 1
                               + Z.of_nat (length nm) + 1)) (pi_buf pi)) as Hlen.
      rewrite F4 in Hlen. cbn in Hlen. lia.
    - rewrite (byte_at_from (pi_buf pi)
                 (pi_next pi + Z.of_nat (length a) + 1 + Z.of_nat (length nm) + 1) x c)
        in Hnl by (lia || exact F4).
      subst x. f_equal.
      replace (pi_next pi + Z.of_nat (length a) + 1 + Z.of_nat (length nm) + 2)
        with (pi_next pi + Z.of_nat (length a) + 1 + Z.of_nat (length nm) + 1 + Z.of_nat 1)
        by lia.
      rewrite (from_add (pi_buf pi)
                 (pi_next pi + Z.of_nat (length a) + 1 + Z.of_nat (length nm) + 1) 1
                 (newline :: c)) by (lia || exact F4).
      reflexivity. }
  split; [lia|].
  split.
  { apply byte_at_from with c; [lia|]. rewrite <- F3. f_equal. lia. }
  split.
  { replace (pi_next pi + Z.of_nat (length a) + 1 + Z.of_nat (length nm) + 2 - 1)
      with (pi_next pi + Z.of_nat (length a) + 1 + Z.of_nat (length nm) + 1) by lia.
    exact Hnl. }
  split; [lia|]. split; [exact Hnm|].
  exists a. split; [exact Ha|]. rewrite F1. now rewrite <- Hc.
Qed.

(** ** The loops over a listing that starts with well-formed lines *)

Lemma last_cons {A : Type} (x : A) (l : list A) (d : A) : last (x :: l) d = last l x.
Proof.
  revert x d. induction l as [|y l IH]; intros x d; [reflexivity|].
  change (last (x :: y :: l) d) with (last (y :: l) d).
  now rewrite (IH y d), (IH y x).
Qed.

Lemma while_fuel_more {A R : Type} (body : Z -> list ascii -> A -> A + R) fuel :
  forall pi acc st r k,
    while_parse_next MTD_NAME_MAX body fuel pi acc st = Some r ->
    while_parse_next MTD_NAME_MAX body (fuel + k) pi acc st = Some r.
Proof.
  induction fuel as [|fuel IH]; intros pi acc st r k; [discriminate|].
  cbn [while_parse_next Nat.add].
  destruct (proc_parse_next MTD_NAME_MAX pi st) as [[r0 pi1] st1].
  destruct (r0 =? 0); [easy|].
  destruct (body (pi_mtd_num pi1) (pi_name pi1) acc); [apply IH | easy].
Qed.

Lemma while_fuel_less {A R : Type} (body : Z -> list ascii -> A -> A + R) fuel k pi acc st :
  while_parse_next MTD_NAME_MAX body (fuel + k) pi acc st = None ->
  while_parse_next MTD_NAME_MAX body fuel pi acc st = None.
Proof.
  intros Hnone.
  destruct (while_parse_next MTD_NAME_MAX body fuel pi acc st) as [r|] eqn:E; [|reflexivity].
  rewrite (while_fuel_more body fuel pi acc st r k E) in Hnone. discriminate.
Qed.

(** The loop over the lines [ls], whatever follows them in the buffer: either
    the body returns on one of them, or the loop goes on from the cursor
    behind them, which still holds the number and the name of the last
    line. *)
Lemma while_parse_next_prefix {A R : Type} (body : Z -> list ascii -> A -> A + R) ls :
  forall pre post pi acc st,
    forallb (wf_line MTD_NAME_MAX) ls = true ->
    pi_buf pi = pre ++ concat (map render ls) ++ post ->
    pi_next pi = Z.of_nat (length pre) ->
    Z.of_nat (length pre + length (concat (map render ls))) <= pi_data_size pi ->
    match fold_records body ls acc with
    | inr x =>
        forall fuel, (length ls <= fuel)%nat ->
        exists pi' st',
          while_parse_next MTD_NAME_MAX body fuel pi acc st = Some (inr x, pi', st')
          /\ open_fds st' = open_fds st /\ live_bufs st' = live_bufs st
          /\ errno st' = errno st /\ log st' = log st
    | inl acc' =>
        exists pi' st',
          (open_fds st' = open_fds st /\ live_bufs st' = live_bufs st
           /\ errno st' = errno st /\ log st' = log st)
          /\ pi_buf pi' = pi_buf pi /\ pi_data_size pi' = pi_data_size pi
          /\ pi_next pi' = Z.of_nat (length pre + length (concat (map render ls)))
          /\ pi_mtd_num pi' = last (map line_num ls) (pi_mtd_num pi)
          /\ pi_name pi' = last (map l_name ls) (pi_name pi)
          /\ forall fuel,
               while_parse_next MTD_NAME_MAX body (length ls + fuel) pi acc st
               = while_parse_next MTD_NAME_MAX body fuel pi' acc' st'
    end.
Proof.
  induction ls as [|l ls IH]; intros pre post pi acc st Hwf Hbuf Hnext Hsize.
  - cbn [fold_records map concat length last]. exists pi, st.
    rewrite Nat.add_0_r. now repeat split.
  - cbn [forallb] in Hwf. apply andb_prop in Hwf as [Hl Hls].
    cbn [map concat] in Hbuf, Hsize. rewrite <- app_assoc in Hbuf.
    rewrite length_app in Hsize.
    destruct (proc_parse_next_line MTD_NAME_MAX pi st l pre _ Hl Hbuf Hnext ltac:(lia))
      as (sz & eb & offs & Hstep).
    cbn [fold_records].
    destruct (body (line_num l) (l_name l) acc) as [acc'|x] eqn:Ebody.
    + specialize (IH (pre ++ render l) post
                    (mk_pi (line_num l) sz (l_name l) eb (pi_buf pi) (pi_data_size pi)
                       (Z.of_nat (length pre + length (render l))))
                    acc' (do_read offs st) Hls).
      cbn [pi_buf pi_next pi_data_size pi_mtd_num pi_name] in IH.
      rewrite length_app, <- app_assoc in IH.
      specialize (IH Hbuf eq_refl ltac:(lia)).
      destruct (fold_records body ls acc') as [acc2|x].
      * destruct IH as (pi' & st' & Hres & Hb & Hd & Hn & Hnum & Hname & Hrun).
        exists pi', st'. split; [exact Hres|]. split; [exact Hb|]. split; [exact Hd|].
        split; [cbn [map concat]; rewrite length_app, Hn; f_equal; lia|].
        cbn [map]. rewrite !last_cons. split; [exact Hnum|]. split; [exact Hname|].
        intros fuel. cbn [length Nat.add while_parse_next]. rewrite Hstep.
        change (1 =? 0) with false. cbv iota. cbn [pi_mtd_num pi_name].
        rewrite Ebody. apply Hrun.
      * intros [|fuel] Hfuel; [cbn in Hfuel; lia|].
        destruct (IH fuel ltac:(cbn in Hfuel; lia)) as (pi' & st' & Hrun & Hres).
        exists pi', st'. split; [|exact Hres].
        cbn [while_parse_next]. rewrite Hstep.
        change (1 =? 0) with false. cbv iota. cbn [pi_mtd_num pi_name].
        rewrite Ebody. exact Hrun.
    + intros [|fuel] Hfuel; [cbn in Hfuel; lia|].
      cbn [while_parse_next]. rewrite Hstep.
      change (1 =? 0) with false. cbv iota. cbn [pi_mtd_num pi_name].
      rewrite Ebody. eexists _, _. split; [reflexivity|]. now repeat split.
Qed.

Lemma proc_parse_start_buffered e ls rest pi st :
  buffered MTD_NAME_MAX e ls rest ->
  exists pi' junk,
    proc_parse_start e pi st = (0, pi', do_close (do_xmalloc (do_open st)))
    /\ pi_buf pi' = PROC_MTD_FIRST ++ concat (map render ls) ++ rest ++ junk
    /\ pi_next pi' = Z.of_nat (length PROC_MTD_FIRST)
    /\ pi_data_size pi'
       = Z.of_nat (length PROC_MTD_FIRST + length (concat (map render ls)) + length rest)
    /\ pi_mtd_num pi' = pi_mtd_num pi /\ pi_name pi' = pi_name pi.
Proof.
  intros (Hfile & Hread & Hlen & _). unfold proc_parse_start.
  rewrite Hfile, Hread. unfold read_into.
  rewrite firstn_all2 by (unfold PROC_MTD_MAX_LEN in *; lia).
  assert (Hret : (Z.of_nat (length (listing ls ++ rest)) <? PROC_MTD_FIRST_LEN) = false).
  { apply Z.ltb_ge. unfold listing, PROC_MTD_FIRST_LEN. rewrite !length_app. lia. }
  assert (Hcmp : memcmp_eq ((listing ls ++ rest)
                            ++ skipn (length (listing ls ++ rest)) (heap_junk e))
                   PROC_MTD_FIRST PROC_MTD_FIRST_LEN = true).
  { unfold memcmp_eq, PROC_MTD_FIRST_LEN, listing. rewrite Nat2Z.id.
    rewrite <- !app_assoc, firstn_exact, firstn_all.
    destruct (list_eq_dec ascii_dec PROC_MTD_FIRST PROC_MTD_FIRST); congruence. }
  rewrite Hret, Hcmp. cbn [orb negb].
  eexists _, _. split; [reflexivity|].
  cbn [pi_buf pi_next pi_data_size pi_mtd_num pi_name].
  unfold listing. rewrite <- !app_assoc, !length_app. repeat split; f_equal; lia.
Qed.

(** A line that does not start with [m] fails the pattern at its first
    byte. *)
Lemma proc_parse_next_not_mtd pi st c tl :
  from (pi_next pi) (pi_buf pi) = c :: tl -> c <> "m"%char ->
  pi_next pi < pi_data_size pi ->
  proc_parse_next MTD_NAME_MAX pi st
  = (-1, pi, say D_pattern_not_found (do_read (span (pi_next pi) 1) st)).
Proof.
  intros Hfrom Hc Hlt. unfold proc_parse_next, errmsg. cbv beta iota zeta.
  rewrite geb_false by assumption. rewrite Hfrom.
  cbn [cstr]. destruct (Ascii.eqb c NUL).
  - reflexivity.
  - unfold PROC_MTD_PATT. cbn [sscanf].
    rewrite (proj2 (Ascii.eqb_neq "m" c)) by congruence.
    cbn [length set_scanned]. rewrite Nat.sub_diag. reflexivity.
Qed.

Lemma fold_get_info_inl ls : forall info,
  exists info', fold_records get_info_body ls info = inl info'.
Proof.
  induction ls as [|l ls IH]; intros info; [now exists info|].
  cbn [fold_records]. unfold get_info_body at 1. apply IH.
Qed.

Lemma fold_dev_present n ls :
  fold_records (dev_present_body n) ls tt
  = if existsb (fun l => line_num l =? n) ls then inr 1 else inl tt.
Proof.
  induction ls as [|l ls IH]; [reflexivity|].
  cbn [fold_records existsb]. unfold dev_present_body at 1.
  destruct (line_num l =? n); [reflexivity | exact IH].
Qed.

Lemma existsb_line_num n ls :
  existsb (fun l => line_num l =? n) ls = true <-> In n (map line_num ls).
Proof.
  rewrite existsb_exists, in_map_iff. split.
  - intros (l & Hl & E%Z.eqb_eq). now exists l.
  - intros (l & E & Hl). exists l. split; [exact Hl | now apply Z.eqb_eq].
Qed.

Lemma last_in {A : Type} (l : list A) (d : A) : In (last l d) (d :: l).
Proof.
  revert d. induction l as [|x l IH]; intros d; [now left|].
  rewrite last_cons. right. apply IH.
Qed.

(** X5.  [legacy_dev_present] returns 1 as soon as a line shows the device
    number: when the file is at most [PROC_MTD_MAX_LEN] bytes long (it fits
    the buffer) and starts with the header and well-formed lines of which one
    shows [n], the answer is 1 whatever bytes follow those lines within that
    length (they are never parsed). *)
Theorem legacy_dev_present_early_exit e ls rest n st fuel :
  buffered MTD_NAME_MAX e ls rest -> In n (map line_num ls) ->
  (length ls <= fuel)%nat ->
  exists st',
    legacy_dev_present MTD_NAME_MAX fuel e n st = Some (1, st')
    /\ open_fds st' = open_fds st /\ log st' = log st.
Proof.
  intros Hbuf Hin Hfuel.
  destruct (proc_parse_start_buffered e ls rest (stack_pi e) st Hbuf)
    as (pi & junk & Hstart & Hb & Hn & Hd & _).
  destruct Hbuf as (_ & _ & _ & Hlines).
  pose proof (while_parse_next_prefix (dev_present_body n) ls PROC_MTD_FIRST (rest ++ junk)
                pi tt (do_close (do_xmalloc (do_open st))) Hlines Hb Hn ltac:(lia)) as Hrun.
  rewrite fold_dev_present, (proj2 (existsb_line_num n ls) Hin) in Hrun.
  destruct (Hrun fuel Hfuel) as (pi' & st' & Hwhile & Hfd & _ & _ & Hlog).
  unfold legacy_dev_present. rewrite Hstart. change (negb (0 =? 0)) with false.
  cbv iota. rewrite Hwhile. exists st'. now repeat split.
Qed.

(** X6.  On a well-formed listing that fits the buffer and has no line for
    the device number, [legacy_dev_present] returns 0 with the file closed,
    the buffer freed and nothing printed. *)
Theorem legacy_dev_present_absent e ls n st fuel :
  well_formed MTD_NAME_MAX e ls -> ~ In n (map line_num ls) ->
  (length ls < fuel)%nat ->
  exists st',
    legacy_dev_present MTD_NAME_MAX fuel e n st = Some (0, st')
    /\ open_fds st' = open_fds st /\ live_bufs st' = live_bufs st
    /\ log st' = log st.
Proof.
  intros Hwf Hin Hfuel.
  destruct (scan_well_formed MTD_NAME_MAX (dev_present_body n) e ls (stack_pi e) tt st fuel
              Hwf Hfuel)
    as (pi & st1 & pi' & st' & Hstart & Hrun & Hfd & Herr & Hlog & Hbufs).
  rewrite fold_dev_present in Hrun, Hbufs.
  destruct (existsb (fun l => line_num l =? n) ls) eqn:E.
  { exfalso. now apply Hin, existsb_line_num. }
  unfold legacy_dev_present. rewrite Hstart. change (negb (0 =? 0)) with false.
  cbv iota. rewrite Hrun. exists st'. now repeat split.
Qed.

(** X7.  When the file is at most [PROC_MTD_MAX_LEN] bytes long (it fits the
    buffer) and the well-formed lines at its start are followed by a line
    that does not begin with [m], [legacy_mtd_get_info] never returns, and
    neither does [legacy_dev_present] for a device number that is on none of
    the lines before (nor in the uninitialised [pi.mtd_num]). *)
Theorem scan_loops_forever_after_bad_line e ls c rest :
  buffered MTD_NAME_MAX e ls (c :: rest) -> c <> "m"%char ->
  (forall fuel info st, legacy_mtd_get_info MTD_NAME_MAX fuel e info st = None)
  /\ (forall fuel n st,
        ~ In n (pi_mtd_num (stack_pi e) :: map line_num ls) ->
        legacy_dev_present MTD_NAME_MAX fuel e n st = None).
Proof.
  intros Hbuf Hc.
  assert (Hstuck : forall {A R : Type} (body : Z -> list ascii -> A -> A + R) st acc,
             exists pi st1,
               proc_parse_start e (stack_pi e) st = (0, pi, st1)
               /\ match fold_records body ls acc with
                  | inr _ => True
                  | inl acc' =>
                      exists pi' st',
                        pi_mtd_num pi' = last (map line_num ls) (pi_mtd_num (stack_pi e))
                        /\ (forall st2, proc_parse_next MTD_NAME_MAX pi' st2
                                        = (-1, pi', say D_pattern_not_found
                                                      (do_read (span (pi_next pi') 1) st2)))
                        /\ forall fuel,
                             while_parse_next MTD_NAME_MAX body (length ls + fuel) pi acc st1
                             = while_parse_next MTD_NAME_MAX body fuel pi' acc' st'
                  end).
  { intros A R body st acc.
    destruct (proc_parse_start_buffered e ls (c :: rest) (stack_pi e) st Hbuf)
      as (pi & junk & Hstart & Hb & Hn & Hd & Hnum & _).
    destruct Hbuf as (_ & _ & _ & Hlines).
    pose proof (while_parse_next_prefix body ls PROC_MTD_FIRST ((c :: rest) ++ junk)
                  pi acc (do_close (do_xmalloc (do_open st))) Hlines Hb Hn ltac:(lia)) as Hrun.
    exists pi, (do_close (do_xmalloc (do_open st))). split; [exact Hstart|].
    destruct (fold_records body ls acc) as [acc'|]; [|exact I].
    destruct Hrun as (pi' & st' & _ & Hb' & Hd' & Hn' & Hnum' & _ & Hrun).
    exists pi', st'. split; [now rewrite Hnum', Hnum|]. split; [|exact Hrun].
    intros st2. apply proc_parse_next_not_mtd with (c := c) (tl := rest ++ junk); [|exact Hc|].
    - apply from_at with (PROC_MTD_FIRST ++ concat (map render ls)).
      + rewrite Hb', Hb. now rewrite <- app_assoc.
      + rewrite Hn'. now rewrite length_app.
    - rewrite Hn', Hd', Hd. cbn [length]. lia. }
  split.
  - intros fuel info st.
    destruct (Hstuck _ _ get_info_body st
                (mk_info (mtd_dev_cnt info) INT_MAX (highest_mtd_num info)))
      as (pi & st1 & Hstart & Hrest).
    destruct (fold_get_info_inl ls (mk_info (mtd_dev_cnt info) INT_MAX (highest_mtd_num info)))
      as (info' & Hfold).
    rewrite Hfold in Hrest. destruct Hrest as (pi' & st' & _ & Hfail & Hrun).
    unfold legacy_mtd_get_info. rewrite Hstart. change (negb (0 =? 0)) with false.
    cbv iota.
    rewrite (while_fuel_less get_info_body fuel (length ls)); [reflexivity|].
    rewrite Nat.add_comm, Hrun.
    apply (while_parse_next_stuck MTD_NAME_MAX get_info_body pi' _ _ Hfail).
    intros acc. apply get_info_body_goes_on.
  - intros fuel n st Hin.
    destruct (Hstuck _ _ (dev_present_body n) st tt) as (pi & st1 & Hstart & Hrest).
    rewrite fold_dev_present in Hrest.
    destruct (existsb (fun l => line_num l =? n) ls) eqn:E.
    { exfalso. apply Hin. right. now apply existsb_line_num. }
    destruct Hrest as (pi' & st' & Hnum & Hfail & Hrun).
    unfold legacy_dev_present. rewrite Hstart. change (negb (0 =? 0)) with false.
    cbv iota.
    rewrite (while_fuel_less (dev_present_body n) fuel (length ls)); [reflexivity|].
    rewrite Nat.add_comm, Hrun.
    apply (while_parse_next_stuck MTD_NAME_MAX (dev_present_body n) pi' _ _ Hfail).
    intros []. exists tt. unfold dev_present_body.
    destruct (Z.eqb_spec (pi_mtd_num pi') n) as [E'|]; [|reflexivity].
    exfalso. apply Hin. rewrite <- E', Hnum. apply last_in.
Qed.

(** X8.  [legacy_mtd_get_info] does not start from zero: on a well-formed
    listing that fits the buffer of [PROC_MTD_MAX_LEN] bytes it adds the
    number of lines to the count it finds in the structure (a count that is
    not negative, the sum fitting an [int]) and keeps the highest number found
    there if no line exceeds it; only the lowest number is computed afresh,
    from [INT_MAX]. *)
Theorem legacy_mtd_get_info_accumulates e ls info st fuel :
  well_formed MTD_NAME_MAX e ls -> (length ls < fuel)%nat ->
  0 <= mtd_dev_cnt info -> mtd_dev_cnt info + Z.of_nat (length ls) <= INT_MAX ->
  exists info' st',
    legacy_mtd_get_info MTD_NAME_MAX fuel e info st = Some (0, info', st')
    /\ mtd_dev_cnt info' = mtd_dev_cnt info + Z.of_nat (length ls)
    /\ lowest_mtd_num info' = fold_left Z.min (map line_num ls) INT_MAX
    /\ highest_mtd_num info' = fold_left Z.max (map line_num ls) (highest_mtd_num info)
    /\ open_fds st' = open_fds st /\ live_bufs st' = live_bufs st.
Proof.
  intros Hwf Hfuel Hcnt Hmax.
  destruct (scan_well_formed MTD_NAME_MAX get_info_body e ls (stack_pi e)
              (mk_info (mtd_dev_cnt info) INT_MAX (highest_mtd_num info)) st fuel Hwf Hfuel)
    as (pi & st1 & pi' & st' & Hstart & Hrun & Hfd & _ & _ & Hbufs).
  destruct (fold_get_info ls (mk_info (mtd_dev_cnt info) INT_MAX (highest_mtd_num info))
              Hcnt Hmax) as (info' & Hfold & Hc & Hl & Hh).
  rewrite Hfold in Hrun, Hbufs.
  unfold legacy_mtd_get_info. rewrite Hstart. change (negb (0 =? 0)) with false.
  cbv iota. rewrite Hrun. exists info', st'. now repeat split.
Qed.

(** X9.  In a file of at most [PROC_MTD_MAX_LEN] bytes (one that fits the
    buffer), a parse failure right after the only line with the requested
    name makes [legacy_get_dev_info2] report several devices of that name:
    the failed call leaves [pi.name] as it was, the loop body runs once more
    and compares the same name again. *)
Theorem legacy_get_dev_info2_counts_a_line_twice e ls l c rest nm0 mtd st fuel :
  buffered MTD_NAME_MAX e (ls ++ [l]) (c :: rest) -> c <> "m"%char ->
  matching nm0 ls = [] -> streq nm0 (l_name l) = true ->
  (length ls + 1 < fuel)%nat ->
  exists st',
    legacy_get_dev_info2 MTD_NAME_MAX fuel e nm0 mtd st = Some (-1, mtd, st')
    /\ errno st' = ENODEV
    /\ log st' = log st ++ [D_pattern_not_found; D_multiple nm0].
Proof.
  intros Hbuf Hc Hnone Hl Hfuel.
  destruct (proc_parse_start_buffered e (ls ++ [l]) (c :: rest) (stack_pi e) st Hbuf)
    as (pi & junk & Hstart & Hb & Hn & Hd & _).
  destruct Hbuf as (_ & _ & _ & Hlines).
  pose proof (while_parse_next_prefix (get_dev_info2_body nm0) (ls ++ [l]) PROC_MTD_FIRST
                ((c :: rest) ++ junk) pi (-1) (do_close (do_xmalloc (do_open st)))
                Hlines Hb Hn ltac:(lia)) as Hrun.
  assert (Hnum : forall l0, In l0 (ls ++ [l]) -> 0 <= line_num l0).
  { intros l0 Hl0. rewrite forallb_forall in Hlines.
    now apply (wf_line_num MTD_NAME_MAX), Hlines. }
  rewrite (fold_dev_info2 nm0 (ls ++ [l]) (-1) Hnum) in Hrun.
  assert (Hmatch : matching nm0 (ls ++ [l]) = [l]).
  { unfold matching in *. rewrite filter_app, Hnone. cbn. now rewrite Hl. }
  rewrite Hmatch in Hrun. change (-1 >=? 0) with false in Hrun. cbv iota in Hrun.
  destruct Hrun as (pi' & st' & (Hfd & Hbufs & Herr & Hlog) & Hb' & Hd' & Hn' & _ & Hname & Hrun).
  rewrite map_app in Hname. cbn [map] in Hname. rewrite last_last in Hname.
  assert (Hfail : proc_parse_next MTD_NAME_MAX pi' st'
                  = (-1, pi', say D_pattern_not_found (do_read (span (pi_next pi') 1) st'))).
  { apply proc_parse_next_not_mtd with (c := c) (tl := rest ++ junk); [|exact Hc|].
    - apply from_at with (PROC_MTD_FIRST ++ concat (map render (ls ++ [l]))).
      + rewrite Hb', Hb. now rewrite <- app_assoc.
      + rewrite Hn'. now rewrite length_app.
    - rewrite Hn', Hd', Hd. cbn [length]. lia. }
  unfold legacy_get_dev_info2. rewrite Hstart. change (negb (0 =? 0)) with false.
  cbv iota.
  replace fuel with (length (ls ++ [l]) + S (fuel - length ls - 2))%nat
    by (rewrite length_app; cbn [length]; lia).
  rewrite Hrun. cbn [while_parse_next]. rewrite Hfail.
  change (-1 =? 0) with false. cbv iota.
  unfold get_dev_info2_body at 1. rewrite Hname, Hl.
  rewrite (proj2 (Z.geb_le _ _)) by (apply Hnum, in_or_app; right; now left).
  unfold errmsg. eexists. split; [reflexivity|]. split; [reflexivity|].
  cbn [log say set_errno do_read]. rewrite Hlog, <- app_assoc. reflexivity.
Qed.

(** ** The descriptor assembler, path by path *)

Lemma open_fds_sys r st : open_fds (sys r st) = open_fds st.
Proof. unfold sys. now destruct (rv r =? -1). Qed.

Lemma live_bufs_sys r st : live_bufs (sys r st) = live_bufs st.
Proof. unfold sys. now destruct (rv r =? -1). Qed.

Lemma log_sys r st : log (sys r st) = log st.
Proof. unfold sys. now destruct (rv r =? -1). Qed.

Lemma probe_resources e node st :
  open_fds (snd (legacy_get_mtd_oobavail e node st)) = open_fds st
  /\ live_bufs (snd (legacy_get_mtd_oobavail e node st)) = live_bufs st.
Proof.
  unfold legacy_get_mtd_oobavail, errmsg, sys_errmsg.
  destruct (dev_nodes e node) as [nd|]; [|now split].
  repeat match goal with
    | |- context [if ?c then _ else _] => destruct c
    end;
    cbn [snd open_fds live_bufs do_close do_open say set_errno];
    rewrite ?open_fds_sys, ?live_bufs_sys; cbn; now split.
Qed.

Lemma proc_parse_next_fds pi st :
  open_fds (snd (proc_parse_next MTD_NAME_MAX pi st)) = open_fds st.
Proof.
  unfold proc_parse_next, errmsg. cbv beta iota zeta. split_ifs; reflexivity.
Qed.

Lemma proc_parse_start_fds e pi st :
  open_fds (snd (proc_parse_start e pi st)) = open_fds st.
Proof.
  unfold proc_parse_start, errmsg, sys_errmsg.
  destruct (proc_mtd e) as [content|]; [|reflexivity].
  destruct (proc_read e); [reflexivity|].
  destruct (read_into content (heap_junk e)) as [b ret].
  destruct ((ret <? PROC_MTD_FIRST_LEN)
            || negb (memcmp_eq b PROC_MTD_FIRST PROC_MTD_FIRST_LEN)); reflexivity.
Qed.

Lemma while_parse_next_fds {A R : Type} (body : Z -> list ascii -> A -> A + R) fuel :
  forall pi acc st x pi' st',
    while_parse_next MTD_NAME_MAX body fuel pi acc st = Some (x, pi', st') ->
    open_fds st' = open_fds st.
Proof.
  induction fuel as [|fuel IH]; intros pi acc st x pi' st'; [discriminate|].
  cbn [while_parse_next].
  pose proof (proc_parse_next_fds pi st) as Hstep.
  destruct (proc_parse_next MTD_NAME_MAX pi st) as [[r pi1] st1]. cbn [snd] in Hstep.
  destruct (r =? 0); [intros [= _ _ <-]; exact Hstep|].
  destruct (body (pi_mtd_num pi1) (pi_name pi1) acc).
  - intros H. rewrite (IH _ _ _ _ _ _ H). exact Hstep.
  - intros [= _ _ <-]. exact Hstep.
Qed.

Lemma find_name_fds fuel e mtd st r m st' :
  find_name MTD_NAME_MAX fuel e mtd st = Some (r, m, st') ->
  open_fds st' = open_fds st /\ (r = 0 \/ r = -1).
Proof.
  unfold find_name, errmsg.
  pose proof (proc_parse_start_fds e (stack_pi e) st) as Hstart.
  destruct (proc_parse_start e (stack_pi e) st) as [[ret pi] st1]. cbn [snd] in Hstart.
  destruct (negb (ret =? 0)); [intros [= <- _ <-]; split; [exact Hstart | now right]|].
  destruct (while_parse_next MTD_NAME_MAX (get_dev_info_body (mtd_num mtd)) fuel pi tt st1)
    as [[[[[]|nm] pi'] st2]|] eqn:Erun; [| |discriminate];
    apply while_parse_next_fds in Erun; intros [= <- _ <-]; cbn; (split; [congruence|]);
    [now right | now left].
Qed.

Lemma legacy_get_dev_info_fds fuel e node mtd st r m st' :
  legacy_get_dev_info MTD_NAME_MAX fuel e node mtd st = Some (r, m, st') ->
  open_fds st' = open_fds st /\ (r = 0 \/ r = -1).
Proof.
  unfold legacy_get_dev_info.
  destruct (dev_nodes e node) as [nd|] eqn:Hnode.
  2:{ unfold sys_errmsg. cbv beta iota zeta.
      destruct (_ =? ENOENT); intros [= <- _ <-]; (split; [reflexivity | now right]). }
  unfold errmsg, sys_errmsg, out_close. cbv beta iota zeta.
  destruct (negb (rv (nd_fstat nd) =? 0));
    [intros [= <- _ <-]; cbn; rewrite open_fds_sys; cbn; split; [reflexivity | now right]|].
  destruct (negb (nd_is_chr nd));
    [intros [= <- _ <-]; cbn; rewrite open_fds_sys; cbn; split; [reflexivity | now right]|].
  destruct (negb (major (with_rdev (nd_major nd) (nd_minor nd) mtd_zero) =? MTD_DEV_MAJOR));
    [intros [= <- _ <-]; cbn; rewrite open_fds_sys; cbn; split; [reflexivity | now right]|].
  destruct (negb (rv (nd_memgetinfo nd) =? 0));
    [intros [= <- _ <-]; cbn; rewrite !open_fds_sys; cbn; split; [reflexivity | now right]|].
  match goal with
  | |- context [if (?a =? -1) && ?b then _ else _] => destruct ((a =? -1) && b)
  end; [intros [= <- _ <-]; cbn; rewrite !open_fds_sys; cbn; split; [reflexivity | now right]|].
  match goal with
  | |- context [let '(m, s) := ?x in _] => destruct x as [mtd1 st1] eqn:Ebb
  end.
  assert (Hst1 : open_fds st1 = S (open_fds st)).
  { destruct (rv (nd_memgetbadblock nd) =? -1); injection Ebb as _ <-;
      cbn; rewrite !open_fds_sys; reflexivity. }
  set (mtd2 := with_geometry (nd_ui nd) mtd1) in *.
  destruct (min_io_size mtd2 <=? 0);
    [intros [= <- _ <-]; cbn; rewrite Hst1; split; [reflexivity | now right]|].
  destruct ((eb_size mtd2 <=? 0) || (eb_size mtd2 <? min_io_size mtd2));
    [intros [= <- _ <-]; cbn; rewrite Hst1; split; [reflexivity | now right]|].
  destruct ((size mtd2 <=? 0) || (size mtd2 <? eb_size mtd2));
    [intros [= <- _ <-]; cbn; rewrite Hst1; split; [reflexivity | now right]|].
  set (mtd3 := with_eb_cnt (to_int (size mtd2 ÷ eb_size mtd2)) mtd2).
  destruct (type mtd3 =? MTD_ABSENT);
    [intros [= <- _ <-]; cbn; rewrite Hst1; split; [reflexivity | now right]|].
  destruct (type_name (type mtd3)) as [s|];
    [|intros [= <- _ <-]; cbn; rewrite Hst1; split; [reflexivity | now right]].
  pose proof (probe_resources e node (do_close st1)) as [Hprobe _].
  destruct (legacy_get_mtd_oobavail e node (do_close st1)) as [ret stp].
  cbn [snd] in Hprobe. intros Hfind. apply find_name_fds in Hfind as [Hfd Hr].
  split; [|exact Hr]. rewrite Hfd, Hprobe. cbn. now rewrite Hst1.
Qed.

(** X10.  No function of the file returns with a file descriptor still open:
    the probe, [legacy_dev_present], [legacy_mtd_get_info],
    [legacy_get_dev_info] and [legacy_get_dev_info2] leave as many
    descriptors open as they found, whatever the environment answers and on
    every return; and the four that return a status return 0, 1 (for
    [legacy_dev_present] only) or [-1]. *)
Theorem no_descriptor_is_left_open :
  (forall e node st,
      open_fds (snd (legacy_get_mtd_oobavail e node st)) = open_fds st)
  /\ (forall fuel e n st r st',
        legacy_dev_present MTD_NAME_MAX fuel e n st = Some (r, st') ->
        open_fds st' = open_fds st /\ (r = 0 \/ r = 1 \/ r = -1))
  /\ (forall fuel e info st r info' st',
        legacy_mtd_get_info MTD_NAME_MAX fuel e info st = Some (r, info', st') ->
        open_fds st' = open_fds st /\ (r = 0 \/ r = -1))
  /\ (forall fuel e node mtd st r m st',
        legacy_get_dev_info MTD_NAME_MAX fuel e node mtd st = Some (r, m, st') ->
        open_fds st' = open_fds st /\ (r = 0 \/ r = -1))
  /\ (forall fuel e nm0 mtd st r m st',
        legacy_get_dev_info2 MTD_NAME_MAX fuel e nm0 mtd st = Some (r, m, st') ->
        open_fds st' = open_fds st /\ (r = 0 \/ r = -1)).
Proof.
  split; [intros; apply probe_resources|].
  split.
  { intros fuel e n st r st'. unfold legacy_dev_present.
    pose proof (proc_parse_start_fds e (stack_pi e) st) as Hstart.
    destruct (proc_parse_start e (stack_pi e) st) as [[ret pi] st1]. cbn [snd] in Hstart.
    destruct (negb (ret =? 0)); [intros [= <- <-]; split; [exact Hstart | now right; right]|].
    destruct (while_parse_next MTD_NAME_MAX (dev_present_body n) fuel pi tt st1)
      as [[[[[]|x] pi'] st2]|] eqn:Erun; [| |discriminate];
      intros [= <- <-]; apply while_parse_next_fds in Erun as Hfd;
      (split; [congruence|]); [now left|].
    right; left.
    clear - Erun. revert pi st1 Erun.
    induction fuel as [|fuel IH]; intros pi st1; [discriminate|].
    cbn [while_parse_next].
    destruct (proc_parse_next MTD_NAME_MAX pi st1) as [[r0 pi1] st3].
    destruct (r0 =? 0); [discriminate|].
    unfold dev_present_body at 1.
    destruct (pi_mtd_num pi1 =? n); [now intros [= <- _ _] | apply IH]. }
  split.
  { intros fuel e info st r info' st'. unfold legacy_mtd_get_info.
    pose proof (proc_parse_start_fds e (stack_pi e) st) as Hstart.
    destruct (proc_parse_start e (stack_pi e) st) as [[ret pi] st1]. cbn [snd] in Hstart.
    destruct (negb (ret =? 0)); [intros [= <- _ <-]; split; [exact Hstart | now right]|].
    destruct (while_parse_next MTD_NAME_MAX get_info_body fuel pi
                (mk_info (mtd_dev_cnt info) INT_MAX (highest_mtd_num info)) st1)
      as [[[[info1|[]] pi'] st2]|] eqn:Erun; [|discriminate].
    intros [= <- _ <-]. apply while_parse_next_fds in Erun.
    split; [congruence | now left]. }
  split; [intros *; apply legacy_get_dev_info_fds|].
  intros fuel e nm0 mtd st r m st'. unfold legacy_get_dev_info2, errmsg.
  pose proof (proc_parse_start_fds e (stack_pi e) st) as Hstart.
  destruct (proc_parse_start e (stack_pi e) st) as [[ret pi] st1]. cbn [snd] in Hstart.
  destruct (negb (ret =? 0)); [intros [= <- _ <-]; split; [exact Hstart | now right]|].
  destruct (while_parse_next MTD_NAME_MAX (get_dev_info2_body nm0) fuel pi (-1) st1)
    as [[[[found|[]] pi'] st2]|] eqn:Erun; [| |discriminate];
    apply while_parse_next_fds in Erun.
  - destruct (found <? 0).
    + intros [= <- _ <-]. cbn. split; [congruence | now right].
    + unfold legacy_get_dev_info1. intros H. apply legacy_get_dev_info_fds in H as [Hfd Hr].
      split; [congruence | exact Hr].
  - intros [= <- _ <-]. cbn. split; [congruence | now right].
Qed.

(** X11.  [legacy_get_dev_info] either fails before it touches [*mtd] (the
    node cannot be opened or examined, or is not a character device), and
    then hands the structure back as it was, or clears it first: from then on
    neither the status nor the descriptor depends on what the structure held
    on entry. *)
Theorem legacy_get_dev_info_clears_the_descriptor fuel e node mtd st r m st' :
  legacy_get_dev_info MTD_NAME_MAX fuel e node mtd st = Some (r, m, st') ->
  r = -1 /\ m = mtd
  \/ forall mtd2,
       legacy_get_dev_info MTD_NAME_MAX fuel e node mtd2 st = Some (r, m, st').
Proof.
  unfold legacy_get_dev_info, errmsg, sys_errmsg.
  destruct (dev_nodes e node) as [nd|]; [|intros [= <- <- _]; now left].
  cbv beta iota zeta.
  destruct (negb (rv (nd_fstat nd) =? 0)); [intros [= <- <- _]; now left|].
  destruct (negb (nd_is_chr nd)); [intros [= <- <- _]; now left|].
  intros H. right. intros mtd2. exact H.
Qed.

Lemma node_valid_fields nd :
  node_valid nd = true ->
  (rv (nd_fstat nd) =? 0) = true /\ nd_is_chr nd = true
  /\ (nd_major nd =? MTD_DEV_MAJOR) = true /\ (rv (nd_memgetinfo nd) =? 0) = true
  /\ ((rv (nd_memgetbadblock nd) =? -1)
      && negb (err (nd_memgetbadblock nd) =? EOPNOTSUPP)) = false
  /\ 0 < min_io_of (nd_ui nd) <= eb_size_of (nd_ui nd)
  /\ eb_size_of (nd_ui nd) <= size_of (nd_ui nd).
Proof.
  unfold node_valid, geometry_ok. intros H.
  repeat (apply andb_prop in H as [H ?]).
  repeat split; try assumption; lia.
Qed.

(** A valid node takes [legacy_get_dev_info] to the [switch] on the type. *)
Lemma legacy_get_dev_info_valid fuel e node nd mtd st :
  dev_nodes e node = Some nd -> node_valid nd = true ->
  if to_int (ui_type (nd_ui nd)) =? MTD_ABSENT then
    exists m st',
      legacy_get_dev_info MTD_NAME_MAX fuel e node mtd st = Some (-1, m, st')
      /\ log st' = log st ++ [D_absent (Z.quot (nd_minor nd) 2)]
      /\ open_fds st' = open_fds st
  else
    match type_name (to_int (ui_type (nd_ui nd))) with
    | None =>
        exists m st',
          legacy_get_dev_info MTD_NAME_MAX fuel e node mtd st = Some (-1, m, st')
          /\ log st' = log st /\ open_fds st' = open_fds st
    | Some _ =>
        exists stp,
          legacy_get_dev_info MTD_NAME_MAX fuel e node mtd st
          = find_name MTD_NAME_MAX fuel e
              (descriptor_of nd [] (clamp (fst (legacy_get_mtd_oobavail e node st)))) stp
          /\ open_fds stp = open_fds st /\ live_bufs stp = live_bufs st
    end.
Proof.
  intros Hnode (Hstat & Hchr & Hmaj & Hinfo & Hbb & Hio & Hsz)%node_valid_fields.
  unfold legacy_get_dev_info. rewrite Hnode.
  unfold errmsg, sys_errmsg, out_close. cbv beta iota zeta.
  rewrite Hstat, Hchr. cbn [negb major with_rdev]. rewrite Hmaj, Hinfo. cbn [negb].
  set (st0 := sys (nd_memgetinfo nd) (sys (nd_fstat nd) (do_open st))).
  assert (Hst0 : open_fds st0 = S (open_fds st) /\ live_bufs st0 = live_bufs st
                 /\ log st0 = log st).
  { subst st0. rewrite !open_fds_sys, !live_bufs_sys, !log_sys. now repeat split. }
  assert (Hcond : ((rv (nd_memgetbadblock nd) =? -1)
                   && negb (errno (sys (nd_memgetbadblock nd) st0) =? EOPNOTSUPP)) = false).
  { unfold sys. destruct (rv (nd_memgetbadblock nd) =? -1); [|reflexivity].
    exact Hbb. }
  rewrite Hcond.
  match goal with
  | |- context [let '(m, s) := ?x in _] => destruct x as [mtd1 st1] eqn:Ebb
  end.
  assert (Hst1 : open_fds st1 = S (open_fds st) /\ live_bufs st1 = live_bufs st
                 /\ log st1 = log st).
  { destruct (rv (nd_memgetbadblock nd) =? -1); injection Ebb as _ <-; cbn;
      rewrite ?open_fds_sys, ?live_bufs_sys, ?log_sys; exact Hst0. }
  assert (Hmtd1 : mtd1 = with_bb_allowed (if rv (nd_memgetbadblock nd) =? -1 then 0 else 1)
                           (with_mtd_num (Z.quot (nd_minor nd) 2)
                              (with_rdev (nd_major nd) (nd_minor nd) mtd_zero))).
  { destruct (rv (nd_memgetbadblock nd) =? -1); injection Ebb as <- _; reflexivity. }
  destruct Hst1 as (Hfd1 & Hbufs1 & Hlog1).
  change (min_io_size (with_geometry (nd_ui nd) mtd1)) with (min_io_of (nd_ui nd)).
  change (eb_size (with_geometry (nd_ui nd) mtd1)) with (eb_size_of (nd_ui nd)).
  change (size (with_geometry (nd_ui nd) mtd1)) with (size_of (nd_ui nd)).
  rewrite (proj2 (Z.leb_gt _ _)) by lia.
  rewrite (proj2 (Z.leb_gt (eb_size_of (nd_ui nd)) 0)) by lia.
  rewrite (proj2 (Z.ltb_ge (eb_size_of (nd_ui nd)) _)) by lia.
  rewrite (proj2 (Z.leb_gt (size_of (nd_ui nd)) 0)) by lia.
  rewrite (proj2 (Z.ltb_ge (size_of (nd_ui nd)) _)) by lia.
  cbn [orb].
  change (type (with_eb_cnt _ (with_geometry (nd_ui nd) mtd1)))
    with (to_int (ui_type (nd_ui nd))).
  change (mtd_num (with_eb_cnt _ (with_geometry (nd_ui nd) mtd1))) with (mtd_num mtd1).
  destruct (to_int (ui_type (nd_ui nd)) =? MTD_ABSENT) eqn:Eabs.
  { eexists _, _. split; [reflexivity|]. cbn. rewrite Hfd1, Hlog1, Hmtd1. now split. }
  destruct (type_name (to_int (ui_type (nd_ui nd)))) as [s|] eqn:Etype.
  2:{ eexists _, _. split; [reflexivity|]. cbn. rewrite Hfd1, Hlog1. now split. }
  pose proof (probe_resources e node (do_close st1)) as [Hpfd Hpbufs].
  pose proof (probe_value_indep e node (do_close st1) st) as Hval.
  destruct (legacy_get_mtd_oobavail e node (do_close st1)) as [ret stp].
  cbn [fst snd] in Hpfd, Hpbufs, Hval. exists stp.
  split.
  - f_equal. rewrite <- Hval. unfold descriptor_of, clamp. rewrite Etype, Hmtd1.
    destruct (Z.land (ui_flags (nd_ui nd)) MTD_WRITEABLE =? 0); reflexivity.
  - rewrite Hpfd, Hpbufs. cbn. now rewrite Hfd1, Hbufs1.
Qed.

Lemma fold_get_dev_info n ls :
  fold_records (get_dev_info_body n) ls tt
  = match line_of n ls with
    | Some l => inr (cstr (l_name l))
    | None => inl tt
    end.
Proof.
  induction ls as [|l ls IH]; [reflexivity|].
  cbn [fold_records line_of find]. unfold get_dev_info_body at 1.
  destruct (line_num l =? n); [reflexivity | exact IH].
Qed.

Lemma find_name_found fuel e ls rest mtd st l :
  buffered MTD_NAME_MAX e ls rest -> (length ls <= fuel)%nat ->
  line_of (mtd_num mtd) ls = Some l ->
  exists st',
    find_name MTD_NAME_MAX fuel e mtd st
    = Some (0, with_name (cstr (l_name l)) mtd, st')
    /\ open_fds st' = open_fds st /\ live_bufs st' = S (live_bufs st)
    /\ log st' = log st.
Proof.
  intros Hbuf Hfuel Hline.
  destruct (proc_parse_start_buffered e ls rest (stack_pi e) st Hbuf)
    as (pi & junk & Hstart & Hb & Hn & Hd & _).
  destruct Hbuf as (_ & _ & _ & Hlines).
  pose proof (while_parse_next_prefix (get_dev_info_body (mtd_num mtd)) ls PROC_MTD_FIRST
                (rest ++ junk) pi tt (do_close (do_xmalloc (do_open st)))
                Hlines Hb Hn ltac:(lia)) as Hrun.
  rewrite fold_get_dev_info, Hline in Hrun.
  destruct (Hrun fuel Hfuel) as (pi' & st' & Hwhile & Hfd & Hbufs & _ & Hlog).
  unfold find_name. rewrite Hstart. change (negb (0 =? 0)) with false. cbv iota.
  rewrite Hwhile. exists st'. now repeat split.
Qed.

Lemma find_name_missing fuel e ls mtd st :
  well_formed MTD_NAME_MAX e ls -> (length ls < fuel)%nat ->
  line_of (mtd_num mtd) ls = None ->
  exists st',
    find_name MTD_NAME_MAX fuel e mtd st = Some (-1, mtd, st')
    /\ open_fds st' = open_fds st /\ live_bufs st' = live_bufs st
    /\ errno st' = ENOENT /\ log st' = log st ++ [D_not_in_proc (mtd_num mtd)].
Proof.
  intros Hwf Hfuel Hline.
  destruct (scan_well_formed MTD_NAME_MAX (get_dev_info_body (mtd_num mtd)) e ls
              (stack_pi e) tt st fuel Hwf Hfuel)
    as (pi & st1 & pi' & st' & Hstart & Hrun & Hfd & _ & Hlog & Hbufs).
  rewrite fold_get_dev_info, Hline in Hrun, Hbufs.
  unfold find_name, errmsg. rewrite Hstart. change (negb (0 =? 0)) with false. cbv iota.
  rewrite Hrun. eexists. split; [reflexivity|]. cbn. rewrite Hlog. now repeat split.
Qed.

(** X12.  The round trip of the assembly.  When the node passes every check,
    [/proc/mtd] is at most [PROC_MTD_MAX_LEN] bytes long (it fits the buffer)
    and a well-formed line at its start shows the device number of the node
    ([minor / 2]), [legacy_get_dev_info] returns 0 and the descriptor
    holds exactly what the node reported (size, erase-unit size, write unit,
    type and its name, flags), the quotient of the sizes, the clamped value
    of the probe, and the name of the first line with that number. *)
Theorem legacy_get_dev_info_assembles fuel e node nd ls rest l mtd st :
  dev_nodes e node = Some nd -> node_passes nd = true ->
  buffered MTD_NAME_MAX e ls rest ->
  line_of (Z.quot (nd_minor nd) 2) ls = Some l ->
  (length ls <= fuel)%nat ->
  exists st',
    legacy_get_dev_info MTD_NAME_MAX fuel e node mtd st
    = Some (0,
            descriptor_of nd (cstr (l_name l))
              (clamp (fst (legacy_get_mtd_oobavail e node st))),
            st')
    /\ open_fds st' = open_fds st.
Proof.
  intros Hnode Hpass Hbuf Hline Hfuel. unfold node_passes in Hpass.
  apply andb_prop in Hpass as [[Hvalid Habs%negb_true_iff]%andb_prop Htype].
  pose proof (legacy_get_dev_info_valid fuel e node nd mtd st Hnode Hvalid) as Hrun.
  rewrite Habs in Hrun.
  destruct (type_name (to_int (ui_type (nd_ui nd)))) as [s|] eqn:Etype; [|discriminate].
  destruct Hrun as (stp & -> & Hfd & _).
  destruct (find_name_found fuel e ls rest
              (descriptor_of nd [] (clamp (fst (legacy_get_mtd_oobavail e node st))))
              stp l Hbuf Hfuel Hline) as (st' & -> & Hfd' & _).
  exists st'. split; [reflexivity | congruence].
Qed.

(** X13.  When the node passes every check but no line of the well-formed
    listing, which fits the buffer of [PROC_MTD_MAX_LEN] bytes, shows its
    device number, [legacy_get_dev_info] returns [-1] with [errno] set to
    [ENOENT]; the last diagnostic names the device number, the node is closed
    and the scan buffer is freed. *)
Theorem legacy_get_dev_info_without_line fuel e node nd ls mtd st :
  dev_nodes e node = Some nd -> node_passes nd = true ->
  well_formed MTD_NAME_MAX e ls ->
  line_of (Z.quot (nd_minor nd) 2) ls = None ->
  (length ls < fuel)%nat ->
  exists m st' before,
    legacy_get_dev_info MTD_NAME_MAX fuel e node mtd st = Some (-1, m, st')
    /\ errno st' = ENOENT
    /\ log st' = before ++ [D_not_in_proc (Z.quot (nd_minor nd) 2)]
    /\ open_fds st' = open_fds st /\ live_bufs st' = live_bufs st.
Proof.
  intros Hnode Hpass Hwf Hline Hfuel. unfold node_passes in Hpass.
  apply andb_prop in Hpass as [[Hvalid Habs%negb_true_iff]%andb_prop Htype].
  pose proof (legacy_get_dev_info_valid fuel e node nd mtd st Hnode Hvalid) as Hrun.
  rewrite Habs in Hrun.
  destruct (type_name (to_int (ui_type (nd_ui nd)))) as [s|] eqn:Etype; [|discriminate].
  destruct Hrun as (stp & -> & Hfd & Hbufs).
  destruct (find_name_missing fuel e ls
              (descriptor_of nd [] (clamp (fst (legacy_get_mtd_oobavail e node st))))
              stp Hwf Hfuel Hline) as (st' & -> & Hfd' & Hbufs' & Herr & Hlog).
  eexists _, st', (log stp). split; [reflexivity|].
  repeat split; try assumption; congruence.
Qed.

(** X14.  A node that passes the validation of its geometry but reports a
    type the [switch] does not know makes [legacy_get_dev_info] return [-1]
    without printing anything; for the type [MTD_ABSENT] the diagnostic says
    so.  In both cases the node is closed and [/proc/mtd] is not read. *)
Theorem legacy_get_dev_info_unknown_type e node nd mtd st :
  dev_nodes e node = Some nd -> node_valid nd = true ->
  type_name (to_int (ui_type (nd_ui nd))) = None ->
  exists m st',
    legacy_get_dev_info MTD_NAME_MAX 0 e node mtd st = Some (-1, m, st')
    /\ open_fds st' = open_fds st
    /\ log st' = log st
             ++ (if to_int (ui_type (nd_ui nd)) =? MTD_ABSENT
                 then [D_absent (Z.quot (nd_minor nd) 2)] else []).
Proof.
  intros Hnode Hvalid Htype.
  pose proof (legacy_get_dev_info_valid 0 e node nd mtd st Hnode Hvalid) as Hrun.
  rewrite Htype in Hrun.
  destruct (to_int (ui_type (nd_ui nd)) =? MTD_ABSENT);
    destruct Hrun as (m & st' & Hrun & Hlog & Hfd); exists m, st';
    (split; [exact Hrun|]); (split; [exact Hfd|]); rewrite Hlog, ?app_nil_r; reflexivity.
Qed.

Lemma well_formed_buffered e ls :
  well_formed MTD_NAME_MAX e ls -> buffered MTD_NAME_MAX e ls [].
Proof. unfold well_formed, buffered. now rewrite app_nil_r. Qed.

Lemma streq_cstr a b : streq a b = true -> cstr a = cstr b.
Proof.
  unfold streq. now destruct (list_eq_dec ascii_dec (cstr a) (cstr b)).
Qed.

(** X15.  Looking a device up by name and by number agree: when exactly one
    line of the well-formed listing, which fits the buffer of
    [PROC_MTD_MAX_LEN] bytes, has the requested name, it is the first line
    with its device number, and the node [/dev/mtd<N>] of that number passes
    every check with [minor / 2 = N], [legacy_get_dev_info2] returns 0 with
    the descriptor of that node, whose name is the requested one. *)
Theorem legacy_get_dev_info2_finds_the_device e ls l nd nm0 mtd st fuel :
  well_formed MTD_NAME_MAX e ls -> matching nm0 ls = [l] ->
  line_of (line_num l) ls = Some l ->
  dev_nodes e (dev_path (line_num l)) = Some nd -> node_passes nd = true ->
  Z.quot (nd_minor nd) 2 = line_num l ->
  (length ls < fuel)%nat ->
  exists m st',
    legacy_get_dev_info2 MTD_NAME_MAX fuel e nm0 mtd st = Some (0, m, st')
    /\ m = descriptor_of nd (cstr nm0)
             (clamp (fst (legacy_get_mtd_oobavail e (dev_path (line_num l)) st)))
    /\ mtd_num m = line_num l /\ name m = cstr nm0.
Proof.
  intros Hwf Hmatch Hline Hnode Hpass Hminor Hfuel.
  destruct (scan_well_formed MTD_NAME_MAX (get_dev_info2_body nm0) e ls (stack_pi e) (-1)
              st fuel Hwf Hfuel)
    as (pi & st1 & pi' & st' & Hstart & Hrun & _).
  assert (Hnum : forall l0, In l0 ls -> 0 <= line_num l0).
  { destruct Hwf as (_ & _ & _ & Hlines). intros l0 Hl0.
    rewrite forallb_forall in Hlines. now apply (wf_line_num MTD_NAME_MAX), Hlines. }
  assert (Hl : In l ls /\ streq nm0 (l_name l) = true).
  { apply (proj1 (filter_In (fun l => streq nm0 (l_name l)) l ls)).
    fold (matching nm0 ls). rewrite Hmatch. now left. }
  rewrite (fold_dev_info2 nm0 ls (-1) Hnum), Hmatch in Hrun.
  change (-1 >=? 0) with false in Hrun. cbv iota in Hrun.
  unfold legacy_get_dev_info2. rewrite Hstart. change (negb (0 =? 0)) with false.
  cbv iota. rewrite Hrun.
  rewrite (proj2 (Z.ltb_ge _ _)) by (apply Hnum, Hl).
  unfold legacy_get_dev_info1, node_passes in *.
  apply andb_prop in Hpass as [[Hvalid Habs%negb_true_iff]%andb_prop Htype].
  pose proof (legacy_get_dev_info_valid fuel e (dev_path (line_num l)) nd mtd st'
                Hnode Hvalid) as Hinfo.
  rewrite Habs in Hinfo.
  destruct (type_name (to_int (ui_type (nd_ui nd)))) as [s|] eqn:Etype; [|discriminate].
  destruct Hinfo as (stp & -> & _).
  rewrite (probe_value_indep e (dev_path (line_num l)) st' st).
  destruct (find_name_found fuel e ls []
              (descriptor_of nd []
                 (clamp (fst (legacy_get_mtd_oobavail e (dev_path (line_num l)) st))))
              stp l (well_formed_buffered e ls Hwf) ltac:(lia))
    as (st2 & -> & _).
  { cbn [mtd_num descriptor_of]. now rewrite Hminor. }
  eexists _, st2. split; [reflexivity|].
  rewrite <- (streq_cstr _ _ (proj2 Hl)).
  repeat split. cbn [mtd_num descriptor_of with_name]. exact Hminor.
Qed.

(** X16.  A result of [legacy_get_mtd_oobavail] that is not negative is the
    value the ECCGETLAYOUT request stored (as an [int]), obtained from a
    character device without any diagnostic; every failure, the unsupported
    request included, gives a negative result. *)
Theorem legacy_get_mtd_oobavail_value e node st :
  0 <= fst (legacy_get_mtd_oobavail e node st) ->
  exists nd,
    dev_nodes e node = Some nd /\ rv (nd_fstat nd) = 0 /\ nd_is_chr nd = true
    /\ 0 <= rv (nd_eccgetlayout nd)
    /\ fst (legacy_get_mtd_oobavail e node st) = to_int (nd_oobavail nd)
    /\ log (snd (legacy_get_mtd_oobavail e node st)) = log st.
Proof.
  unfold legacy_get_mtd_oobavail, errmsg, sys_errmsg.
  destruct (dev_nodes e node) as [nd|]; [|cbn; lia].
  destruct (Z.eqb_spec (rv (nd_fstat nd)) 0) as [Hstat|]; [|cbn; lia].
  destruct (nd_is_chr nd) eqn:Hchr; [|cbn; lia].
  cbn [negb].
  destruct (Z.ltb_spec (rv (nd_eccgetlayout nd)) 0) as [Hneg|Hok].
  { destruct (_ =? EOPNOTSUPP); cbn [fst]; lia. }
  cbn [fst snd]. intros _. exists nd. repeat split; try assumption.
  cbn. now rewrite !log_sys.
Qed.

End Extras.

(** ** The further properties at concrete inputs *)

Lemma two_lines_buffered nd : buffered 127 (env_flash nd two_lines) two_lines [].
Proof. repeat split; vm_compute; discriminate. Defined.

Lemma two_lines_then_garbage :
  buffered 127 (env_tail two_lines (text "garbage")) two_lines
    ("g"%char :: text "arbage").
Proof. repeat split; vm_compute; discriminate. Defined.

Lemma data_line_well_formed nd :
  well_formed 127 (env_flash nd [data_line]) [data_line].
Proof. repeat split; vm_compute; discriminate. Defined.

(** X2 on the listing of two devices. *)
Lemma proc_parse_start_cursor_witness :
  exists pi' st',
    proc_parse_start (env_flash node_1M two_lines) pi_blank st_init = (0, pi', st')
    /\ pi_next pi' = PROC_MTD_FIRST_LEN
    /\ PROC_MTD_FIRST_LEN <= pi_data_size pi' <= PROC_MTD_MAX_LEN.
Proof.
  eexists. eexists.
  assert (H : proc_parse_start (env_flash node_1M two_lines) pi_blank st_init = (0, _, _))
    by (vm_compute; reflexivity).
  split; [exact H|].
  destruct (proc_parse_start_cursor _ _ _ _ _ H) as (_ & Hnext & Hsize & _).
  split; [exact Hnext | exact Hsize].
Defined.

(** X4 on the first line of the listing of two devices. *)
Lemma proc_parse_next_record_witness :
  exists pi' st',
    proc_parse_next 127 (cursor_on (listing two_lines)) st_init = (1, pi', st')
    /\ byte_at (listing two_lines) (pi_next pi' - 1) = newline
    /\ no_quote (pi_name pi') = true.
Proof.
  eexists. eexists.
  assert (H : proc_parse_next 127 (cursor_on (listing two_lines)) st_init = (1, _, _))
    by (vm_compute; reflexivity).
  split; [exact H|].
  destruct (proc_parse_next_record 127 (cursor_on (listing two_lines)) st_init _ _
              ltac:(vm_compute; discriminate) H)
    as (_ & _ & Hnl & _ & Hname & _).
  split; [exact Hnl | exact Hname].
Defined.

(** X5: [mtd1] is found although the file goes on with a line that does not
    parse. *)
Lemma legacy_dev_present_early_exit_witness :
  exists st',
    legacy_dev_present 127 2 (env_tail two_lines (text "garbage")) 1 st_init
    = Some (1, st')
    /\ open_fds st' = O /\ log st' = [].
Proof.
  exact (legacy_dev_present_early_exit 127 _ two_lines _ 1 st_init 2
           two_lines_then_garbage
           ltac:(vm_compute; right; left; reflexivity) ltac:(vm_compute; lia)).
Defined.

(** X6: there is no [mtd5] among the two devices. *)
Lemma legacy_dev_present_absent_witness :
  exists st',
    legacy_dev_present 127 3 (env_flash node_1M two_lines) 5 st_init = Some (0, st')
    /\ open_fds st' = O /\ live_bufs st' = O /\ log st' = [].
Proof.
  exact (legacy_dev_present_absent 127 _ two_lines 5 st_init 3
           (two_lines_well_formed node_1M)
           ltac:(vm_compute; intros [H|[H|[]]]; discriminate)
           ltac:(vm_compute; lia)).
Defined.

(** X7: two device lines followed by [garbage]. *)
Lemma scan_loops_forever_after_bad_line_witness :
  (forall fuel info st,
      legacy_mtd_get_info 127 fuel (env_tail two_lines (text "garbage")) info st = None)
  /\ (forall fuel st,
        legacy_dev_present 127 fuel (env_tail two_lines (text "garbage")) 5 st = None).
Proof.
  destruct (scan_loops_forever_after_bad_line 127 _ two_lines _ _
              two_lines_then_garbage ltac:(discriminate))
    as [Hinfo Hpresent].
  split; [exact Hinfo|].
  intros fuel st. apply Hpresent.
  vm_compute. intros [H|[H|[H|[]]]]; discriminate.
Defined.

(** X8: a structure that already counts 5 devices counts 7 afterwards. *)
Lemma legacy_mtd_get_info_accumulates_witness :
  exists info' st',
    legacy_mtd_get_info 127 3 (env_flash node_1M two_lines) (mk_info 5 0 9) st_init
    = Some (0, info', st')
    /\ mtd_dev_cnt info' = 7 /\ highest_mtd_num info' = 9.
Proof.
  destruct (legacy_mtd_get_info_accumulates 127 _ two_lines (mk_info 5 0 9) st_init 3
              (two_lines_well_formed node_1M) ltac:(vm_compute; lia)
              ltac:(vm_compute; discriminate) ltac:(vm_compute; discriminate))
    as (info' & st' & Hrun & Hcnt & _ & Hhigh & _).
  exists info', st'. split; [exact Hrun|]. split; [exact Hcnt | exact Hhigh].
Defined.

(** X9: the only line named [data] is followed by [garbage]. *)
Lemma legacy_get_dev_info2_counts_a_line_twice_witness :
  exists st',
    legacy_get_dev_info2 127 3 (env_tail two_lines (text "garbage")) (text "data")
      mtd_zero st_init = Some (-1, mtd_zero, st')
    /\ errno st' = ENODEV
    /\ log st' = [D_pattern_not_found; D_multiple (text "data")].
Proof.
  exact (legacy_get_dev_info2_counts_a_line_twice 127 _ [rootfs_line] data_line _ _
           (text "data") mtd_zero st_init 3 two_lines_then_garbage
           ltac:(discriminate) eq_refl eq_refl ltac:(vm_compute; lia)).
Defined.

(** X10 at the node of 1 MiB and the listing of two devices. *)
Lemma no_descriptor_is_left_open_witness :
  exists r m st',
    legacy_get_dev_info 127 3 (env_flash node_1M two_lines) "/dev/mtd0" mtd_zero st_init
    = Some (r, m, st')
    /\ open_fds st' = O /\ (r = 0 \/ r = -1).
Proof.
  eexists. eexists. eexists.
  assert (H : legacy_get_dev_info 127 3 (env_flash node_1M two_lines) "/dev/mtd0"
                mtd_zero st_init = Some (_, _, _))
    by (vm_compute; reflexivity).
  split; [exact H|].
  exact (proj1 (proj2 (proj2 (proj2 (no_descriptor_is_left_open 127))))
           _ _ _ _ _ _ _ _ H).
Defined.

(** X11 at the node of 1 MiB: what the structure held does not matter. *)
Lemma legacy_get_dev_info_clears_the_descriptor_witness :
  exists r m st',
    legacy_get_dev_info 127 3 (env_flash node_1M two_lines) "/dev/mtd0" mtd_zero st_init
    = Some (r, m, st')
    /\ (r = -1 /\ m = mtd_zero
        \/ forall mtd2,
             legacy_get_dev_info 127 3 (env_flash node_1M two_lines) "/dev/mtd0" mtd2
               st_init = Some (r, m, st')).
Proof.
  eexists. eexists. eexists.
  assert (H : legacy_get_dev_info 127 3 (env_flash node_1M two_lines) "/dev/mtd0"
                mtd_zero st_init = Some (_, _, _))
    by (vm_compute; reflexivity).
  split; [exact H|].
  exact (legacy_get_dev_info_clears_the_descriptor 127 _ _ _ _ _ _ _ _ H).
Defined.

(** X12 at the node of 1 MiB: the descriptor of [mtd0], named [rootfs]. *)
Lemma legacy_get_dev_info_assembles_witness :
  exists st',
    legacy_get_dev_info 127 2 (env_flash node_1M two_lines) "/dev/mtd0" mtd_zero st_init
    = Some (0, descriptor_of node_1M (text "rootfs") 24, st')
    /\ open_fds st' = O.
Proof.
  exact (legacy_get_dev_info_assembles 127 2 (env_flash node_1M two_lines) "/dev/mtd0"
           node_1M two_lines [] rootfs_line mtd_zero st_init eq_refl eq_refl
           (two_lines_buffered node_1M) eq_refl ltac:(vm_compute; lia)).
Defined.

(** X13: [/dev/mtd0] exists but [/proc/mtd] lists only [mtd1]. *)
Lemma legacy_get_dev_info_without_line_witness :
  exists m st' before,
    legacy_get_dev_info 127 2 (env_flash node_1M [data_line]) "/dev/mtd0" mtd_zero st_init
    = Some (-1, m, st')
    /\ errno st' = ENOENT /\ log st' = before ++ [D_not_in_proc 0].
Proof.
  destruct (legacy_get_dev_info_without_line 127 2 (env_flash node_1M [data_line])
              "/dev/mtd0" node_1M [data_line] mtd_zero st_init eq_refl eq_refl
              (data_line_well_formed node_1M) eq_refl ltac:(vm_compute; lia))
    as (m & st' & before & Hrun & Herrno & Hlog & _).
  exists m, st', before. split; [exact Hrun|]. split; [exact Herrno | exact Hlog].
Defined.

(** X14 at a node of type 42. *)
Lemma legacy_get_dev_info_unknown_type_witness :
  exists m st',
    legacy_get_dev_info 127 0 (env_flash node_untyped two_lines) "/dev/mtd0" mtd_zero
      st_init = Some (-1, m, st')
    /\ open_fds st' = O /\ log st' = [].
Proof.
  exact (legacy_get_dev_info_unknown_type 127 (env_flash node_untyped two_lines)
           "/dev/mtd0" node_untyped mtd_zero st_init eq_refl eq_refl eq_refl).
Defined.

(** X15: [rootfs] is [mtd0], the node of 1 MiB. *)
Lemma legacy_get_dev_info2_finds_the_device_witness :
  exists m st',
    legacy_get_dev_info2 127 3 (env_flash node_1M two_lines) (text "rootfs") mtd_zero
      st_init = Some (0, m, st')
    /\ m = descriptor_of node_1M (text "rootfs") 24
    /\ mtd_num m = 0 /\ name m = text "rootfs".
Proof.
  exact (legacy_get_dev_info2_finds_the_device 127 (env_flash node_1M two_lines)
           two_lines rootfs_line node_1M (text "rootfs") mtd_zero st_init 3
           (two_lines_well_formed node_1M) eq_refl eq_refl eq_refl eq_refl eq_refl
           ltac:(vm_compute; lia)).
Defined.

(** X16 at the node of 1 MiB: the probe returns the 24 bytes of the node. *)
Lemma legacy_get_mtd_oobavail_value_witness :
  exists nd,
    dev_nodes (env_flash node_1M two_lines) "/dev/mtd0" = Some nd
    /\ fst (legacy_get_mtd_oobavail (env_flash node_1M two_lines) "/dev/mtd0" st_init)
       = to_int (nd_oobavail nd).
Proof.
  destruct (legacy_get_mtd_oobavail_value (env_flash node_1M two_lines) "/dev/mtd0"
              st_init ltac:(vm_compute; discriminate))
    as (nd & Hnode & _ & _ & _ & Hval & _).
  exists nd. split; [exact Hnode | exact Hval].
Defined.
